(** * DeepLabv3 (KimRass/deeplabv3): shape-level and control-flow model

    The development follows the two source files.

    - [model.py]: every layer is embedded as a function on tensor {e shapes}
      (the values of the tensors play no part in what is verified here).
      A layer either returns the shape of its output or raises the Python
      exception the framework raises for an ill-shaped input.
    - [train.py]: [get_lr], [evaluate] and the running loss are embedded
      over IEEE 754 binary64 numbers, which is what Python floats are; the
      training loop as explicit state passing with an exception result. *)

From Stdlib Require Import ZArith QArith List String Bool Lia.
From Stdlib Require Import SpecFloat.
Import ListNotations.

Local Open Scope Z_scope.

(** ** Python exceptions and the result of a call *)

Module Py.

Inductive exn : Type :=
| RuntimeError
| ValueError
| IndexError
| AttributeError
| ImportError
| StopIteration
| UnboundLocalError
| ZeroDivisionError
| OverflowError
| OtherError (name : string).

Inductive result (A : Type) : Type :=
| Ok (a : A)
| Raise (e : exn).

Arguments Ok {A} a.
Arguments Raise {A} e.

Definition bind {A B : Type} (r : result A) (k : A -> result B) : result B :=
  match r with
  | Ok a => k a
  | Raise e => Raise e
  end.

Definition exn_eqb (e1 e2 : exn) : bool :=
  match e1, e2 with
  | RuntimeError, RuntimeError => true
  | ValueError, ValueError => true
  | IndexError, IndexError => true
  | AttributeError, AttributeError => true
  | ImportError, ImportError => true
  | StopIteration, StopIteration => true
  | UnboundLocalError, UnboundLocalError => true
  | ZeroDivisionError, ZeroDivisionError => true
  | OverflowError, OverflowError => true
  | OtherError a, OtherError b => String.eqb a b
  | _, _ => false
  end.

Definition is_ok {A : Type} (r : result A) : bool :=
  match r with Ok _ => true | Raise _ => false end.

(** [assert_that c e] raises [e] unless the check [c] passes. *)
Definition assert_that (c : bool) (e : exn) : result unit :=
  if c then Ok tt else Raise e.

End Py.

Import Py.

Declare Scope py_scope.
Delimit Scope py_scope with py.
Notation "x <- c ;; k" := (Py.bind c (fun x => k))
  (at level 61, c at next level, right associativity) : py_scope.
Notation "c ;;; k" := (Py.bind c (fun _ => k))
  (at level 61, right associativity) : py_scope.
Local Open Scope py_scope.

(** ** The framework's layers, on shapes

    Semantics of the [torch.nn] layers that [model.py] instantiates, restricted
    to the shape of a rank-4 tensor [(batch, channel, height, width)]. *)

Module Torch.

Record Shape : Type := mkShape {
  batch : Z;
  channels : Z;
  height : Z;
  width : Z
}.

Definition Shape_eqb (s t : Shape) : bool :=
  (batch s =? batch t) && (channels s =? channels t)
  && (height s =? height t) && (width s =? width t).

(** [padding=p] (an integer, applied on both sides) or [padding="same"]. *)
Inductive Padding : Type :=
| Pad (p : Z)
| Same.

Record Conv2d : Type := mkConv2d {
  in_channels : Z;
  out_channels : Z;
  kernel_size : Z;
  stride : Z;
  padding : Padding;
  dilation : Z
}.

(** Extent of a dilated kernel along one axis. *)
Definition kernel_extent (cv : Conv2d) : Z :=
  dilation cv * (kernel_size cv - 1) + 1.

(** Total padding along one axis: [2 * p], or for ["same"] the amount that
    keeps the size at stride 1, [dilation * (kernel_size - 1)]. *)
Definition total_padding (cv : Conv2d) : Z :=
  match padding cv with
  | Pad p => 2 * p
  | Same => dilation cv * (kernel_size cv - 1)
  end.

Definition conv_out_size (cv : Conv2d) (n : Z) : Z :=
  (n + total_padding cv - kernel_extent cv) / stride cv + 1.

(** [nn.Conv2d(in_channels, out_channels, kernel_size, stride, padding,
    dilation)]: the constructor refuses [padding="same"] together with a
    stride other than 1 ([ValueError]); it then allocates the weight, of size
    [(out_channels, in_channels, kernel_size, kernel_size)], which fails on a
    negative size ([RuntimeError]).  Stride, padding and dilation are only
    looked at by [forward]. *)
Definition Conv2d_init (in_channels out_channels kernel_size stride : Z)
    (padding : Padding) (dilation : Z) : result Conv2d :=
  assert_that (match padding with Same => stride =? 1 | Pad _ => true end)
    ValueError ;;;
  assert_that ((0 <=? out_channels) && (0 <=? in_channels) && (0 <=? kernel_size))
    RuntimeError ;;;
  Ok (mkConv2d in_channels out_channels kernel_size stride padding dilation).

(** What the convolution itself asks of the layer: a positive stride,
    dilation and kernel size, at least one output channel, a padding that is
    not negative, and stride 1 with [padding="same"]. *)
Definition supported (cv : Conv2d) : bool :=
  (1 <=? stride cv) && (1 <=? dilation cv) && (1 <=? kernel_size cv)
  && (1 <=? out_channels cv)
  && match padding cv with
     | Pad p => 0 <=? p
     | Same => stride cv =? 1
     end.

(** [nn.Conv2d.forward]: the layer must be one the convolution supports, the
    channel count must be [in_channels] and the padded input must not be
    smaller than the kernel. *)
Definition Conv2d_forward (cv : Conv2d) (x : Shape) : result Shape :=
  assert_that (supported cv) RuntimeError ;;;
  assert_that (channels x =? in_channels cv) RuntimeError ;;;
  assert_that (kernel_extent cv <=? height x + total_padding cv) RuntimeError ;;;
  assert_that (kernel_extent cv <=? width x + total_padding cv) RuntimeError ;;;
  Ok (mkShape (batch x) (out_channels cv)
        (conv_out_size cv (height x)) (conv_out_size cv (width x))).

(** [nn.BatchNorm2d(num_features).forward].  In training mode the layer
    refuses an input with a single value per channel. *)
Definition BatchNorm2d_forward (num_features : Z) (training : bool) (x : Shape)
  : result Shape :=
  assert_that (negb (training && (batch x * height x * width x =? 1))) ValueError ;;;
  assert_that (channels x =? num_features) RuntimeError ;;;
  Ok x.

Definition ReLU_forward (x : Shape) : result Shape := Ok x.

(** [nn.MaxPool2d(kernel_size=k, stride=s, padding=p)]. *)
Definition MaxPool2d_forward (k s p : Z) (x : Shape) : result Shape :=
  let out n := (n + 2 * p - k) / s + 1 in
  assert_that ((0 <? out (height x)) && (0 <? out (width x))) RuntimeError ;;;
  Ok (mkShape (batch x) (channels x) (out (height x)) (out (width x))).

(** [nn.AdaptiveAvgPool2d(output_size=1)]. *)
Definition AdaptiveAvgPool2d_1_forward (x : Shape) : result Shape :=
  assert_that ((0 <? channels x) && (0 <? height x) && (0 <? width x)) RuntimeError ;;;
  Ok (mkShape (batch x) (channels x) 1 1).

Inductive InterpMode : Type := Nearest | Bilinear | Bicubic.

(** [F.interpolate(x, size=size, mode=mode, align_corners=align_corners)]. *)
Definition interpolate (x : Shape) (size : Z * Z) (mode : InterpMode)
    (align_corners : bool) : result Shape :=
  assert_that ((0 <? height x) && (0 <? width x)
               && (0 <? fst size) && (0 <? snd size)) RuntimeError ;;;
  Ok (mkShape (batch x) (channels x) (fst size) (snd size)).

(** [torch.cat(xs, dim=1)]: all sizes but the channel count must agree. *)
Fixpoint cat_dim1_from (acc : Shape) (xs : list Shape) : result Shape :=
  match xs with
  | [] => Ok acc
  | x :: xs' =>
      assert_that ((batch x =? batch acc) && (height x =? height acc)
                   && (width x =? width acc)) RuntimeError ;;;
      cat_dim1_from
        (mkShape (batch acc) (channels acc + channels x) (height acc) (width acc))
        xs'
  end.

Definition cat_dim1 (xs : list Shape) : result Shape :=
  match xs with
  | [] => Raise RuntimeError
  | x :: xs' => cat_dim1_from x xs'
  end.

(** In-place [out += identity]: [identity] is broadcast to the shape of
    [out], which is kept. *)
Definition iadd (out identity : Shape) : result Shape :=
  let fits (i o : Z) := (i =? o) || (i =? 1) in
  assert_that (fits (batch identity) (batch out)
               && fits (channels identity) (channels out)
               && fits (height identity) (height out)
               && fits (width identity) (width out)) RuntimeError ;;;
  Ok out.

End Torch.

Import Torch.

(** ** The pretrained architectures taken from torchvision

    [model.py] takes its convolutional stages from [torchvision.models.resnet50]
    and from the backbone of [torchvision.models.segmentation.deeplabv3_resnet50].
    Both are built by torchvision's [ResNet] class from [Bottleneck] blocks;
    the construction is reproduced here to obtain the channel counts, strides
    and dilations of every convolution. *)

Module Bottleneck.

Record t : Type := mk {
  conv1 : Conv2d;
  bn1 : Z;
  conv2 : Conv2d;
  bn2 : Z;
  conv3 : Conv2d;
  bn3 : Z;
  (** [None], or the 1x1 convolution and batch norm of the shortcut. *)
  downsample : option (Conv2d * Z)
}.

Definition expansion : Z := 4.

Definition conv1x1 (in_planes out_planes stride : Z) : Conv2d :=
  mkConv2d in_planes out_planes 1 stride (Pad 0) 1.

Definition conv3x3 (in_planes out_planes stride dilation : Z) : Conv2d :=
  mkConv2d in_planes out_planes 3 stride (Pad dilation) dilation.

(** [Bottleneck.__init__] with [groups = 1] and [base_width = 64]. *)
Definition init (inplanes planes stride : Z) (downsample : option (Conv2d * Z))
    (dilation : Z) : t :=
  let width := planes in
  mk (conv1x1 inplanes width 1) width
     (conv3x3 width width stride dilation) width
     (conv1x1 width (planes * expansion) 1) (planes * expansion)
     downsample.

Definition forward (blk : t) (training : bool) (x : Shape) : result Shape :=
  let identity := x in
  out <- Conv2d_forward (conv1 blk) x ;;
  out <- BatchNorm2d_forward (bn1 blk) training out ;;
  out <- ReLU_forward out ;;
  out <- Conv2d_forward (conv2 blk) out ;;
  out <- BatchNorm2d_forward (bn2 blk) training out ;;
  out <- ReLU_forward out ;;
  out <- Conv2d_forward (conv3 blk) out ;;
  out <- BatchNorm2d_forward (bn3 blk) training out ;;
  identity <- match downsample blk with
              | None => Ok identity
              | Some (cv, bn) =>
                  d <- Conv2d_forward cv x ;;
                  BatchNorm2d_forward bn training d
              end ;;
  out <- iadd out identity ;;
  ReLU_forward out.

End Bottleneck.

(** [nn.Sequential] of bottleneck blocks. *)
Fixpoint Layer_forward (blocks : list Bottleneck.t) (training : bool) (x : Shape)
  : result Shape :=
  match blocks with
  | [] => Ok x
  | blk :: rest =>
      y <- Bottleneck.forward blk training x ;;
      Layer_forward rest training y
  end.

Module ResNet.

(** The two attributes that [_make_layer] reads and updates. *)
Record builder : Type := mkBuilder {
  inplanes : Z;
  dilation : Z
}.

(** [ResNet._make_layer(Bottleneck, planes, blocks, stride, dilate)]. *)
Definition _make_layer (self : builder) (planes : Z) (blocks : nat) (stride : Z)
    (dilate : bool) : list Bottleneck.t * builder :=
  let previous_dilation := dilation self in
  let dilation' := if dilate then dilation self * stride else dilation self in
  let stride := if dilate then 1 else stride in
  let downsample :=
    if negb (stride =? 1) || negb (inplanes self =? planes * Bottleneck.expansion)
    then Some (Bottleneck.conv1x1 (inplanes self) (planes * Bottleneck.expansion) stride,
               planes * Bottleneck.expansion)
    else None in
  let first := Bottleneck.init (inplanes self) planes stride downsample previous_dilation in
  let inplanes' := planes * Bottleneck.expansion in
  (first :: repeat (Bottleneck.init inplanes' planes 1 None dilation') (blocks - 1),
   mkBuilder inplanes' dilation').

Record t : Type := mk {
  conv1 : Conv2d;
  bn1 : Z;
  (** [nn.MaxPool2d(kernel_size, stride, padding)] *)
  maxpool : Z * Z * Z;
  layer1 : list Bottleneck.t;
  layer2 : list Bottleneck.t;
  layer3 : list Bottleneck.t;
  layer4 : list Bottleneck.t
}.

(** [ResNet.__init__(Bottleneck, layers, replace_stride_with_dilation)]. *)
Definition init (layers : nat * nat * nat * nat)
    (replace_stride_with_dilation : bool * bool * bool) : t :=
  let '(n1, n2, n3, n4) := layers in
  let '(d2, d3, d4) := replace_stride_with_dilation in
  let self := mkBuilder 64 1 in
  let '(l1, self) := _make_layer self 64 n1 1 false in
  let '(l2, self) := _make_layer self 128 n2 2 d2 in
  let '(l3, self) := _make_layer self 256 n3 2 d3 in
  let '(l4, self) := _make_layer self 512 n4 2 d4 in
  mk (mkConv2d 3 64 7 2 (Pad 3) 1) 64 (3, 2, 1) l1 l2 l3 l4.

(** [torchvision.models.resnet50]. *)
Definition resnet50 (replace_stride_with_dilation : bool * bool * bool) : t :=
  init (3, 4, 6, 3)%nat replace_stride_with_dilation.

(** The [.backbone] of [torchvision.models.segmentation.deeplabv3_resnet50()]:
    a ResNet-50 whose last two stages trade their stride for dilation. *)
Definition deeplabv3_resnet50_backbone : t :=
  resnet50 (false, true, true).

End ResNet.

(** ** model.py *)

(** [RESNET50 = resnet50(weights=ResNet50_Weights.IMAGENET1K_V2)] *)
Definition RESNET50 : ResNet.t := ResNet.resnet50 (false, false, false).

(** Reading an attribute of a Python object that may not have been set. *)
Definition getattr {A : Type} (field : option A) : result A :=
  match field with
  | Some a => Ok a
  | None => Raise AttributeError
  end.

Module ResNet50Backbone.

Record t : Type := mk {
  (** [nn.Sequential(conv1, bn1, relu, maxpool, layer1)] *)
  conv1_pool1 : Conv2d * Z * (Z * Z * Z) * list Bottleneck.t;
  block1 : list Bottleneck.t;
  block2 : list Bottleneck.t;
  block3 : list Bottleneck.t
}.

Definition init : t :=
  mk (ResNet.conv1 RESNET50, ResNet.bn1 RESNET50, ResNet.maxpool RESNET50,
      ResNet.layer1 RESNET50)
     (ResNet.layer2 RESNET50)
     (ResNet.layer3 RESNET50)
     (ResNet.layer4 RESNET50).

Definition conv1_pool1_forward (self : t) (training : bool) (x : Shape)
  : result Shape :=
  let '(conv1, bn1, (k, s, p), layer1) := conv1_pool1 self in
  x <- Conv2d_forward conv1 x ;;
  x <- BatchNorm2d_forward bn1 training x ;;
  x <- ReLU_forward x ;;
  x <- MaxPool2d_forward k s p x ;;
  Layer_forward layer1 training x.

Definition forward (self : t) (training : bool) (x : Shape) : result Shape :=
  x <- conv1_pool1_forward self training x ;;
  x <- Layer_forward (block1 self) training x ;;
  x <- Layer_forward (block2 self) training x ;;
  x <- Layer_forward (block3 self) training x ;;
  Ok x.

End ResNet50Backbone.

Module ConvBlock.

Record t : Type := mk {
  in_channels : Z;
  kernel_size : Z;
  dilation : Z;
  conv : Conv2d;
  bn : Z
}.

Definition init (in_channels kernel_size dilation : Z) : result t :=
  conv <- Conv2d_init in_channels 256 kernel_size 1 Same dilation ;;
  Ok (mk in_channels kernel_size dilation conv 256).

(** The block that [init] returns when the constructor of its convolution
    does. *)
Definition built (in_channels kernel_size dilation : Z) : t :=
  mk in_channels kernel_size dilation
     (mkConv2d in_channels 256 kernel_size 1 Same dilation)
     256.

Definition forward (self : t) (training : bool) (x : Shape) : result Shape :=
  x <- Conv2d_forward (conv self) x ;;
  x <- BatchNorm2d_forward (bn self) training x ;;
  x <- ReLU_forward x ;;
  Ok x.

End ConvBlock.

Module ImagePooling.

Record t : Type := mk {
  conv : Conv2d;
  bn : Z
}.

Definition init : t :=
  mk (mkConv2d 64 256 1 1 (Pad 0) 1) 256.

(** The arguments of the call to [F.interpolate] in [forward]:
    [size], [mode] and [align_corners]. *)
Definition interpolate_args (x : Shape) : (Z * Z) * InterpMode * bool :=
  let '(w, h) := (height x, width x) in   (* [_, _, w, h = x.shape] *)
  ((w, h), Bilinear, false).

Definition forward (self : t) (training : bool) (x : Shape) : result Shape :=
  let '(size, mode, align_corners) := interpolate_args x in
  x <- AdaptiveAvgPool2d_1_forward x ;;
  x <- Conv2d_forward (conv self) x ;;
  x <- BatchNorm2d_forward (bn self) training x ;;
  x <- ReLU_forward x ;;
  x <- interpolate x size mode align_corners ;;
  Ok x.

End ImagePooling.

Module ASPP.

Record t : Type := mk {
  atrous_rates : list Z;
  conv_block1 : ConvBlock.t;
  conv_block2 : ConvBlock.t;
  conv_block3 : ConvBlock.t;
  conv_block4 : ConvBlock.t;
  image_pooling : ImagePooling.t
}.

(** [atrous_rates[i]] *)
Definition getitem (atrous_rates : list Z) (i : nat) : result Z :=
  match nth_error atrous_rates i with
  | Some r => Ok r
  | None => Raise IndexError
  end.

Definition init (atrous_rates : list Z) : result t :=
  conv_block1 <- ConvBlock.init 64 1 1 ;;
  r0 <- getitem atrous_rates 0 ;;
  conv_block2 <- ConvBlock.init 64 3 r0 ;;
  r1 <- getitem atrous_rates 1 ;;
  conv_block3 <- ConvBlock.init 64 3 r1 ;;
  r2 <- getitem atrous_rates 2 ;;
  conv_block4 <- ConvBlock.init 64 3 r2 ;;
  Ok (mk atrous_rates conv_block1 conv_block2 conv_block3 conv_block4
         ImagePooling.init).

(** The five branches, in the order in which they are concatenated. *)
Definition branches (self : t) (training : bool) (x : Shape)
  : result (list Shape) :=
  x1 <- ConvBlock.forward (conv_block1 self) training x ;;
  x2 <- ConvBlock.forward (conv_block2 self) training x ;;
  x3 <- ConvBlock.forward (conv_block3 self) training x ;;
  x4 <- ConvBlock.forward (conv_block4 self) training x ;;
  x5 <- ImagePooling.forward (image_pooling self) training x ;;
  Ok [x1; x2; x3; x4; x5].

Definition forward (self : t) (training : bool) (x : Shape) : result Shape :=
  xs <- branches self training x ;;
  cat_dim1 xs.

End ASPP.

Module DeepLabv3.

(** The instance under construction: an attribute is [None] until
    [__init__] assigns it. *)
Record t : Type := mk {
  n_classes : option Z;
  atrous_rates : option (list Z);
  backbone : option ResNet50Backbone.t;
  block4 : option (list Bottleneck.t);
  aspp : option ASPP.t;
  conv_block : option ConvBlock.t;
  fin_conv : option Conv2d
}.

Definition fresh : t := mk None None None None None None None.

Definition set_n_classes (v : Z) (s : t) : t :=
  mk (Some v) (atrous_rates s) (backbone s) (block4 s) (aspp s) (conv_block s) (fin_conv s).
Definition set_atrous_rates (v : list Z) (s : t) : t :=
  mk (n_classes s) (Some v) (backbone s) (block4 s) (aspp s) (conv_block s) (fin_conv s).
Definition set_backbone (v : ResNet50Backbone.t) (s : t) : t :=
  mk (n_classes s) (atrous_rates s) (Some v) (block4 s) (aspp s) (conv_block s) (fin_conv s).
Definition set_block4 (v : list Bottleneck.t) (s : t) : t :=
  mk (n_classes s) (atrous_rates s) (backbone s) (Some v) (aspp s) (conv_block s) (fin_conv s).
Definition set_aspp (v : ASPP.t) (s : t) : t :=
  mk (n_classes s) (atrous_rates s) (backbone s) (block4 s) (Some v) (conv_block s) (fin_conv s).
Definition set_conv_block (v : ConvBlock.t) (s : t) : t :=
  mk (n_classes s) (atrous_rates s) (backbone s) (block4 s) (aspp s) (Some v) (fin_conv s).
Definition set_fin_conv (v : Conv2d) (s : t) : t :=
  mk (n_classes s) (atrous_rates s) (backbone s) (block4 s) (aspp s) (conv_block s) (Some v).

(** [DeepLabv3.__init__(output_stride, n_classes)].  The call
    [deeplabv3_resnet50()] on line 127 builds torchvision's model, which
    fetches the pretrained weights of its backbone; [fetch] is the outcome of
    that call as far as it depends on the installation. *)
Definition init (fetch : result unit) (output_stride n_classes : Z) : result t :=
  let self := fresh in
  let self := set_n_classes n_classes self in
  let self := if output_stride =? 16
              then set_atrous_rates [6; 12; 18] self
              else self in
  let self := set_backbone ResNet50Backbone.init self in
  fetch ;;;
  let self := set_block4 (ResNet.layer4 ResNet.deeplabv3_resnet50_backbone) self in
  rates <- getattr (atrous_rates self) ;;
  a <- ASPP.init rates ;;
  let self := set_aspp a self in
  cb <- ConvBlock.init 1280 1 1 ;;
  let self := set_conv_block cb self in
  fc <- Conv2d_init 256 n_classes 1 1 (Pad 0) 1 ;;
  let self := set_fin_conv fc self in
  Ok self.

Definition forward (self : t) (training : bool) (x : Shape) : result Shape :=
  m <- getattr (backbone self) ;;
  x <- ResNet50Backbone.forward m training x ;;
  m <- getattr (block4 self) ;;
  x <- Layer_forward m training x ;;
  m <- getattr (aspp self) ;;
  x <- ASPP.forward m training x ;;
  m <- getattr (conv_block self) ;;
  x <- ConvBlock.forward m training x ;;
  m <- getattr (fin_conv self) ;;
  x <- Conv2d_forward m x ;;
  Ok x.

End DeepLabv3.

(** The three statements at the end of [model.py]:
    [deeplabv3 = DeepLabv3()], [x = torch.randn(2, 3, 224, 224)] and
    [out = deeplabv3(x)], on an installation where the weights can be
    fetched.  A freshly built module is in training mode. *)
Definition deeplabv3 : result DeepLabv3.t := DeepLabv3.init (Ok tt) 16 21.

Definition x : Shape := mkShape 2 3 224 224.

Definition out : result Shape :=
  m <- deeplabv3 ;;
  DeepLabv3.forward m true x.

(** ** Python floats

    A Python float is an IEEE 754 binary64 number.  Its operations are those
    of the standard library's executable specification of floating-point
    arithmetic, at precision 53 and maximal exponent 1024: every result is
    rounded to the nearest float, ties to even. *)

Module Float64.

Definition prec : Z := 53.
Definition emax : Z := 1024.

Definition float : Type := spec_float.

Definition zero : float := S754_zero false.
Definition one : float := S754_finite false 4503599627370496 (-52).

Definition add : float -> float -> float := SFadd prec emax.
Definition sub : float -> float -> float := SFsub prec emax.
Definition div : float -> float -> float := SFdiv prec emax.
Definition opp : float -> float := SFopp.
Definition abs : float -> float := SFabs.
Definition eqb : float -> float -> bool := SFeqb.
Definition ltb : float -> float -> bool := SFltb.

(** The float nearest to an integer. *)
Definition of_Z (z : Z) : float := binary_normalize prec emax z 0 false.

(** An integer as the exact operand of a division. *)
Definition exact_Z (z : Z) : float :=
  match z with
  | Z0 => S754_zero false
  | Zpos m => S754_finite false m 0
  | Zneg m => S754_finite true m 0
  end.

Definition is_nan (f : float) : bool :=
  match f with S754_nan => true | _ => false end.

Definition is_inf (f : float) : bool :=
  match f with S754_infinity _ => true | _ => false end.

Definition is_zero (f : float) : bool :=
  match f with S754_zero _ => true | _ => false end.

Definition sign (f : float) : bool :=
  match f with
  | S754_zero s | S754_infinity s | S754_finite s _ _ => s
  | S754_nan => false
  end.

(** [f == floor(f)], for a finite [f]. *)
Definition is_integer (f : float) : bool :=
  match f with
  | S754_zero _ => true
  | S754_finite _ m e => (0 <=? e) || (Z.pos m mod 2 ^ (- e) =? 0)
  | _ => false
  end.

(** [fmod(fabs(f), 2.0) == 1.0] *)
Definition is_odd_integer (f : float) : bool :=
  match f with
  | S754_finite _ m e =>
      if 0 <? e then false
      else (Z.pos m mod 2 ^ (- e) =? 0) && Z.odd (Z.pos m / 2 ^ (- e))
  | _ => false
  end.

(** The rational number that a finite float stands for. *)
Definition to_Q (f : float) : option Q :=
  match f with
  | S754_zero _ => Some (inject_Z 0)
  | S754_finite s m e =>
      let v := if 0 <=? e then inject_Z (Z.pos m * 2 ^ e)
               else Qmake (Z.pos m) (Pos.pow 2 (Z.to_pos (- e))) in
      Some (if s then Qopp v else v)
  | _ => None
  end.

End Float64.

Definition float : Type := Float64.float.

(** ** train.py *)

(** [float(z)] for an integer operand of a float operation: an integer too
    large for a float raises [OverflowError]. *)
Definition int_to_float (z : Z) : result float :=
  let f := Float64.of_Z z in
  if Float64.is_inf f then Raise OverflowError else Ok f.

(** [a / b] on integers (true division): the quotient of the two integers,
    rounded once. *)
Definition int_true_div (a b : Z) : result float :=
  if b =? 0 then Raise ZeroDivisionError
  else
    let q := Float64.div (Float64.exact_Z a) (Float64.exact_Z b) in
    if Float64.is_inf q then Raise OverflowError else Ok q.

(** [a / b] for a float and an integer. *)
Definition float_div_int (a : float) (b : Z) : result float :=
  b <- int_to_float b ;;
  if Float64.is_zero b then Raise ZeroDivisionError
  else Ok (Float64.div a b).

(** A Python number as an argument of [get_lr]: an integer or a float. *)
Inductive py_number : Type :=
| PyInt (z : Z)
| PyFloat (f : float).

Definition to_double (v : py_number) : result float :=
  match v with
  | PyInt z => int_to_float z
  | PyFloat f => Ok f
  end.

(** A Python number as [get_lr] can return it: a float, or a complex
    number, whose value is not tracked. *)
Inductive number : Type :=
| Float (f : float)
| Complex.

Section Pow.

(** The two functions that [**] hands over to: the C library's [pow], with
    the interpreter's reading of its error indicator ([OverflowError] for a
    range error, [ValueError] otherwise), and the power of complex numbers,
    of which only the exception it may raise is kept.  Both are called only
    on finite arguments, the former with a positive base other than 1. *)
Variable libm_pow : float -> float -> result float.
Variable complex_pow : float -> float -> result unit.

(** [iv ** w] for a float [iv]. *)
Definition float_pow (iv : float) (w : py_number) : result number :=
  iw <- to_double w ;;
  if Float64.is_zero iw then Ok (Float Float64.one)
  else if Float64.is_nan iv then Ok (Float iv)
  else if Float64.is_nan iw then
    Ok (Float (if Float64.eqb iv Float64.one then Float64.one else iw))
  else if Float64.is_inf iw then
    let iv := Float64.abs iv in
    if Float64.eqb iv Float64.one then Ok (Float Float64.one)
    else if Bool.eqb (Float64.ltb Float64.zero iw) (Float64.ltb Float64.one iv)
         then Ok (Float (Float64.abs iw))
         else Ok (Float Float64.zero)
  else if Float64.is_inf iv then
    let iw_is_odd := Float64.is_odd_integer iw in
    if Float64.ltb Float64.zero iw
    then Ok (Float (if iw_is_odd then iv else Float64.abs iv))
    else Ok (Float (if iw_is_odd then S754_zero (Float64.sign iv) else Float64.zero))
  else if Float64.is_zero iv then
    let iw_is_odd := Float64.is_odd_integer iw in
    if Float64.ltb iw Float64.zero then Raise ZeroDivisionError
    else Ok (Float (if iw_is_odd then iv else Float64.zero))
  else
    let negative := Float64.ltb iv Float64.zero in
    if negative && negb (Float64.is_integer iw) then
      complex_pow iv iw ;;; Ok Complex
    else
      let iv := if negative then Float64.opp iv else iv in
      let negate_result := negative && Float64.is_odd_integer iw in
      if Float64.eqb iv Float64.one
      then Ok (Float (if negate_result then Float64.opp Float64.one else Float64.one))
      else
        ix <- libm_pow iv iw ;;
        Ok (Float (if negate_result then Float64.opp ix else ix)).

(** [1 - v] *)
Definition one_minus (v : number) : number :=
  match v with
  | Float f => Float (Float64.sub Float64.one f)
  | Complex => Complex
  end.

Definition get_lr (step n_steps : Z) (power : py_number) : result number :=
  q <- int_true_div step n_steps ;;
  p <- float_pow q power ;;
  let lr := one_minus p in
  Ok lr.

End Pow.

(** The default value of [power], the float [0.9]. *)
Definition default_power : py_number :=
  PyFloat (S754_finite false 8106479329266893 (-53)).

(** [enumerate(xs, start)] *)
Fixpoint enumerate {A : Type} (xs : list A) (start : Z) : list (Z * A) :=
  match xs with
  | [] => []
  | a :: xs' => (start, a) :: enumerate xs' (start + 1)
  end.

(** [range(start, stop)] *)
Definition range (start stop : Z) : list Z :=
  map (fun i => start + Z.of_nat i) (seq 0 (Z.to_nat (stop - start))).

Section Evaluate.

(** The image and ground-truth tensors of a batch, the prediction of the
    model and the two callables handed to [evaluate].  [model image] stands
    for moving the image to the device and calling the model on it,
    [metric pred gt] for moving the ground truth and calling the metric;
    either may raise.  The metric returns a float. *)
Variables Image GT Pred : Type.
Variable model : Image -> result Pred.
Variable metric : Pred -> GT -> result float.

(** The local variables of [evaluate] that the loop assigns; [batch] is
    unbound until the first iteration.  [sum_miou] starts as the integer 0,
    to which the first float is added as to the float 0.0. *)
Record eval_locals : Type := mkLocals {
  sum_miou : float;
  batch : option Z
}.

(** One iteration of the [for] loop. *)
Definition evaluate_body (l : eval_locals) (item : Z * (Image * GT))
  : result eval_locals :=
  let '(batch, (image, gt)) := item in
  pred <- model image ;;
  miou <- metric pred gt ;;
  Ok (mkLocals (Float64.add (sum_miou l) miou) (Some batch)).

Fixpoint evaluate_loop (l : eval_locals) (items : list (Z * (Image * GT)))
  : result eval_locals :=
  match items with
  | [] => Ok l
  | item :: items' =>
      l' <- evaluate_body l item ;;
      evaluate_loop l' items'
  end.

(** Reading a local variable that may be unbound. *)
Definition read_local {A : Type} (v : option A) : result A :=
  match v with
  | Some a => Ok a
  | None => Raise UnboundLocalError
  end.

Definition evaluate (val_dl : list (Image * GT)) : result float :=
  let l := mkLocals Float64.zero None in
  l <- evaluate_loop l (enumerate val_dl 1) ;;
  batch <- read_local (batch l) ;;
  avg_miou <- float_div_int (sum_miou l) batch ;;
  Ok avg_miou.

(** The per-batch mIoU values, in the order of the loader. *)
Fixpoint batch_mious (val_dl : list (Image * GT)) : result (list float) :=
  match val_dl with
  | [] => Ok []
  | (image, gt) :: rest =>
      pred <- model image ;;
      miou <- metric pred gt ;;
      ms <- batch_mious rest ;;
      Ok (miou :: ms)
  end.

End Evaluate.

Arguments evaluate_body {Image GT Pred} model metric l item.
Arguments evaluate_loop {Image GT Pred} model metric l items.
Arguments evaluate {Image GT Pred} model metric val_dl.
Arguments batch_mious {Image GT Pred} model metric val_dl.

(** The sum of finite floats as a rational number, without rounding. *)
Fixpoint exact_sum (vs : list float) : option Q :=
  match vs with
  | [] => Some (inject_Z 0)
  | v :: vs' =>
      match Float64.to_Q v, exact_sum vs' with
      | Some q, Some s => Some (Qplus q s)
      | _, _ => None
      end
  end.

(** [v] is the arithmetic mean of the finite floats [vs], as the
    specification words it: their sum divided by their number. *)
Definition is_arithmetic_mean (vs : list float) (v : float) : bool :=
  match Float64.to_Q v, exact_sum vs with
  | Some q, Some s => Qeq_bool (Qmult q (inject_Z (Z.of_nat (List.length vs)))) s
  | _, _ => false
  end.

(** What the loop computes: the floats added one by one, from 0 and in the
    order of the list, each sum rounded. *)
Definition running_sum (vs : list float) : float :=
  fold_left Float64.add vs Float64.zero.

Section TrainingLoop.

(** A minibatch, and the state that the rest of a step works on (the
    parameters, the optimizer, the running loss). *)
Variables Batch Params : Type.

(** A data-loader iterator: the outcomes of the calls to [next] still to
    come; once they are used up [next] raises [StopIteration]. *)
Definition DataIter : Type := list (result Batch).

Definition next (di : DataIter) : result Batch * DataIter :=
  match di with
  | [] => (Raise StopIteration, [])
  | r :: di' => (r, di')
  end.

(** [iter(train_dl)]: the iterator that the [k]-th call returns. *)
Variable iter_train_dl : nat -> result DataIter.

(** Everything in a step after the minibatch draw: moving the batch to the
    device, the learning rate, the forward and backward passes, the update,
    logging and evaluation. *)
Variable step_rest : Z -> Batch -> Params -> result Params.

Inductive call : Type :=
| CallNext
| CallIter.

Record loop_state : Type := mkLoop {
  train_di : DataIter;
  (** how many times [iter(train_dl)] has been called *)
  n_iter : nat;
  (** the calls made on the data loader, oldest first *)
  calls : list call;
  params : Params
}.

(** Lines 90-94: the [try] / [except StopIteration] around the draw. *)
Definition draw (st : loop_state) : result Batch * loop_state :=
  let '(r, di) := next (train_di st) in
  let st := mkLoop di (n_iter st) (calls st ++ [CallNext]) (params st) in
  match r with
  | Ok b => (Ok b, st)
  | Raise e =>
      if exn_eqb e StopIteration then
        let k := n_iter st in
        let st := mkLoop (train_di st) (S k) (calls st ++ [CallIter]) (params st) in
        match iter_train_dl k with
        | Raise e' => (Raise e', st)
        | Ok di =>
            let '(r, di) := next di in
            (r, mkLoop di (n_iter st) (calls st ++ [CallNext]) (params st))
        end
      else (Raise e, st)
  end.

(** One iteration of the training loop. *)
Definition train_step (step : Z) (st : loop_state) : result unit * loop_state :=
  let '(r, st) := draw st in
  match r with
  | Raise e => (Raise e, st)
  | Ok b =>
      match step_rest step b (params st) with
      | Raise e => (Raise e, st)
      | Ok p => (Ok tt, mkLoop (train_di st) (n_iter st) (calls st) p)
      end
  end.

Fixpoint train_steps (steps : list Z) (st : loop_state) : result unit * loop_state :=
  match steps with
  | [] => (Ok tt, st)
  | step :: steps' =>
      let '(r, st) := train_step step st in
      match r with
      | Raise e => (Raise e, st)
      | Ok _ => train_steps steps' st
      end
  end.

(** [for step in range(1, N_STEPS + 1): ...] *)
Definition train_loop (N_STEPS : Z) (st : loop_state) : result unit * loop_state :=
  train_steps (range 1 (N_STEPS + 1)) st.

End TrainingLoop.

Arguments next {Batch} di.
Arguments mkLoop {Batch Params} train_di n_iter calls params.
Arguments train_di {Batch Params} l.
Arguments n_iter {Batch Params} l.
Arguments calls {Batch Params} l.
Arguments params {Batch Params} l.
Arguments draw {Batch Params} iter_train_dl st.
Arguments train_step {Batch Params} iter_train_dl step_rest step st.
Arguments train_steps {Batch Params} iter_train_dl step_rest steps st.
Arguments train_loop {Batch Params} iter_train_dl step_rest N_STEPS st.

(** The constants of the run. *)
Definition N_STEPS : Z := 300000.
Definition N_PRINT_STEPS : Z := 100.
Definition N_EVAL_STEPS : Z := 1000.

(** [a % b] on integers. *)
Definition py_mod (a b : Z) : result Z :=
  if b =? 0 then Raise ZeroDivisionError else Ok (a mod b).

(** Lines 111-119: the running loss and the log lines, each recorded with
    its step and the loss it shows.  [running_loss] is reset to the integer
    0, to which the next loss (a float) is added as to the float 0.0. *)
Record loss_log : Type := mkLog {
  running_loss : float;
  printed : list (Z * float)
}.

Definition log_loss (N_PRINT_STEPS : Z) (step : Z) (loss : float) (st : loss_log)
  : result loss_log :=
  let running_loss := Float64.add (running_loss st) loss in
  m <- py_mod step N_PRINT_STEPS ;;
  if m =? 0 then
    running_loss <- float_div_int running_loss N_PRINT_STEPS ;;
    let printed := printed st ++ [(step, running_loss)] in
    let running_loss := Float64.zero in
    Ok (mkLog running_loss printed)
  else Ok (mkLog running_loss (printed st)).

(** The same over consecutive steps, given the loss of each. *)
Fixpoint log_losses (N_PRINT_STEPS : Z) (items : list (Z * float)) (st : loss_log)
  : result loss_log :=
  match items with
  | [] => Ok st
  | (step, loss) :: items' =>
      st' <- log_loss N_PRINT_STEPS step loss st ;;
      log_losses N_PRINT_STEPS items' st'
  end.

(** ** The two files as programs

    A file is run statement by statement; a top-level statement binds names
    in the namespace of its module, or raises and ends the run. *)

Module Script.

Local Open Scope string_scope.

Record stmt : Type := mkStmt {
  line : nat;
  binds : list string;
  run : result unit
}.

(** Runs the statements in order from the namespace [ns]; returns the lines
    of the statements that were started and either the final namespace or
    the exception that ended the run. *)
Fixpoint exec (body : list stmt) (ns : list string)
  : list nat * result (list string) :=
  match body with
  | [] => ([], Ok ns)
  | s :: rest =>
      match run s with
      | Raise e => ([line s], Raise e)
      | Ok _ =>
          let '(started, r) := exec rest (ns ++ binds s) in
          (line s :: started, r)
      end
  end.

(** The names a file binds when every statement succeeds. *)
Definition bound_names (body : list stmt) : list string :=
  flat_map binds body.

(** [from <module> import <name>]: the module is run, then the name is
    looked up in its namespace. *)
Definition from_import (body : list stmt) (name : string) : result unit :=
  ns <- snd (exec body []) ;;
  assert_that (existsb (String.eqb name) ns) ImportError.

(** [model.py].  [env l] is the outcome of the part of the statement on line
    [l] that depends on the installation (importing a library, fetching
    pretrained weights). *)
Definition model_py (env : nat -> result unit) : list stmt :=
  [ mkStmt 4 ["torch"] (env 4%nat);
    mkStmt 5 ["nn"] (env 5%nat);
    mkStmt 6 ["F"] (env 6%nat);
    mkStmt 7 ["ssl"] (env 7%nat);
    mkStmt 8 ["resnet50"; "ResNet50_Weights"] (env 8%nat);
    mkStmt 9 ["deeplabv3_resnet50"] (env 9%nat);
    mkStmt 11 [] (env 11%nat);
    mkStmt 13 ["RESNET50"] (env 13%nat);
    mkStmt 16 ["ResNet50Backbone"] (Ok tt);
    mkStmt 35 ["ConvBlock"] (Ok tt);
    mkStmt 62 ["ImagePooling"] (Ok tt);
    mkStmt 85 ["ASPP"] (Ok tt);
    mkStmt 113 ["DeepLabv3"] (Ok tt);
    mkStmt 142 ["deeplabv3"] (env 142%nat ;;; deeplabv3 ;;; Ok tt);
    mkStmt 143 ["x"] (Ok tt);
    mkStmt 144 ["out"] (out ;;; Ok tt) ].

(** [train.py].  The modules [voc2012], [loss], [evaluate] and [utils] are
    not part of the two files; the outcome of importing them, like that of
    every statement that depends on the installation, is given by [env].
    The last statement is the training loop. *)
Definition train_py (env_model env : nat -> result unit) : list stmt :=
  [ mkStmt 1 ["torch"] (env 1%nat);
    mkStmt 2 ["nn"] (env 2%nat);
    mkStmt 3 ["F"] (env 3%nat);
    mkStmt 4 ["DataLoader"; "random_split"] (env 4%nat);
    mkStmt 5 ["SGD"] (env 5%nat);
    mkStmt 6 ["GradScaler"] (env 6%nat);
    mkStmt 7 ["Path"] (env 7%nat);
    mkStmt 8 ["time"] (env 8%nat);
    mkStmt 10 ["VOC2012Dataset"] (env 10%nat);
    mkStmt 11 ["DeepLabv3ResNet101"]
      (from_import (model_py env_model) "DeepLabv3ResNet101");
    mkStmt 12 ["DeepLabLoss"] (env 12%nat);
    mkStmt 13 ["PixelmIoU"] (env 13%nat);
    mkStmt 14 ["get_device"; "get_elapsed_time"] (env 14%nat);
    mkStmt 20 ["get_lr"] (Ok tt);
    mkStmt 27 ["evaluate"] (Ok tt);
    mkStmt 43 ["ROOT_DIR"] (env 43%nat);
    mkStmt 50 ["IMG_SIZE"] (Ok tt);
    mkStmt 51 ["N_EPOCHS"] (Ok tt);
    mkStmt 52 ["BATCH_SIZE"] (Ok tt);
    mkStmt 54 ["N_WORKERS"] (Ok tt);
    mkStmt 57 ["IMG_DIR"] (Ok tt);
    mkStmt 58 ["GT_DIR"] (Ok tt);
    mkStmt 59 ["LR"] (Ok tt);
    mkStmt 61 ["WEIGHT_DECAY"] (Ok tt);
    mkStmt 63 ["DEVICE"] (env 63%nat);
    mkStmt 64 ["model"] (env 64%nat);
    mkStmt 65 ["model"] (env 65%nat);
    mkStmt 66 ["optim"] (env 66%nat);
    mkStmt 67 ["scaler"] (env 67%nat);
    mkStmt 69 ["train_ds"] (env 69%nat);
    mkStmt 70 ["train_dl"] (env 70%nat);
    mkStmt 73 ["train_di"] (env 73%nat);
    mkStmt 75 ["val_ds"] (env 75%nat);
    mkStmt 76 ["val_dl"] (env 76%nat);
    mkStmt 78 ["crit"] (env 78%nat);
    mkStmt 79 ["metric"] (env 79%nat);
    mkStmt 82 ["N_STEPS"] (Ok tt);
    mkStmt 83 ["N_PRINT_STEPS"] (Ok tt);
    mkStmt 84 ["N_EVAL_STEPS"] (Ok tt);
    mkStmt 85 ["running_loss"] (Ok tt);
    mkStmt 86 ["start_time"] (env 86%nat);
    mkStmt 87 ["step"; "image"; "gt"; "lr"; "pred"; "loss"; "avg_miou"]
      (env 87%nat) ].

(** The line of the training loop. *)
Definition training_loop_line : nat := 87.

End Script.

(** ** Vocabulary of the specification *)

(** Size after a reduction by the factor [s]: [ceil (n / s)] for a
    positive [n]. *)
Definition down (s n : Z) : Z := (n - 1) / s + 1.

(** A feature map [y] is at output stride [s] of the image [x]: its height
    and width are those of [x] reduced by the factor [s]. *)
Definition at_output_stride (s : Z) (x y : Shape) : Prop :=
  height y = down s (height x) /\ width y = down s (width x).

(** The shortcut of a bottleneck block as [_make_layer] chooses it: none
    when the block keeps channels and size, a 1x1 convolution otherwise. *)
Definition shortcut_fits (inplanes planes s : Z) (ds : option (Conv2d * Z)) : Prop :=
  (ds = None /\ inplanes = planes * 4 /\ s = 1) \/
  ds = Some (Bottleneck.conv1x1 inplanes (planes * 4) s, planes * 4).


(** The dilation rates that [ASPP] hands to its convolutions, the first
    three of the list, are ones a convolution supports: positive. *)
Definition dilations_supported (rates : list Z) : Prop :=
  Forall (fun r => 1 <= r) (firstn 3 rates).

(** What a batch norm in training mode asks of its input: more than one
    value per channel. *)
Definition bn_accepts (training : bool) (b h w : Z) : Prop :=
  training = false \/ b * h * w <> 1.

(** A call that either returns [a] or raises the batch norm's [ValueError]. *)
Definition returns_or_refuses {A : Type} (r : result A) (a : A) : Prop :=
  r = Ok a \/ r = Raise ValueError.

(** Where the training loop stands after [j] draws from a loader whose
    [k]-th iterator yields the batches [epochs k], [n] each time: [r]
    batches of iterator [q] are used up, the iterator being made anew only
    when a draw finds it exhausted. *)
Definition loop_position {Batch Params : Type} (epochs : nat -> list Batch)
    (n j : nat) (st : loop_state Batch Params) : Prop :=
  exists q r : nat,
    j = (q * n + r)%nat /\ (r <= n)%nat /\ (r = 0%nat -> q = 0%nat) /\
    train_di st = map Ok (skipn r (epochs q)) /\
    n_iter st = S q.

(** * Properties *)

(** ** Inversion of the result monad *)

Lemma bind_Ok_inv {A B : Type} (r : result A) (k : A -> result B) (b : B) :
  Py.bind r k = Ok b -> exists a, r = Ok a /\ k a = Ok b.
Proof.
  destruct r as [a|e]; simpl; intros H; [eauto | discriminate].
Qed.

Lemma assert_that_Ok_inv (c : bool) (e : exn) (u : unit) :
  assert_that c e = Ok u -> c = true.
Proof.
  destruct c; simpl; [reflexivity | discriminate].
Qed.

Lemma Ok_inj {A : Type} (a b : A) : Ok a = Ok b -> a = b.
Proof. congruence. Qed.

(** [invert_ok H] splits a successful sequence of calls into its steps. *)
Ltac invert_ok H :=
  lazymatch type of H with
  | Py.bind _ _ = Ok _ =>
      let a := fresh "v" in
      let Ha := fresh "Hstep" in
      let Hk := fresh "Hrest" in
      apply bind_Ok_inv in H; destruct H as (a & Ha & Hk);
      invert_ok Ha; invert_ok Hk
  | assert_that _ _ = Ok _ => apply assert_that_Ok_inv in H
  | Ok _ = Ok _ => apply Ok_inj in H
  | Raise _ = Ok _ => discriminate H
  | _ => idtac
  end.

(** ** Shapes through the framework's layers *)

Lemma Conv2d_forward_Ok (cv : Conv2d) (x y : Shape) :
  Conv2d_forward cv x = Ok y ->
  channels x = in_channels cv /\
  kernel_extent cv <= height x + total_padding cv /\
  kernel_extent cv <= width x + total_padding cv /\
  y = mkShape (Torch.batch x) (out_channels cv)
        (conv_out_size cv (height x)) (conv_out_size cv (width x)).
Proof.
  unfold Conv2d_forward; intros H; invert_ok H.
  repeat split; try lia; congruence.
Qed.

Lemma BatchNorm2d_forward_Ok (n : Z) (training : bool) (x y : Shape) :
  BatchNorm2d_forward n training x = Ok y -> y = x /\ channels x = n.
Proof.
  unfold BatchNorm2d_forward; intros H; invert_ok H.
  split; [congruence | lia].
Qed.

Lemma iadd_Ok (o i y : Shape) : iadd o i = Ok y -> y = o.
Proof.
  unfold iadd; intros H; invert_ok H; congruence.
Qed.

Lemma down_1 (n : Z) : down 1 n = n.
Proof. unfold down; rewrite Z.div_1_r; lia. Qed.

Lemma down_down (a b n : Z) :
  0 < a -> 0 < b -> down b (down a n) = down (a * b) n.
Proof.
  intros Ha Hb; unfold down.
  replace ((n - 1) / a + 1 - 1) with ((n - 1) / a) by lia.
  rewrite Z.div_div by lia; reflexivity.
Qed.

Lemma down_ceil (s n : Z) :
  0 < s -> 1 <= n -> s * (down s n - 1) < n <= s * down s n.
Proof.
  intros Hs Hn; unfold down.
  pose proof (Z.mul_div_le (n - 1) s Hs).
  pose proof (Z.mul_succ_div_gt (n - 1) s Hs).
  lia.
Qed.

Lemma down_exact (s k : Z) : 0 < s -> 1 <= k -> down s (s * k) = k.
Proof.
  intros Hs Hk; unfold down.
  replace (s * k - 1) with ((k - 1) * s + (s - 1)) by lia.
  rewrite Z.div_add_l by lia.
  rewrite Z.div_small by lia; lia.
Qed.

(** ** Shapes through the ResNet stages *)

Lemma conv1x1_forward_Ok (i o s : Z) (x y : Shape) :
  Conv2d_forward (Bottleneck.conv1x1 i o s) x = Ok y ->
  channels x = i /\ 1 <= height x /\ 1 <= width x /\
  y = mkShape (Torch.batch x) o (down s (height x)) (down s (width x)).
Proof.
  intros H; apply Conv2d_forward_Ok in H.
  unfold Bottleneck.conv1x1, conv_out_size, kernel_extent, total_padding, down in *.
  cbn [in_channels out_channels kernel_size stride padding dilation] in H.
  destruct H as (Hc & Hh & Hw & ->).
  repeat split; try lia.
  f_equal; (f_equal; f_equal; lia).
Qed.

Lemma conv3x3_forward_Ok (i o s d : Z) (x y : Shape) :
  Conv2d_forward (Bottleneck.conv3x3 i o s d) x = Ok y ->
  channels x = i /\ 1 <= height x /\ 1 <= width x /\
  y = mkShape (Torch.batch x) o (down s (height x)) (down s (width x)).
Proof.
  intros H; apply Conv2d_forward_Ok in H.
  unfold Bottleneck.conv3x3, conv_out_size, kernel_extent, total_padding, down in *.
  cbn [in_channels out_channels kernel_size stride padding dilation] in H.
  destruct H as (Hc & Hh & Hw & ->).
  repeat split; try lia.
  f_equal; (f_equal; f_equal; lia).
Qed.

Lemma Bottleneck_forward_Ok (inplanes planes s : Z) (ds : option (Conv2d * Z))
    (dil : Z) (training : bool) (x y : Shape) :
  Bottleneck.forward (Bottleneck.init inplanes planes s ds dil) training x = Ok y ->
  channels x = inplanes /\ 1 <= height x /\ 1 <= width x /\
  y = mkShape (Torch.batch x) (planes * 4) (down s (height x)) (down s (width x)).
Proof.
  unfold Bottleneck.forward, Bottleneck.init, ReLU_forward.
  cbn [Bottleneck.conv1 Bottleneck.conv2 Bottleneck.conv3 Bottleneck.bn1
       Bottleneck.bn2 Bottleneck.bn3 Bottleneck.downsample].
  intros H; invert_ok H.
  repeat match goal with
  | H : Conv2d_forward (Bottleneck.conv1x1 _ _ _) _ = Ok _ |- _ =>
      apply conv1x1_forward_Ok in H; destruct H as (? & ? & ? & ?)
  | H : Conv2d_forward (Bottleneck.conv3x3 _ _ _ _) _ = Ok _ |- _ =>
      apply conv3x3_forward_Ok in H; destruct H as (? & ? & ? & ?)
  | H : BatchNorm2d_forward _ _ _ = Ok _ |- _ =>
      apply BatchNorm2d_forward_Ok in H; destruct H as (? & ?)
  | H : iadd _ _ = Ok _ |- _ => apply iadd_Ok in H
  end.
  subst; cbn [Torch.batch channels height width] in *.
  rewrite !down_1.
  unfold Bottleneck.expansion; auto.
Qed.

(** The blocks after the first of a stage keep the shape. *)
Lemma repeat_forward_Ok (planes dil : Z) (k : nat) (training : bool) (x y : Shape) :
  Layer_forward (repeat (Bottleneck.init (planes * 4) planes 1 None dil) k) training x
    = Ok y ->
  channels x = planes * 4 ->
  y = x.
Proof.
  revert x; induction k as [|k IH]; intros x H Hc; simpl in H.
  - congruence.
  - invert_ok H. apply Bottleneck_forward_Ok in Hstep.
    destruct Hstep as (_ & _ & _ & ->). rewrite !down_1 in Hrest.
    apply IH in Hrest; [|reflexivity].
    subst y; destruct x; simpl in *; congruence.
Qed.

(** A stage built by [_make_layer]: it accepts [inplanes] channels, yields
    [planes * 4] channels and divides the size by its effective stride. *)
Lemma make_layer_forward_Ok (self : ResNet.builder) (planes : Z) (blocks : nat)
    (stride : Z) (dilate training : bool) (x y : Shape) :
  Layer_forward (fst (ResNet._make_layer self planes blocks stride dilate)) training x
    = Ok y ->
  let s := if dilate then 1 else stride in
  channels x = ResNet.inplanes self /\ 1 <= height x /\ 1 <= width x /\
  y = mkShape (Torch.batch x) (planes * 4) (down s (height x)) (down s (width x)).
Proof.
  unfold ResNet._make_layer; cbn [fst Layer_forward]; intros H.
  invert_ok H. apply Bottleneck_forward_Ok in Hstep.
  destruct Hstep as (Hc & Hh & Hw & ->).
  unfold Bottleneck.expansion in Hrest.
  apply repeat_forward_Ok in Hrest; [|reflexivity].
  subst y; auto.
Qed.

(** The stages of the two pretrained networks, as [_make_layer] built them. *)
Lemma RESNET50_stages :
  ResNet.conv1 RESNET50 = mkConv2d 3 64 7 2 (Pad 3) 1 /\
  ResNet.bn1 RESNET50 = 64 /\
  ResNet.maxpool RESNET50 = (3, 2, 1) /\
  ResNet.layer1 RESNET50
    = fst (ResNet._make_layer (ResNet.mkBuilder 64 1) 64 3 1 false) /\
  ResNet.layer2 RESNET50
    = fst (ResNet._make_layer (ResNet.mkBuilder 256 1) 128 4 2 false) /\
  ResNet.layer3 RESNET50
    = fst (ResNet._make_layer (ResNet.mkBuilder 512 1) 256 6 2 false) /\
  ResNet.layer4 RESNET50
    = fst (ResNet._make_layer (ResNet.mkBuilder 1024 1) 512 3 2 false).
Proof. repeat split. Qed.

Lemma deeplabv3_resnet50_layer4 :
  ResNet.layer4 ResNet.deeplabv3_resnet50_backbone
    = fst (ResNet._make_layer (ResNet.mkBuilder 1024 2) 512 3 2 true).
Proof. reflexivity. Qed.

(** The dilated last stage accepts 1024 channels and keeps the size. *)
Lemma block4_forward_Ok (training : bool) (x y : Shape) :
  Layer_forward (ResNet.layer4 ResNet.deeplabv3_resnet50_backbone) training x = Ok y ->
  channels x = 1024 /\
  y = mkShape (Torch.batch x) 2048 (height x) (width x).
Proof.
  rewrite deeplabv3_resnet50_layer4; intros H.
  apply make_layer_forward_Ok in H; cbv zeta in H.
  destruct H as (Hc & _ & _ & ->). rewrite !down_1.
  split; [exact Hc | reflexivity].
Qed.

Lemma stem_conv_forward_Ok (x y : Shape) :
  Conv2d_forward (mkConv2d 3 64 7 2 (Pad 3) 1) x = Ok y ->
  channels x = 3 /\ 1 <= height x /\ 1 <= width x /\
  y = mkShape (Torch.batch x) 64 (down 2 (height x)) (down 2 (width x)).
Proof.
  intros H; apply Conv2d_forward_Ok in H.
  unfold conv_out_size, kernel_extent, total_padding, down in *.
  cbn [in_channels out_channels kernel_size stride padding dilation] in H.
  destruct H as (Hc & Hh & Hw & ->).
  repeat split; try lia.
  f_equal; (f_equal; f_equal; lia).
Qed.

Lemma maxpool_forward_Ok (x y : Shape) :
  MaxPool2d_forward 3 2 1 x = Ok y ->
  y = mkShape (Torch.batch x) (channels x) (down 2 (height x)) (down 2 (width x)).
Proof.
  unfold MaxPool2d_forward, down; intros H; invert_ok H.
  subst y; f_equal; (f_equal; f_equal; lia).
Qed.

(** The backbone accepts 3-channel images and returns 2048 channels at one
    32nd of the input size (rounded up). *)
Lemma ResNet50Backbone_forward_Ok (training : bool) (x y : Shape) :
  ResNet50Backbone.forward ResNet50Backbone.init training x = Ok y ->
  channels x = 3 /\ 1 <= height x /\ 1 <= width x /\
  y = mkShape (Torch.batch x) 2048 (down 32 (height x)) (down 32 (width x)).
Proof.
  destruct RESNET50_stages as (E0 & E1 & E2 & E3 & E4 & E5 & E6).
  unfold ResNet50Backbone.forward, ResNet50Backbone.conv1_pool1_forward,
    ResNet50Backbone.init, ReLU_forward.
  cbn [ResNet50Backbone.conv1_pool1 ResNet50Backbone.block1
       ResNet50Backbone.block2 ResNet50Backbone.block3].
  rewrite E0, E1, E2, E3, E4, E5, E6.
  intros H; invert_ok H.
  repeat match goal with
  | H : Conv2d_forward (mkConv2d 3 64 7 2 (Pad 3) 1) _ = Ok _ |- _ =>
      apply stem_conv_forward_Ok in H; destruct H as (? & ? & ? & ->)
  | H : BatchNorm2d_forward _ _ _ = Ok _ |- _ =>
      apply BatchNorm2d_forward_Ok in H; destruct H as (-> & _)
  | H : Ok _ = Ok _ |- _ => apply Ok_inj in H; subst
  | H : MaxPool2d_forward 3 2 1 _ = Ok _ |- _ =>
      apply maxpool_forward_Ok in H; subst
  | H : Layer_forward (fst (ResNet._make_layer _ _ _ _ _)) _ _ = Ok _ |- _ =>
      apply make_layer_forward_Ok in H; cbv zeta in H;
      cbn [Torch.batch channels height width] in H;
      destruct H as (_ & _ & _ & ->)
  end.
  cbn [Torch.batch channels height width].
  rewrite !down_1, !down_down by lia.
  repeat split; assumption || reflexivity.
Qed.

(** *** Inputs on which the stages return

    A batch norm in training mode refuses a single value per channel; in
    evaluation mode, or with at least two images in the batch, the stages
    below return on every non-empty input. *)

Lemma down_pos (s n : Z) : 0 < s -> 1 <= n -> 1 <= down s n.
Proof.
  intros Hs Hn; unfold down.
  pose proof (Z.div_pos (n - 1) s); lia.
Qed.

Lemma Conv2d_forward_supported (cv : Conv2d) (x y : Shape) :
  Conv2d_forward cv x = Ok y -> supported cv = true.
Proof.
  unfold Conv2d_forward; intros H; invert_ok H; assumption.
Qed.

Lemma Conv2d_forward_unsupported (cv : Conv2d) (x : Shape) :
  supported cv = false -> Conv2d_forward cv x = Raise RuntimeError.
Proof.
  unfold Conv2d_forward; intros ->; reflexivity.
Qed.

Lemma Conv2d_forward_returns (cv : Conv2d) (x : Shape) :
  supported cv = true ->
  channels x = in_channels cv ->
  kernel_extent cv <= height x + total_padding cv ->
  kernel_extent cv <= width x + total_padding cv ->
  Conv2d_forward cv x
    = Ok (mkShape (Torch.batch x) (out_channels cv)
            (conv_out_size cv (height x)) (conv_out_size cv (width x))).
Proof.
  intros Hs Hc Hh Hw; unfold Conv2d_forward.
  rewrite Hs, (proj2 (Z.eqb_eq _ _) Hc), (proj2 (Z.leb_le _ _) Hh),
    (proj2 (Z.leb_le _ _) Hw).
  reflexivity.
Qed.

(** The layers with positive sizes are supported. *)
Lemma supported_Pad (i o k s p d : Z) :
  1 <= o -> 1 <= k -> 1 <= s -> 0 <= p -> 1 <= d ->
  supported (mkConv2d i o k s (Pad p) d) = true.
Proof.
  intros; unfold supported.
  cbn [in_channels out_channels kernel_size stride padding dilation].
  repeat (apply andb_true_intro; split); apply Z.leb_le; assumption.
Qed.

Lemma supported_Same (i o k d : Z) :
  1 <= o -> 1 <= k -> 1 <= d ->
  supported (mkConv2d i o k 1 Same d) = true.
Proof.
  intros; unfold supported.
  cbn [in_channels out_channels kernel_size stride padding dilation].
  repeat (apply andb_true_intro; split);
    try (apply Z.leb_le; assumption || lia); reflexivity.
Qed.

Lemma conv1x1_forward_returns (i o s b h w : Z) :
  1 <= i -> 1 <= o -> 1 <= s ->
  1 <= h -> 1 <= w ->
  Conv2d_forward (Bottleneck.conv1x1 i o s) (mkShape b i h w)
    = Ok (mkShape b o (down s h) (down s w)).
Proof.
  intros Hi Ho Hs Hh Hw. rewrite Conv2d_forward_returns.
  - unfold Bottleneck.conv1x1, conv_out_size, kernel_extent, total_padding, down.
    cbn [in_channels out_channels kernel_size stride padding dilation
         Torch.batch channels height width].
    do 2 f_equal; (f_equal; f_equal; lia).
  - apply supported_Pad; lia.
  - reflexivity.
  - unfold Bottleneck.conv1x1, kernel_extent, total_padding; cbn; lia.
  - unfold Bottleneck.conv1x1, kernel_extent, total_padding; cbn; lia.
Qed.

Lemma conv3x3_forward_returns (i o s d b h w : Z) :
  1 <= i -> 1 <= o -> 1 <= s -> 1 <= d ->
  1 <= h -> 1 <= w ->
  Conv2d_forward (Bottleneck.conv3x3 i o s d) (mkShape b i h w)
    = Ok (mkShape b o (down s h) (down s w)).
Proof.
  intros Hi Ho Hs Hd Hh Hw. rewrite Conv2d_forward_returns.
  - unfold Bottleneck.conv3x3, conv_out_size, kernel_extent, total_padding, down.
    cbn [in_channels out_channels kernel_size stride padding dilation
         Torch.batch channels height width].
    do 2 f_equal; (f_equal; f_equal; lia).
  - apply supported_Pad; lia.
  - reflexivity.
  - unfold Bottleneck.conv3x3, kernel_extent, total_padding.
    cbn [in_channels out_channels kernel_size stride padding dilation height]; lia.
  - unfold Bottleneck.conv3x3, kernel_extent, total_padding.
    cbn [in_channels out_channels kernel_size stride padding dilation width]; lia.
Qed.

Lemma BatchNorm2d_forward_returns (n : Z) (training : bool) (b h w : Z) :
  training = false \/ 2 <= b ->
  1 <= h -> 1 <= w ->
  BatchNorm2d_forward n training (mkShape b n h w) = Ok (mkShape b n h w).
Proof.
  intros Hm Hh Hw; unfold BatchNorm2d_forward.
  cbn [Torch.batch channels height width].
  assert (training && (b * h * w =? 1) = false) as ->.
  { destruct Hm as [->|Hb]; [reflexivity|].
    apply andb_false_intro2, Z.eqb_neq; nia. }
  rewrite Z.eqb_refl; reflexivity.
Qed.

Lemma iadd_returns (o : Shape) : iadd o o = Ok o.
Proof.
  unfold iadd; rewrite !Z.eqb_refl; reflexivity.
Qed.

Lemma Bottleneck_forward_returns (inplanes planes s : Z)
    (ds : option (Conv2d * Z)) (dil : Z) (training : bool) (b h w : Z) :
  shortcut_fits inplanes planes s ds ->
  1 <= inplanes -> 1 <= planes -> 1 <= dil ->
  training = false \/ 2 <= b ->
  0 < s -> 1 <= h -> 1 <= w ->
  Bottleneck.forward (Bottleneck.init inplanes planes s ds dil) training
    (mkShape b inplanes h w)
    = Ok (mkShape b (planes * 4) (down s h) (down s w)).
Proof.
  intros Hds Hi Hp Hd Hm Hs Hh Hw.
  pose proof (down_pos s h Hs Hh) as Hh'. pose proof (down_pos s w Hs Hw) as Hw'.
  unfold Bottleneck.forward, Bottleneck.init, ReLU_forward, Bottleneck.expansion.
  cbn [Bottleneck.conv1 Bottleneck.conv2 Bottleneck.conv3 Bottleneck.bn1
       Bottleneck.bn2 Bottleneck.bn3 Bottleneck.downsample].
  rewrite conv1x1_forward_returns by (assumption || lia).
  cbn [Py.bind]. rewrite !down_1.
  rewrite BatchNorm2d_forward_returns by assumption. cbn [Py.bind].
  rewrite conv3x3_forward_returns by (assumption || lia). cbn [Py.bind].
  rewrite BatchNorm2d_forward_returns by assumption. cbn [Py.bind].
  rewrite conv1x1_forward_returns by (assumption || lia).
  cbn [Py.bind]. rewrite !down_1.
  rewrite BatchNorm2d_forward_returns by assumption. cbn [Py.bind].
  destruct Hds as [(-> & -> & ->)| ->].
  - cbn [Py.bind]. rewrite !down_1. rewrite iadd_returns; reflexivity.
  - rewrite conv1x1_forward_returns by (assumption || lia). cbn [Py.bind].
    rewrite BatchNorm2d_forward_returns by assumption. cbn [Py.bind].
    rewrite iadd_returns; reflexivity.
Qed.

Lemma repeat_forward_returns (planes dil : Z) (k : nat) (training : bool)
    (b h w : Z) :
  1 <= planes -> 1 <= dil ->
  training = false \/ 2 <= b -> 1 <= h -> 1 <= w ->
  Layer_forward (repeat (Bottleneck.init (planes * 4) planes 1 None dil) k)
    training (mkShape b (planes * 4) h w)
    = Ok (mkShape b (planes * 4) h w).
Proof.
  intros Hp Hd Hm Hh Hw; induction k as [|k IH]; simpl; [reflexivity|].
  rewrite Bottleneck_forward_returns; try assumption; try lia.
  - cbn [Py.bind]; rewrite !down_1; exact IH.
  - left; auto.
Qed.

Lemma make_layer_forward_returns (self : ResNet.builder) (planes : Z)
    (blocks : nat) (stride : Z) (dilate training : bool) (b h w : Z) :
  1 <= ResNet.inplanes self -> 1 <= planes -> 1 <= ResNet.dilation self ->
  training = false \/ 2 <= b -> 0 < stride -> 1 <= h -> 1 <= w ->
  Layer_forward (fst (ResNet._make_layer self planes blocks stride dilate))
    training (mkShape b (ResNet.inplanes self) h w)
    = Ok (mkShape b (planes * 4)
            (down (if dilate then 1 else stride) h)
            (down (if dilate then 1 else stride) w)).
Proof.
  intros Hi Hp Hd Hm Hs Hh Hw.
  assert (0 < (if dilate then 1 else stride)) as Hs' by (destruct dilate; lia).
  assert (1 <= (if dilate then ResNet.dilation self * stride
                else ResNet.dilation self)) as Hd' by (destruct dilate; nia).
  unfold ResNet._make_layer; cbn [fst Layer_forward].
  rewrite Bottleneck_forward_returns; try assumption.
  - cbn [Py.bind]. unfold Bottleneck.expansion.
    apply repeat_forward_returns; try assumption; apply down_pos; assumption.
  - unfold shortcut_fits, Bottleneck.expansion.
    destruct (Z.eqb_spec (if dilate then 1 else stride) 1) as [E1|E1];
      destruct (Z.eqb_spec (ResNet.inplanes self) (planes * 4)) as [E2|E2];
      cbn [negb orb]; auto.
Qed.

(** With a non-empty 3-channel image, in evaluation mode or with at least
    two images in the batch, the backbone returns. *)
Lemma ResNet50Backbone_forward_returns (training : bool) (b h w : Z) :
  training = false \/ 2 <= b -> 1 <= h -> 1 <= w ->
  ResNet50Backbone.forward ResNet50Backbone.init training (mkShape b 3 h w)
    = Ok (mkShape b 2048 (down 32 h) (down 32 w)).
Proof.
  intros Hm Hh Hw.
  destruct RESNET50_stages as (E0 & E1 & E2 & E3 & E4 & E5 & E6).
  unfold ResNet50Backbone.forward, ResNet50Backbone.conv1_pool1_forward,
    ResNet50Backbone.init, ReLU_forward.
  cbn [ResNet50Backbone.conv1_pool1 ResNet50Backbone.block1
       ResNet50Backbone.block2 ResNet50Backbone.block3].
  rewrite E0, E1, E2, E3, E4, E5, E6.
  pose proof (down_pos 2 h ltac:(lia) Hh) as Hh1.
  pose proof (down_pos 2 w ltac:(lia) Hw) as Hw1.
  pose proof (down_pos 2 _ ltac:(lia) Hh1) as Hh2.
  pose proof (down_pos 2 _ ltac:(lia) Hw1) as Hw2.
  pose proof (down_pos 2 _ ltac:(lia) Hh2) as Hh3.
  pose proof (down_pos 2 _ ltac:(lia) Hw2) as Hw3.
  pose proof (down_pos 2 _ ltac:(lia) Hh3) as Hh4.
  pose proof (down_pos 2 _ ltac:(lia) Hw3) as Hw4.
  rewrite Conv2d_forward_returns;
    [| reflexivity
     | reflexivity
     | unfold kernel_extent, total_padding; cbn; lia
     | unfold kernel_extent, total_padding; cbn; lia].
  cbn [Py.bind Torch.batch channels height width out_channels].
  replace (conv_out_size (mkConv2d 3 64 7 2 (Pad 3) 1) h) with (down 2 h)
    by (unfold conv_out_size, kernel_extent, total_padding, down; cbn;
        f_equal; f_equal; lia).
  replace (conv_out_size (mkConv2d 3 64 7 2 (Pad 3) 1) w) with (down 2 w)
    by (unfold conv_out_size, kernel_extent, total_padding, down; cbn;
        f_equal; f_equal; lia).
  rewrite BatchNorm2d_forward_returns by assumption. cbn [Py.bind].
  unfold MaxPool2d_forward. cbn [Torch.batch channels height width].
  replace (down 2 h + 2 * 1 - 3) with (down 2 h - 1) by lia.
  replace (down 2 w + 2 * 1 - 3) with (down 2 w - 1) by lia.
  fold (down 2 (down 2 h)). fold (down 2 (down 2 w)).
  rewrite (proj2 (Z.ltb_lt 0 _)) by lia.
  rewrite (proj2 (Z.ltb_lt 0 _)) by lia.
  cbn [andb assert_that Py.bind].
  change 64 with (ResNet.inplanes (ResNet.mkBuilder 64 1)) at 1.
  rewrite make_layer_forward_returns by (assumption || (cbn; lia)).
  cbn [Py.bind]. rewrite !down_1.
  change (64 * 4) with (ResNet.inplanes (ResNet.mkBuilder 256 1)).
  rewrite make_layer_forward_returns by (assumption || (cbn; lia)).
  cbn [Py.bind].
  change (128 * 4) with (ResNet.inplanes (ResNet.mkBuilder 512 1)).
  rewrite make_layer_forward_returns by (assumption || (cbn; lia)).
  cbn [Py.bind].
  change (256 * 4) with (ResNet.inplanes (ResNet.mkBuilder 1024 1)).
  rewrite make_layer_forward_returns by (assumption || (cbn; lia)).
  cbn [Py.bind].
  rewrite !down_down by lia. reflexivity.
Qed.

(** ** Shapes through the blocks of model.py *)

Lemma Conv2d_init_Ok (i o k s : Z) (p : Padding) (d : Z) (cv : Conv2d) :
  Conv2d_init i o k s p d = Ok cv ->
  cv = mkConv2d i o k s p d /\ 0 <= i /\ 0 <= o /\ 0 <= k.
Proof.
  unfold Conv2d_init; intros H; invert_ok H.
  repeat match goal with
  | H : _ && _ = true |- _ => apply andb_prop in H; destruct H
  end.
  repeat split; try lia; congruence.
Qed.

Lemma Conv2d_init_returns (i o k s d : Z) (p : Padding) :
  0 <= i -> 0 <= o -> 0 <= k ->
  (p = Same -> s = 1) ->
  Conv2d_init i o k s p d = Ok (mkConv2d i o k s p d).
Proof.
  intros Hi Ho Hk Hp; unfold Conv2d_init.
  assert (match p with Same => s =? 1 | Pad _ => true end = true) as ->.
  { destruct p; [reflexivity | apply Z.eqb_eq; auto]. }
  rewrite (proj2 (Z.leb_le 0 i)), (proj2 (Z.leb_le 0 o)), (proj2 (Z.leb_le 0 k))
    by assumption.
  reflexivity.
Qed.

(** The convolution of [ImagePooling] is the one that its constructor
    returns. *)
Lemma ImagePooling_conv_init :
  Conv2d_init 64 256 1 1 (Pad 0) 1 = Ok (ImagePooling.conv ImagePooling.init).
Proof. reflexivity. Qed.

Lemma ConvBlock_init_Ok (c k d : Z) (cb : ConvBlock.t) :
  ConvBlock.init c k d = Ok cb ->
  cb = ConvBlock.built c k d /\ 0 <= c /\ 0 <= k.
Proof.
  unfold ConvBlock.init; intros H; invert_ok H.
  match goal with
  | H : Conv2d_init _ _ _ _ _ _ = Ok _ |- _ =>
      apply Conv2d_init_Ok in H; destruct H as (-> & ? & _ & ?)
  end.
  subst cb; auto.
Qed.

Lemma ConvBlock_init_returns (c k d : Z) :
  0 <= c -> 0 <= k -> ConvBlock.init c k d = Ok (ConvBlock.built c k d).
Proof.
  intros Hc Hk; unfold ConvBlock.init.
  rewrite Conv2d_init_returns by (auto; lia); reflexivity.
Qed.

Lemma ConvBlock_forward_Ok (c k d : Z) (training : bool) (x y : Shape) :
  ConvBlock.forward (ConvBlock.built c k d) training x = Ok y ->
  channels x = c /\
  y = mkShape (Torch.batch x) 256 (height x) (width x).
Proof.
  unfold ConvBlock.forward, ConvBlock.built, ReLU_forward.
  cbn [ConvBlock.conv ConvBlock.bn].
  intros H; invert_ok H.
  repeat match goal with
  | H : Conv2d_forward _ _ = Ok _ |- _ =>
      apply Conv2d_forward_Ok in H; destruct H as (Hc & _ & _ & ->)
  | H : BatchNorm2d_forward _ _ _ = Ok _ |- _ =>
      apply BatchNorm2d_forward_Ok in H; destruct H as (-> & _)
  end.
  subst. split; [exact Hc|].
  unfold conv_out_size, kernel_extent, total_padding.
  cbn [in_channels out_channels kernel_size stride padding dilation].
  f_equal.
  - replace (height x + d * (k - 1) - (d * (k - 1) + 1)) with (height x - 1) by lia.
    rewrite Z.div_1_r; lia.
  - replace (width x + d * (k - 1) - (d * (k - 1) + 1)) with (width x - 1) by lia.
    rewrite Z.div_1_r; lia.
Qed.

Lemma ImagePooling_forward_Ok (self : ImagePooling.t) (training : bool)
    (x y : Shape) :
  ImagePooling.forward self training x = Ok y ->
  y = mkShape (Torch.batch x) (out_channels (ImagePooling.conv self))
        (height x) (width x).
Proof.
  unfold ImagePooling.forward, ImagePooling.interpolate_args, ReLU_forward,
    interpolate, AdaptiveAvgPool2d_1_forward.
  cbn [fst snd].
  intros H; invert_ok H.
  repeat match goal with
  | H : Conv2d_forward _ _ = Ok _ |- _ =>
      apply Conv2d_forward_Ok in H; destruct H as (_ & _ & _ & ->)
  | H : BatchNorm2d_forward _ _ _ = Ok _ |- _ =>
      apply BatchNorm2d_forward_Ok in H; destruct H as (-> & _)
  end.
  subst; reflexivity.
Qed.

Lemma ASPP_init_Ok (rates : list Z) (aspp : ASPP.t) :
  ASPP.init rates = Ok aspp ->
  exists r0 r1 r2 rest,
    rates = r0 :: r1 :: r2 :: rest /\
    aspp = ASPP.mk rates (ConvBlock.built 64 1 1) (ConvBlock.built 64 3 r0)
             (ConvBlock.built 64 3 r1) (ConvBlock.built 64 3 r2) ImagePooling.init.
Proof.
  unfold ASPP.init; intros H.
  rewrite !ConvBlock_init_returns in H by lia. cbn [Py.bind] in H.
  destruct rates as [|r0 [|r1 [|r2 rest]]]; try discriminate H.
  cbn [ASPP.getitem nth_error Py.bind] in H.
  rewrite !ConvBlock_init_returns in H by lia. cbn [Py.bind] in H.
  apply Ok_inj in H; subst aspp.
  exists r0, r1, r2, rest; auto.
Qed.

Lemma ConvBlock_forward_returns (c k d : Z) (training : bool) (b h w : Z) :
  1 <= c -> 1 <= k -> 1 <= d ->
  training = false \/ 2 <= b -> 1 <= h -> 1 <= w ->
  ConvBlock.forward (ConvBlock.built c k d) training (mkShape b c h w)
    = Ok (mkShape b 256 h w).
Proof.
  intros Hc Hk Hd Hm Hh Hw.
  unfold ConvBlock.forward, ConvBlock.built, ReLU_forward.
  cbn [ConvBlock.conv ConvBlock.bn].
  rewrite Conv2d_forward_returns;
    [| apply supported_Same; lia
     | reflexivity
     | unfold kernel_extent, total_padding;
       cbn [in_channels out_channels kernel_size stride padding dilation height];
       lia
     | unfold kernel_extent, total_padding;
       cbn [in_channels out_channels kernel_size stride padding dilation width];
       lia].
  unfold conv_out_size, kernel_extent, total_padding.
  cbn [in_channels out_channels kernel_size stride padding dilation
       Torch.batch channels height width Py.bind].
  replace (h + d * (k - 1) - (d * (k - 1) + 1)) with (h - 1) by lia.
  replace (w + d * (k - 1) - (d * (k - 1) + 1)) with (w - 1) by lia.
  rewrite !Z.div_1_r.
  replace (h - 1 + 1) with h by lia. replace (w - 1 + 1) with w by lia.
  rewrite BatchNorm2d_forward_returns by assumption. reflexivity.
Qed.

Lemma ImagePooling_forward_returns (training : bool) (b h w : Z) :
  training = false \/ 2 <= b -> 1 <= h -> 1 <= w ->
  ImagePooling.forward ImagePooling.init training (mkShape b 64 h w)
    = Ok (mkShape b 256 h w).
Proof.
  intros Hm Hh Hw.
  unfold ImagePooling.forward, ImagePooling.interpolate_args, ImagePooling.init,
    ReLU_forward, AdaptiveAvgPool2d_1_forward, interpolate.
  cbn [ImagePooling.conv ImagePooling.bn Torch.batch channels height width
       fst snd].
  rewrite (proj2 (Z.ltb_lt 0 h)) by lia. rewrite (proj2 (Z.ltb_lt 0 w)) by lia.
  cbn [Z.ltb Z.compare andb assert_that Py.bind].
  change (mkConv2d 64 256 1 1 (Pad 0) 1) with (Bottleneck.conv1x1 64 256 1).
  rewrite conv1x1_forward_returns by lia. cbn [Py.bind].
  rewrite BatchNorm2d_forward_returns by (assumption || (rewrite down_1; lia)).
  cbn [Py.bind Torch.batch channels height width].
  rewrite !down_1. cbn [Z.ltb Z.compare andb assert_that Py.bind].
  reflexivity.
Qed.

(** On a non-empty 64-channel feature map, in evaluation mode or with at
    least two images in the batch, [ASPP.forward] returns. *)
Lemma ASPP_forward_returns (rates : list Z) (aspp : ASPP.t) (training : bool)
    (b h w : Z) :
  ASPP.init rates = Ok aspp ->
  dilations_supported rates ->
  training = false \/ 2 <= b -> 1 <= h -> 1 <= w ->
  ASPP.forward aspp training (mkShape b 64 h w) = Ok (mkShape b 1280 h w).
Proof.
  intros Hi Hr Hm Hh Hw.
  apply ASPP_init_Ok in Hi; destruct Hi as (r0 & r1 & r2 & rest & -> & ->).
  unfold dilations_supported in Hr; cbn [firstn] in Hr.
  inversion Hr as [|? ? Hr0 Hr']; subst.
  inversion Hr' as [|? ? Hr1 Hr'']; subst.
  inversion Hr'' as [|? ? Hr2 _]; subst.
  unfold ASPP.forward, ASPP.branches.
  cbn [ASPP.conv_block1 ASPP.conv_block2 ASPP.conv_block3 ASPP.conv_block4
       ASPP.image_pooling].
  rewrite !ConvBlock_forward_returns by (assumption || lia).
  rewrite ImagePooling_forward_returns by assumption.
  cbn [Py.bind cat_dim1 cat_dim1_from Torch.batch channels height width].
  rewrite !Z.eqb_refl. reflexivity.
Qed.

(** Whenever the five branches all return, each has 256 channels and the
    batch and spatial sizes of the input. *)
Lemma ASPP_branches_Ok (rates : list Z) (aspp : ASPP.t) (training : bool)
    (x : Shape) (xs : list Shape) :
  ASPP.init rates = Ok aspp ->
  ASPP.branches aspp training x = Ok xs ->
  xs = repeat (mkShape (Torch.batch x) 256 (height x) (width x)) 5.
Proof.
  intros Hi H; apply ASPP_init_Ok in Hi;
    destruct Hi as (r0 & r1 & r2 & rest & _ & ->).
  unfold ASPP.branches in H.
  cbn [ASPP.conv_block1 ASPP.conv_block2 ASPP.conv_block3 ASPP.conv_block4
       ASPP.image_pooling] in H.
  invert_ok H.
  repeat match goal with
  | H : ConvBlock.forward _ _ _ = Ok _ |- _ =>
      apply ConvBlock_forward_Ok in H; destruct H as (_ & ->)
  | H : ImagePooling.forward _ _ _ = Ok _ |- _ =>
      apply ImagePooling_forward_Ok in H; subst
  end.
  subst; reflexivity.
Qed.

Lemma ASPP_init_default :
  ASPP.init [6; 12; 18]
  = Ok (ASPP.mk [6; 12; 18] (ConvBlock.built 64 1 1) (ConvBlock.built 64 3 6)
          (ConvBlock.built 64 3 12) (ConvBlock.built 64 3 18) ImagePooling.init).
Proof. reflexivity. Qed.

(** What [__init__] has built when it returns. *)
Lemma DeepLabv3_init_Ok (fetch : result unit) (output_stride n_classes : Z)
    (m : DeepLabv3.t) :
  DeepLabv3.init fetch output_stride n_classes = Ok m ->
  fetch = Ok tt /\ output_stride = 16 /\ 0 <= n_classes /\
  m = DeepLabv3.mk (Some n_classes) (Some [6; 12; 18])
        (Some ResNet50Backbone.init)
        (Some (ResNet.layer4 ResNet.deeplabv3_resnet50_backbone))
        (Some (ASPP.mk [6; 12; 18] (ConvBlock.built 64 1 1)
                 (ConvBlock.built 64 3 6) (ConvBlock.built 64 3 12)
                 (ConvBlock.built 64 3 18) ImagePooling.init))
        (Some (ConvBlock.built 1280 1 1))
        (Some (mkConv2d 256 n_classes 1 1 (Pad 0) 1)).
Proof.
  unfold DeepLabv3.init.
  destruct fetch as [[]|e]; [|discriminate].
  destruct (Z.eqb_spec output_stride 16) as [->|Hne]; [|discriminate].
  cbn [Py.bind DeepLabv3.atrous_rates DeepLabv3.set_atrous_rates
       DeepLabv3.set_backbone DeepLabv3.set_block4 DeepLabv3.set_n_classes
       DeepLabv3.fresh getattr].
  rewrite ASPP_init_default, (ConvBlock_init_returns 1280 1 1) by lia.
  cbn [Py.bind]. intros H; invert_ok H.
  match goal with
  | H : Conv2d_init _ _ _ _ _ _ = Ok _ |- _ =>
      apply Conv2d_init_Ok in H; destruct H as (-> & _ & ? & _)
  end.
  subst m; repeat split; assumption.
Qed.

Lemma DeepLabv3_init_returns (n_classes : Z) :
  0 <= n_classes ->
  DeepLabv3.init (Ok tt) 16 n_classes
  = Ok (DeepLabv3.mk (Some n_classes) (Some [6; 12; 18])
          (Some ResNet50Backbone.init)
          (Some (ResNet.layer4 ResNet.deeplabv3_resnet50_backbone))
          (Some (ASPP.mk [6; 12; 18] (ConvBlock.built 64 1 1)
                   (ConvBlock.built 64 3 6) (ConvBlock.built 64 3 12)
                   (ConvBlock.built 64 3 18) ImagePooling.init))
          (Some (ConvBlock.built 1280 1 1))
          (Some (mkConv2d 256 n_classes 1 1 (Pad 0) 1))).
Proof.
  intros Hn; unfold DeepLabv3.init.
  cbn [Py.bind DeepLabv3.atrous_rates DeepLabv3.set_atrous_rates
       DeepLabv3.set_backbone DeepLabv3.set_block4 DeepLabv3.set_n_classes
       DeepLabv3.fresh getattr Z.eqb Pos.eqb].
  rewrite ASPP_init_default, (ConvBlock_init_returns 1280 1 1) by lia.
  cbn [Py.bind].
  rewrite Conv2d_init_returns by (lia || discriminate).
  reflexivity.
Qed.

(** The network never returns: the backbone hands 2048 channels to a stage
    that accepts 1024. *)
Lemma DeepLabv3_forward_never_Ok (fetch : result unit) (n_classes : Z)
    (training : bool) (x y : Shape) :
  (m <- DeepLabv3.init fetch 16 n_classes ;; DeepLabv3.forward m training x) <> Ok y.
Proof.
  intros H. apply bind_Ok_inv in H; destruct H as (m & Hm & H).
  apply DeepLabv3_init_Ok in Hm; destruct Hm as (_ & _ & _ & ->).
  unfold DeepLabv3.forward in H.
  cbn [DeepLabv3.backbone DeepLabv3.block4 DeepLabv3.aspp DeepLabv3.conv_block
       DeepLabv3.fin_conv getattr Py.bind] in H.
  invert_ok H.
  match goal with
  | H : ResNet50Backbone.forward _ _ _ = Ok _ |- _ =>
      apply ResNet50Backbone_forward_Ok in H; destruct H as (_ & _ & _ & ->)
  end.
  match goal with
  | H : Layer_forward (ResNet.layer4 _) _ _ = Ok _ |- _ =>
      apply block4_forward_Ok in H; destruct H as (Hc & _); discriminate Hc
  end.
Qed.

(** ** model.py: the claims *)

(** C1 (the code fails the claim).  On the input of the file's own trial
    run, a tensor of shape (2, 3, 224, 224) given to [DeepLabv3()] in
    training mode, the forward pass does not return logits of shape
    (2, 21, 224, 224): the backbone returns (2, 2048, 7, 7), and the next
    stage, which accepts 1024 channels, raises [RuntimeError]. *)
Theorem DeepLabv3_forward_smoke_input_raises :
  exists m,
    deeplabv3 = Ok m /\
    (b <- getattr (DeepLabv3.backbone m) ;; ResNet50Backbone.forward b true x)
      = Ok (mkShape 2 2048 7 7) /\
    (l <- getattr (DeepLabv3.block4 m) ;; Layer_forward l true (mkShape 2 2048 7 7))
      = Raise RuntimeError /\
    DeepLabv3.forward m true x = Raise RuntimeError /\
    DeepLabv3.forward m true x <> Ok (mkShape 2 21 224 224).
Proof.
  eexists; split; [reflexivity|].
  repeat split; try (vm_compute; reflexivity).
  vm_compute; discriminate.
Qed.

(** C3.  Whenever [ASPP.forward] returns, whatever the shape of its input,
    its five branches each returned a feature map of 256 channels, the
    output is their concatenation along the channel axis, and it has
    256 * 5 = 1280 channels. *)
Theorem ASPP_forward_channels (rates : list Z) (aspp : ASPP.t) (training : bool)
    (x y : Shape) :
  ASPP.init rates = Ok aspp ->
  ASPP.forward aspp training x = Ok y ->
  exists xs,
    ASPP.branches aspp training x = Ok xs /\
    List.length xs = 5%nat /\
    Forall (fun b => channels b = 256) xs /\
    cat_dim1 xs = Ok y /\
    channels y = 256 * 5 /\ channels y = 1280.
Proof.
  intros Hi H. unfold ASPP.forward in H.
  apply bind_Ok_inv in H; destruct H as (xs & Hb & Hcat).
  exists xs. pose proof (ASPP_branches_Ok _ _ _ _ _ Hi Hb) as E.
  split; [exact Hb|]. subst xs.
  split; [reflexivity|].
  split; [repeat constructor|].
  split; [exact Hcat|].
  cbn in Hcat. rewrite !Z.eqb_refl in Hcat. cbn in Hcat.
  apply Ok_inj in Hcat; subst y; cbn; lia.
Qed.

Lemma ASPP_forward_channels_witness :
  exists xs,
    ASPP.branches (ASPP.mk [6; 12; 18] (ConvBlock.built 64 1 1)
                     (ConvBlock.built 64 3 6) (ConvBlock.built 64 3 12)
                     (ConvBlock.built 64 3 18) ImagePooling.init)
      true (mkShape 2 64 14 14) = Ok xs /\
    List.length xs = 5%nat /\
    Forall (fun b => channels b = 256) xs /\
    cat_dim1 xs = Ok (mkShape 2 1280 14 14) /\
    channels (mkShape 2 1280 14 14) = 256 * 5 /\
    channels (mkShape 2 1280 14 14) = 1280.
Proof.
  apply (ASPP_forward_channels [6; 12; 18] _ true (mkShape 2 64 14 14)
           (mkShape 2 1280 14 14)); reflexivity.
Defined.

(** C5 (the code fails the claim).  On a 224 x 224 image the backbone
    returns a 7 x 7 feature map, which is the input reduced neither by 16
    (14 x 14) nor by 8 (28 x 28): [forward] also runs the last stage of
    [RESNET50], with its stride of 2. *)
Theorem ResNet50Backbone_not_stride_16_or_8 :
  exists y,
    ResNet50Backbone.forward ResNet50Backbone.init true (mkShape 2 3 224 224) = Ok y /\
    ~ (at_output_stride 16 (mkShape 2 3 224 224) y \/
       at_output_stride 8 (mkShape 2 3 224 224) y).
Proof.
  exists (mkShape 2 2048 7 7); split; [vm_compute; reflexivity|].
  unfold at_output_stride; cbn [height width].
  intros [[H _]|[H _]]; vm_compute in H; discriminate H.
Qed.

(** C7.  For every input feature map, [ImagePooling.forward] asks
    [F.interpolate] for exactly the height and width of its input, in
    bilinear mode without corner alignment; so whenever the forward pass
    returns, the output has the spatial size of the input. *)
Theorem ImagePooling_upsamples_to_input_size (self : ImagePooling.t)
    (training : bool) (x : Shape) :
  ImagePooling.interpolate_args x = ((height x, width x), Bilinear, false) /\
  (forall y, ImagePooling.forward self training x = Ok y ->
             height y = height x /\ width y = width x).
Proof.
  split; [reflexivity|].
  intros y H; apply ImagePooling_forward_Ok in H; subst y; split; reflexivity.
Qed.

Lemma ImagePooling_upsamples_to_input_size_witness :
  ImagePooling.forward ImagePooling.init true (mkShape 2 64 14 9)
    = Ok (mkShape 2 256 14 9) /\
  height (mkShape 2 256 14 9) = height (mkShape 2 64 14 9) /\
  width (mkShape 2 256 14 9) = width (mkShape 2 64 14 9).
Proof.
  split; [reflexivity|].
  apply (proj2 (ImagePooling_upsamples_to_input_size ImagePooling.init true
                  (mkShape 2 64 14 9)) (mkShape 2 256 14 9)).
  reflexivity.
Defined.

(** C9.  Constructing [DeepLabv3] with an [output_stride] other than 16
    fails; once [deeplabv3_resnet50()] has returned, it is the read of
    [self.atrous_rates], which only the [output_stride == 16] branch
    assigns, that raises [AttributeError].  A model is constructed only for
    [output_stride = 16], and its dilation rates are (6, 12, 18); with that
    stride it is constructed for every positive [n_classes], and a negative
    one is refused by the last convolution's constructor. *)
Theorem DeepLabv3_init_output_stride (fetch : result unit)
    (output_stride n_classes : Z) :
  (output_stride <> 16 ->
   (exists e, DeepLabv3.init fetch output_stride n_classes = Raise e) /\
   (fetch = Ok tt ->
    DeepLabv3.init fetch output_stride n_classes = Raise AttributeError)) /\
  (forall m, DeepLabv3.init fetch output_stride n_classes = Ok m ->
             output_stride = 16 /\
             DeepLabv3.atrous_rates m = Some [6; 12; 18] /\
             (exists a, DeepLabv3.aspp m = Some a /\
                        ASPP.atrous_rates a = [6; 12; 18])) /\
  (output_stride = 16 -> fetch = Ok tt ->
   (1 <= n_classes ->
    exists m, DeepLabv3.init fetch output_stride n_classes = Ok m) /\
   (n_classes < 0 ->
    DeepLabv3.init fetch output_stride n_classes = Raise RuntimeError)).
Proof.
  split; [|split].
  - intros Hne. unfold DeepLabv3.init.
    rewrite (proj2 (Z.eqb_neq _ _) Hne).
    destruct fetch as [[]|e].
    + split; [exists AttributeError|intros _]; reflexivity.
    + split; [exists e; reflexivity | discriminate].
  - intros m H. apply DeepLabv3_init_Ok in H.
    destruct H as (_ & Hs & _ & ->).
    split; [exact Hs|]. split; [reflexivity|]. eexists; split; reflexivity.
  - intros -> ->. split.
    + intros Hn. rewrite DeepLabv3_init_returns by lia. eexists; reflexivity.
    + intros Hn. unfold DeepLabv3.init.
      cbn [Py.bind DeepLabv3.atrous_rates DeepLabv3.set_atrous_rates
           DeepLabv3.set_backbone DeepLabv3.set_block4 DeepLabv3.set_n_classes
           DeepLabv3.fresh getattr Z.eqb Pos.eqb].
      rewrite ASPP_init_default, (ConvBlock_init_returns 1280 1 1) by lia.
      cbn [Py.bind]. unfold Conv2d_init.
      rewrite (proj2 (Z.leb_gt 0 n_classes)) by lia. reflexivity.
Qed.

Lemma DeepLabv3_init_output_stride_witness :
  DeepLabv3.init (Ok tt) 8 21 = Raise AttributeError /\
  (exists m, DeepLabv3.init (Ok tt) 16 21 = Ok m) /\
  DeepLabv3.init (Ok tt) 16 (-1) = Raise RuntimeError.
Proof.
  split; [|split].
  - apply (proj1 (DeepLabv3_init_output_stride (Ok tt) 8 21)); [lia | reflexivity].
  - apply (proj2 (proj2 (DeepLabv3_init_output_stride (Ok tt) 16 21)));
      [reflexivity | reflexivity | lia].
  - apply (proj2 (proj2 (DeepLabv3_init_output_stride (Ok tt) 16 (-1))));
      [reflexivity | reflexivity | lia].
Defined.

(** ** Floats: two facts of the arithmetic *)

Lemma div_eucl_self (m : positive) (k : Z) :
  Z.div_eucl (Z.pos m * k) (Z.pos m) = (k, 0).
Proof.
  pose proof (Z.div_mul k (Z.pos m) ltac:(lia)) as Hq.
  pose proof (Z.mod_mul k (Z.pos m) ltac:(lia)) as Hr.
  rewrite Z.mul_comm. unfold Z.div, Z.modulo in Hq, Hr.
  destruct (Z.div_eucl (k * Z.pos m) (Z.pos m)) as [q r].
  simpl in Hq, Hr. congruence.
Qed.

Lemma SFdiv_core_self (m : positive) :
  SFdiv_core_binary 53 1024 (Z.pos m) 0 (Z.pos m) 0
  = (9007199254740992, -53, loc_Exact).
Proof.
  unfold SFdiv_core_binary.
  replace (Zdigits2 (Z.pos m) + 0 - (Zdigits2 (Z.pos m) + 0)) with 0 by lia.
  change (Z.min (fexp 53 1024 0) (0 - 0)) with (-53).
  change (0 - 0 - -53) with 53.
  cbv zeta iota beta.
  rewrite Z.shiftl_mul_pow2 by lia.
  rewrite div_eucl_self.
  unfold new_location, new_location_even, new_location_odd.
  destruct (Z.even (Z.pos m)); reflexivity.
Qed.

(** An integer divided by itself is the float 1.0, however large it is. *)
Lemma int_true_div_self (n : Z) : n <> 0 -> int_true_div n n = Ok Float64.one.
Proof.
  intros Hn. unfold int_true_div.
  rewrite (proj2 (Z.eqb_neq n 0) Hn).
  assert (Float64.div (Float64.exact_Z n) (Float64.exact_Z n) = Float64.one) as ->.
  { destruct n as [|m|m]; [contradiction| |];
      unfold Float64.div, Float64.exact_Z, SFdiv, Float64.prec, Float64.emax;
      rewrite SFdiv_core_self; vm_compute; reflexivity. }
  reflexivity.
Qed.


(** ** train.py: the learning-rate schedule *)

Section LearningRate.

Variable libm_pow : float -> float -> result float.
Variable complex_pow : float -> float -> result unit.

Lemma get_lr_last (n_steps : Z) :
  n_steps <> 0 ->
  get_lr libm_pow complex_pow n_steps n_steps default_power
    = Ok (Float Float64.zero).
Proof.
  intros Hn. unfold get_lr. rewrite int_true_div_self by exact Hn.
  reflexivity.
Qed.


End LearningRate.




(** ** train.py: the evaluation loop *)

Section EvaluateProperties.

Variables Image GT Pred : Type.
Variable model : Image -> result Pred.
Variable metric : Pred -> GT -> result float.

Lemma batch_mious_length (val_dl : list (Image * GT)) (ms : list float) :
  batch_mious model metric val_dl = Ok ms -> List.length ms = List.length val_dl.
Proof.
  revert ms; induction val_dl as [|[image gt] rest IH]; intros ms H; simpl in H.
  - apply Ok_inj in H; subst ms; reflexivity.
  - invert_ok H. subst ms; simpl; f_equal; apply IH; assumption.
Qed.

(** The loop adds the per-batch values to [sum_miou] from left to right and
    leaves in [batch] the index of the last batch. *)
Lemma evaluate_loop_Ok (val_dl : list (Image * GT)) (ms : list float)
    (l : eval_locals) (start : Z) :
  batch_mious model metric val_dl = Ok ms ->
  evaluate_loop model metric l (enumerate val_dl start)
    = Ok (mkLocals (fold_left Float64.add ms (sum_miou l))
            (match val_dl with
             | [] => batch l
             | _ :: _ => Some (start + Z.of_nat (List.length val_dl) - 1)
             end)).
Proof.
  revert ms l start; induction val_dl as [|[image gt] rest IH];
    intros ms l start H; simpl in H.
  - apply Ok_inj in H; subst ms; destruct l; reflexivity.
  - invert_ok H. subst ms.
    simpl. unfold evaluate_body.
    rewrite Hstep; cbn [Py.bind].
    rewrite Hstep0; cbn [Py.bind].
    rewrite (IH _ _ _ Hstep1).
    cbn [sum_miou batch].
    f_equal; f_equal.
    destruct rest; simpl; f_equal; lia.
Qed.

(** C4, amended.  For every non-empty validation loader on whose batches
    the model and the metric return, [evaluate] returns the per-batch mIoU
    values added one by one, from 0 and in the order of the loader, each sum
    rounded to a float, and the last sum divided by the number of batches,
    the quotient rounded once more. *)
Theorem evaluate_rounded_mean (val_dl : list (Image * GT)) (ms : list float) :
  val_dl <> [] ->
  batch_mious model metric val_dl = Ok ms ->
  evaluate model metric val_dl
    = float_div_int (running_sum ms) (Z.of_nat (List.length ms)) /\
  List.length ms = List.length val_dl.
Proof.
  intros Hne Hms. split; [|apply batch_mious_length; exact Hms].
  unfold evaluate.
  rewrite (evaluate_loop_Ok _ _ _ _ Hms). cbn [Py.bind].
  destruct val_dl as [|item rest]; [contradiction|].
  cbn [batch read_local Py.bind sum_miou].
  rewrite (batch_mious_length _ _ Hms).
  replace (1 + Z.of_nat (List.length (item :: rest)) - 1)
    with (Z.of_nat (List.length (item :: rest))) by lia.
  unfold running_sum.
  destruct (float_div_int _ _); reflexivity.
Qed.

(** C10.  With an empty validation loader [evaluate] does not return: the
    loop body never runs and reading the unbound [batch] raises
    [UnboundLocalError]; whenever [evaluate] returns a value, the loader had
    at least one batch. *)
Theorem evaluate_empty_loader_raises :
  evaluate model metric [] = Raise UnboundLocalError /\
  (forall val_dl v, evaluate model metric val_dl = Ok v -> (1 <= List.length val_dl)%nat).
Proof.
  split; [reflexivity|].
  intros [|item rest] v H; [discriminate H | simpl; lia].
Qed.

End EvaluateProperties.

(** C4, as the claim states it, fails: on three batches whose mIoU is the
    float 0.1 each, the arithmetic mean is that float itself, and [evaluate]
    returns another one, 0.10000000000000002: the sum of the three is
    rounded up, and so is its third. *)
Theorem evaluate_not_arithmetic_mean :
  let tenth := S754_finite false 7205759403792794 (-56) in
  let val_dl := [(0, 0); (0, 0); (0, 0)] in
  let model := fun image : Z => Ok image in
  let metric := fun (_ _ : Z) => Ok tenth in
  batch_mious model metric val_dl = Ok [tenth; tenth; tenth] /\
  is_arithmetic_mean [tenth; tenth; tenth] tenth = true /\
  evaluate model metric val_dl = Ok (S754_finite false 7205759403792795 (-56)) /\
  is_arithmetic_mean [tenth; tenth; tenth]
    (S754_finite false 7205759403792795 (-56)) = false.
Proof.
  cbv zeta. repeat split; vm_compute; reflexivity.
Qed.

Lemma evaluate_rounded_mean_witness :
  evaluate (fun image : Z => Ok image)
    (fun (pred : Z) (_ : Z) => Ok (Float64.of_Z pred)) [(1, 0); (3, 0)]
    = float_div_int (running_sum [Float64.of_Z 1; Float64.of_Z 3])
        (Z.of_nat (List.length [Float64.of_Z 1; Float64.of_Z 3])) /\
  List.length [Float64.of_Z 1; Float64.of_Z 3] = List.length [(1, 0); (3, 0)].
Proof.
  apply evaluate_rounded_mean; [discriminate | reflexivity].
Defined.

Lemma evaluate_empty_loader_raises_witness :
  evaluate (fun image : Z => Ok image)
    (fun (pred : Z) (_ : Z) => Ok (Float64.of_Z pred)) [(1, 0)]
    = Ok Float64.one /\
  (1 <= List.length [(1, 0)])%nat.
Proof.
  split; [reflexivity|].
  apply (proj2 (evaluate_empty_loader_raises Z Z Z (fun image => Ok image)
                  (fun pred _ => Ok (Float64.of_Z pred))) [(1, 0)] Float64.one).
  reflexivity.
Defined.

(** ** train.py: the minibatch draw of the training loop *)

Lemma exn_eqb_eq (e1 e2 : exn) : exn_eqb e1 e2 = true <-> e1 = e2.
Proof.
  split.
  - destruct e1, e2; simpl; intros H; try discriminate H; try reflexivity.
    apply String.eqb_eq in H; congruence.
  - intros <-; destruct e1; simpl; try reflexivity. apply String.eqb_refl.
Qed.

Lemma exn_eqb_neq (e1 e2 : exn) : e1 <> e2 -> exn_eqb e1 e2 = false.
Proof.
  intros H; destruct (exn_eqb e1 e2) eqn:E; [|reflexivity].
  apply exn_eqb_eq in E; contradiction.
Qed.

Section TrainingLoopProperties.

Variables Batch Params : Type.
Variable iter_train_dl : nat -> result (DataIter Batch).
Variable step_rest : Z -> Batch -> Params -> result Params.

Implicit Types (st : loop_state Batch Params) (e : exn) (b : Batch).

(** The draw when the first [next] returns a batch. *)
Lemma draw_batch st b di :
  next (train_di st) = (Ok b, di) ->
  draw iter_train_dl st
    = (Ok b, mkLoop di (n_iter st) (calls st ++ [CallNext]) (params st)).
Proof.
  unfold draw; intros ->; reflexivity.
Qed.

(** The draw when the first [next] raises anything but [StopIteration]. *)
Lemma draw_other_exception st e di :
  next (train_di st) = (Raise e, di) ->
  e <> StopIteration ->
  draw iter_train_dl st
    = (Raise e, mkLoop di (n_iter st) (calls st ++ [CallNext]) (params st)).
Proof.
  unfold draw; intros -> Hne. rewrite (exn_eqb_neq _ _ Hne); reflexivity.
Qed.

(** The draw when the first [next] raises [StopIteration] and the loader
    gives a new iterator: the result is that of one more [next]. *)
Lemma draw_exhausted st di di2 :
  next (train_di st) = (Raise StopIteration, di) ->
  iter_train_dl (n_iter st) = Ok di2 ->
  draw iter_train_dl st
    = (fst (next di2),
       mkLoop (snd (next di2)) (S (n_iter st))
         (calls st ++ [CallNext; CallIter; CallNext]) (params st)).
Proof.
  unfold draw; intros -> Hi. cbn [exn_eqb train_di n_iter calls params].
  rewrite Hi. destruct (next di2) as [r di3]; cbn [fst snd].
  rewrite <- !app_assoc; reflexivity.
Qed.

(** The draw when [iter(train_dl)] itself raises in the handler. *)
Lemma draw_iter_raises st di e :
  next (train_di st) = (Raise StopIteration, di) ->
  iter_train_dl (n_iter st) = Raise e ->
  draw iter_train_dl st
    = (Raise e,
       mkLoop di (S (n_iter st)) (calls st ++ [CallNext; CallIter]) (params st)).
Proof.
  unfold draw; intros -> Hi. cbn [exn_eqb train_di n_iter calls params].
  rewrite Hi, <- !app_assoc; reflexivity.
Qed.

(** A step raises what its draw raises. *)
Lemma train_step_draw_raises (step : Z) st e st' :
  draw iter_train_dl st = (Raise e, st') ->
  train_step iter_train_dl step_rest step st = (Raise e, st').
Proof.
  unfold train_step; intros ->; reflexivity.
Qed.

(** A step raises what the code after the draw raises. *)
Lemma train_step_rest_raises (step : Z) st b e st' :
  draw iter_train_dl st = (Ok b, st') ->
  step_rest step b (params st') = Raise e ->
  train_step iter_train_dl step_rest step st = (Raise e, st').
Proof.
  unfold train_step; intros -> ->; reflexivity.
Qed.

(** A step that raises ends the loop with that exception, whatever the
    steps that ran before it and those that were still to come. *)
Lemma train_steps_propagates (before after : list Z) (step : Z) st st' st'' e :
  train_steps iter_train_dl step_rest before st = (Ok tt, st') ->
  train_step iter_train_dl step_rest step st' = (Raise e, st'') ->
  train_steps iter_train_dl step_rest (before ++ step :: after) st
    = (Raise e, st'').
Proof.
  revert st; induction before as [|s before IH]; intros st Hb Hs; simpl in *.
  - injection Hb as <-. rewrite Hs; reflexivity.
  - destruct (train_step iter_train_dl step_rest s st) as [[[]|e0] st0].
    + apply IH; assumption.
    + discriminate Hb.
Qed.

(** C6.  In a step of the training loop the only exception caught is
    [StopIteration] raised by [next(train_di)]: the iterator is then made
    anew from the data loader and [next] is called exactly once more, the
    result of that call (a batch or an exception) being the result of the
    draw.  Any other exception of the first [next], any exception of the
    second [next] or of [iter], and any exception of the rest of the step
    is the result of the step, and a step that raises ends the loop with
    that exception. *)
Theorem training_loop_catches_only_StopIteration (step : Z) st :
  (forall di di2,
     next (train_di st) = (Raise StopIteration, di) ->
     iter_train_dl (n_iter st) = Ok di2 ->
     draw iter_train_dl st
       = (fst (next di2),
          mkLoop (snd (next di2)) (S (n_iter st))
            (calls st ++ [CallNext; CallIter; CallNext]) (params st))) /\
  (forall e di,
     next (train_di st) = (Raise e, di) -> e <> StopIteration ->
     fst (train_step iter_train_dl step_rest step st) = Raise e /\
     calls (snd (train_step iter_train_dl step_rest step st))
       = calls st ++ [CallNext]) /\
  (forall e di di2,
     next (train_di st) = (Raise StopIteration, di) ->
     iter_train_dl (n_iter st) = Ok di2 ->
     fst (next di2) = Raise e ->
     fst (train_step iter_train_dl step_rest step st) = Raise e) /\
  (forall e di,
     next (train_di st) = (Raise StopIteration, di) ->
     iter_train_dl (n_iter st) = Raise e ->
     fst (train_step iter_train_dl step_rest step st) = Raise e) /\
  (forall e b st',
     draw iter_train_dl st = (Ok b, st') ->
     step_rest step b (params st') = Raise e ->
     fst (train_step iter_train_dl step_rest step st) = Raise e) /\
  (forall e before after st0,
     train_steps iter_train_dl step_rest before st0 = (Ok tt, st) ->
     fst (train_step iter_train_dl step_rest step st) = Raise e ->
     fst (train_steps iter_train_dl step_rest (before ++ step :: after) st0)
       = Raise e).
Proof.
  split; [intros di di2 Hn Hi; exact (draw_exhausted _ _ _ Hn Hi)|].
  split.
  { intros e di Hn Hne.
    rewrite (train_step_draw_raises step _ _ _ (draw_other_exception _ _ _ Hn Hne)).
    split; reflexivity. }
  split.
  { intros e di di2 Hn Hi He.
    pose proof (draw_exhausted _ _ _ Hn Hi) as Hd. rewrite He in Hd.
    rewrite (train_step_draw_raises step _ _ _ Hd); reflexivity. }
  split.
  { intros e di Hn Hi.
    rewrite (train_step_draw_raises step _ _ _ (draw_iter_raises _ _ _ Hn Hi)).
    reflexivity. }
  split.
  { intros e b st' Hd Hr.
    rewrite (train_step_rest_raises step _ _ _ _ Hd Hr); reflexivity. }
  intros e before after st0 Hb Hs.
  destruct (train_step iter_train_dl step_rest step st) as [r st''] eqn:E.
  cbn [fst] in Hs; subst r.
  rewrite (train_steps_propagates before after step _ _ _ _ Hb E); reflexivity.
Qed.

End TrainingLoopProperties.

Lemma training_loop_catches_only_StopIteration_witness :
  draw (fun _ : nat => Ok [Ok 7; Ok 8]) (mkLoop (Params := Z) [] 1 [CallNext] 0)
    = (Ok 7, mkLoop [Ok 8] 2 [CallNext; CallNext; CallIter; CallNext] 0).
Proof.
  apply (proj1 (training_loop_catches_only_StopIteration Z Z
                  (fun _ => Ok [Ok 7; Ok 8]) (fun _ b p => Ok (p + b)) 1
                  (mkLoop [] 1 [CallNext] 0)) [] [Ok 7; Ok 8]);
    reflexivity.
Defined.

(** ** The import of [DeepLabv3ResNet101] *)

Section ScriptProperties.

Import Script.

(** A run that completes has bound the names of all its statements. *)
Lemma exec_Ok_names (body : list stmt) (ns ns' : list string) :
  snd (exec body ns) = Ok ns' -> ns' = ns ++ bound_names body.
Proof.
  revert ns; induction body as [|s rest IH]; intros ns H; simpl in *.
  - apply Ok_inj in H; subst; rewrite app_nil_r; reflexivity.
  - destruct (run s) as [[]|e]; [|discriminate H].
    destruct (exec rest (ns ++ binds s)) as [started r] eqn:E.
    cbn [snd] in H. specialize (IH (ns ++ binds s)). rewrite E in IH.
    rewrite (IH H), <- app_assoc. unfold bound_names; reflexivity.
Qed.

(** Importing a name that a file does not bind fails, whether the file
    runs to its end or not. *)
Lemma from_import_unbound (body : list stmt) (name : string) :
  existsb (String.eqb name) (bound_names body) = false ->
  exists e, from_import body name = Raise e.
Proof.
  intros Hn; unfold from_import.
  destruct (snd (exec body [])) as [ns|e] eqn:E; [|eexists; reflexivity].
  apply exec_Ok_names in E; simpl in E; subst ns.
  cbn [Py.bind]; rewrite Hn; eexists; reflexivity.
Qed.

(** A statement that raises ends the run: the run raises, and only
    statements up to that one were started. *)
Lemma exec_stops_at_raise (before after : list stmt) (s : stmt)
    (ns : list string) (e : exn) :
  run s = Raise e ->
  (exists e', snd (exec (before ++ s :: after) ns) = Raise e') /\
  incl (fst (exec (before ++ s :: after) ns)) (map line before ++ [line s]).
Proof.
  intros Hs; revert ns; induction before as [|s0 before IH]; intros ns; simpl.
  - rewrite Hs; cbn [fst snd]. split; [eexists; reflexivity | apply incl_refl].
  - destruct (run s0) as [[]|e0].
    + specialize (IH (ns ++ binds s0)).
      destruct (exec (before ++ s :: after) (ns ++ binds s0)) as [started r].
      cbn [fst snd] in *. destruct IH as [IH1 IH2].
      split; [exact IH1|].
      intros l [<-|Hl]; [left; reflexivity | right; apply IH2; exact Hl].
    + cbn [fst snd]. split; [eexists; reflexivity|].
      intros l [<-|[]]; left; reflexivity.
Qed.

(** Besides, [model.py] never runs to its end: its last statement, the
    trial forward pass, raises. *)
Lemma model_py_never_completes (env : nat -> result unit) :
  exists e, snd (exec (model_py env) []) = Raise e.
Proof.
  pose (last_stmt := mkStmt 144 ["out"%string] (out ;;; Ok tt)).
  assert (model_py env = firstn 15 (model_py env) ++ last_stmt :: []) as E
    by reflexivity.
  rewrite E.
  apply (exec_stops_at_raise _ [] last_stmt [] RuntimeError).
  vm_compute; reflexivity.
Qed.

(** C8.  [model.py] binds [DeepLabv3] and no name [DeepLabv3ResNet101];
    so the statement [from model import DeepLabv3ResNet101] of [train.py]
    raises, whatever the installation, and the run of [train.py] ends with
    an exception at line 11 at the latest, before the training loop is
    started. *)
Theorem train_py_import_fails (env_model env : nat -> result unit) :
  ~ In "DeepLabv3ResNet101"%string (bound_names (model_py env_model)) /\
  In "DeepLabv3"%string (bound_names (model_py env_model)) /\
  (exists e, from_import (model_py env_model) "DeepLabv3ResNet101"%string = Raise e) /\
  (exists e, snd (exec (train_py env_model env) []) = Raise e) /\
  ~ In training_loop_line (fst (exec (train_py env_model env) [])) /\
  (forall l, In l (fst (exec (train_py env_model env) [])) -> (l <= 11)%nat).
Proof.
  assert (exists e, from_import (model_py env_model) "DeepLabv3ResNet101"%string = Raise e)
    as Himp by (apply from_import_unbound; reflexivity).
  split.
  { intros H; cbn in H.
    repeat (destruct H as [H|H]; [discriminate H|]); exact H. }
  split; [cbn; tauto|].
  split; [exact Himp|].
  destruct Himp as [e He].
  pose (s11 := mkStmt 11 ["DeepLabv3ResNet101"%string]
                 (from_import (model_py env_model) "DeepLabv3ResNet101"%string)).
  pose (before := firstn 9 (train_py env_model env)).
  pose (after := skipn 10 (train_py env_model env)).
  assert (train_py env_model env = before ++ s11 :: after) as Esplit
    by reflexivity.
  destruct (exec_stops_at_raise before after s11 [] e He) as [Hr Hincl].
  rewrite <- Esplit in Hr, Hincl.
  split; [exact Hr|].
  assert (forall l, In l (fst (exec (train_py env_model env) [])) -> (l <= 11)%nat)
    as Hle.
  { intros l Hl. apply Hincl in Hl. cbn in Hl.
    repeat (destruct Hl as [<-|Hl]; [lia|]). contradiction. }
  split; [|exact Hle].
  intros H; apply Hle in H; unfold training_loop_line in H; lia.
Qed.

End ScriptProperties.

(** * Further properties of model.py *)

(** ** Batch norm and the size of the batch *)

Lemma BatchNorm2d_forward_iff (n : Z) (training : bool) (x y : Shape) :
  BatchNorm2d_forward n training x = Ok y <->
  bn_accepts training (Torch.batch x) (height x) (width x) /\
  channels x = n /\ y = x.
Proof.
  unfold BatchNorm2d_forward, bn_accepts; split.
  - intros H; invert_ok H. subst y.
    apply negb_true_iff, andb_false_iff in Hstep.
    repeat split; [|lia].
    destruct Hstep as [Ht|Hb]; [left; exact Ht | right; lia].
  - intros (Hm & Hc & ->).
    assert (training && (Torch.batch x * height x * width x =? 1) = false) as ->.
    { destruct Hm as [->|Hb]; [reflexivity|].
      apply andb_false_intro2, Z.eqb_neq; exact Hb. }
    rewrite (proj2 (Z.eqb_eq _ _) Hc); reflexivity.
Qed.

Lemma BatchNorm2d_forward_accepts (n : Z) (training : bool) (x : Shape) :
  bn_accepts training (Torch.batch x) (height x) (width x) ->
  channels x = n ->
  BatchNorm2d_forward n training x = Ok x.
Proof.
  intros Hm Hc; apply BatchNorm2d_forward_iff; auto.
Qed.

(** A product of a batch size and two positive sizes is 1 only if all
    three are. *)
Lemma product_one (b h w : Z) :
  1 <= h -> 1 <= w -> b * h * w = 1 -> b = 1 /\ h = 1 /\ w = 1.
Proof.
  intros Hh Hw E.
  assert (0 < b) as Hb by nia.
  assert (h = 1) as -> by nia.
  assert (w = 1) as -> by nia.
  lia.
Qed.

Lemma bn_accepts_larger (training : bool) (b h w h' w' : Z) :
  1 <= h' <= h -> 1 <= w' <= w ->
  bn_accepts training b h' w' -> bn_accepts training b h w.
Proof.
  intros Hh Hw [Ht|Hn]; [left; exact Ht | right].
  intros E. apply product_one in E; try lia.
  destruct E as (-> & -> & ->).
  replace h' with 1 in Hn by lia. replace w' with 1 in Hn by lia. lia.
Qed.

Lemma bn_accepts_batch (training : bool) (b h w : Z) :
  1 <= h -> 1 <= w ->
  training = false \/ b <> 1 -> bn_accepts training b h w.
Proof.
  intros Hh Hw [Ht|Hb]; [left; exact Ht | right].
  intros E; apply product_one in E; lia.
Qed.

Lemma down_le (s n : Z) : 1 <= s -> 1 <= n -> down s n <= n.
Proof.
  intros Hs Hn; unfold down.
  assert ((n - 1) / s <= n - 1); [|lia].
  apply Z.div_le_upper_bound; nia.
Qed.

(** ** [ConvBlock] *)

Lemma ConvBlock_same_size (k d n : Z) :
  (n + d * (k - 1) - (d * (k - 1) + 1)) / 1 + 1 = n.
Proof. rewrite Z.div_1_r; lia. Qed.

Lemma supported_Same_inv (i o k d : Z) :
  supported (mkConv2d i o k 1 Same d) = true ->
  1 <= o /\ 1 <= k /\ 1 <= d.
Proof.
  unfold supported.
  cbn [in_channels out_channels kernel_size stride padding dilation].
  intros H.
  repeat match goal with
  | H : _ && _ = true |- _ => apply andb_prop in H; destruct H
  end.
  repeat split; apply Z.leb_le; assumption.
Qed.

Lemma ConvBlock_forward_inv (c k d : Z) (training : bool) (x y : Shape) :
  ConvBlock.forward (ConvBlock.built c k d) training x = Ok y ->
  (1 <= k /\ 1 <= d) /\
  channels x = c /\ 1 <= height x /\ 1 <= width x /\
  bn_accepts training (Torch.batch x) (height x) (width x) /\
  y = mkShape (Torch.batch x) 256 (height x) (width x).
Proof.
  unfold ConvBlock.forward, ConvBlock.built, ReLU_forward.
  cbn [ConvBlock.conv ConvBlock.bn].
  intros H. apply bind_Ok_inv in H; destruct H as (v & Hcv & H).
  apply bind_Ok_inv in H; destruct H as (v' & Hbn & H).
  cbn [Py.bind] in H; apply Ok_inj in H; subst v'.
  pose proof (Conv2d_forward_supported _ _ _ Hcv) as Hs.
  apply supported_Same_inv in Hs; destruct Hs as (_ & Hk1 & Hd1).
  apply Conv2d_forward_Ok in Hcv.
  unfold conv_out_size, kernel_extent, total_padding in Hcv.
  cbn [in_channels out_channels kernel_size stride padding dilation] in Hcv.
  rewrite !ConvBlock_same_size in Hcv. destruct Hcv as (Hc & Hh & Hw & ->).
  apply BatchNorm2d_forward_iff in Hbn.
  cbn [Torch.batch channels height width] in Hbn.
  destruct Hbn as (Hm & _ & ->).
  repeat split; try assumption; lia.
Qed.

Lemma ConvBlock_forward_accepts (c k d : Z) (training : bool) (x : Shape) :
  1 <= c -> 1 <= k -> 1 <= d ->
  channels x = c -> 1 <= height x -> 1 <= width x ->
  bn_accepts training (Torch.batch x) (height x) (width x) ->
  ConvBlock.forward (ConvBlock.built c k d) training x
    = Ok (mkShape (Torch.batch x) 256 (height x) (width x)).
Proof.
  intros Hc1 Hk1 Hd1 Hc Hh Hw Hm.
  unfold ConvBlock.forward, ConvBlock.built, ReLU_forward.
  cbn [ConvBlock.conv ConvBlock.bn].
  rewrite Conv2d_forward_returns;
    [| apply supported_Same; lia
     | exact Hc
     | unfold kernel_extent, total_padding;
       cbn [in_channels out_channels kernel_size stride padding dilation]; lia
     | unfold kernel_extent, total_padding;
       cbn [in_channels out_channels kernel_size stride padding dilation]; lia].
  unfold conv_out_size, kernel_extent, total_padding.
  cbn [in_channels out_channels kernel_size stride padding dilation Py.bind].
  rewrite !ConvBlock_same_size.
  rewrite BatchNorm2d_forward_accepts; [reflexivity | exact Hm | reflexivity].
Qed.

(** A dilation that is not positive is refused by the convolution, whatever
    the input. *)
Lemma ConvBlock_forward_dilation (c k d : Z) (training : bool) (x : Shape) :
  d <= 0 ->
  ConvBlock.forward (ConvBlock.built c k d) training x = Raise RuntimeError.
Proof.
  intros Hd. unfold ConvBlock.forward, ConvBlock.built.
  cbn [ConvBlock.conv].
  rewrite Conv2d_forward_unsupported; [reflexivity|].
  unfold supported.
  cbn [in_channels out_channels kernel_size stride padding dilation].
  rewrite (proj2 (Z.leb_gt 1 d)) by lia.
  rewrite andb_false_r. reflexivity.
Qed.

(** X1.  A [ConvBlock] constructed with a positive number of input channels
    and a positive kernel size returns exactly when its dilation is positive
    and the input has the block's [in_channels] channels, a non-empty
    spatial extent and, in training mode, more than one value per channel;
    the output then has 256 channels and the batch size, height and width of
    the input, whatever the kernel size and the dilation.  With a dilation
    that is not positive the block is constructed all the same, and its
    forward pass raises [RuntimeError]. *)
Theorem ConvBlock_forward_iff (c k d : Z) (cb : ConvBlock.t) (training : bool)
    (x y : Shape) :
  ConvBlock.init c k d = Ok cb ->
  1 <= c -> 1 <= k ->
  (ConvBlock.forward cb training x = Ok y <->
   1 <= d /\
   channels x = c /\ 1 <= height x /\ 1 <= width x /\
   bn_accepts training (Torch.batch x) (height x) (width x) /\
   y = mkShape (Torch.batch x) 256 (height x) (width x)) /\
  (d <= 0 -> ConvBlock.forward cb training x = Raise RuntimeError).
Proof.
  intros Hi Hc1 Hk1.
  apply ConvBlock_init_Ok in Hi; destruct Hi as (-> & _ & _).
  split; [split|].
  - intros H; apply ConvBlock_forward_inv in H.
    destruct H as ((_ & Hd) & H). split; assumption.
  - intros (Hd & Hc & Hh & Hw & Hm & ->).
    apply ConvBlock_forward_accepts; assumption.
  - apply ConvBlock_forward_dilation.
Qed.

Lemma ConvBlock_forward_iff_witness :
  ConvBlock.forward (ConvBlock.built 64 3 18) true (mkShape 2 64 14 14)
    = Ok (mkShape 2 256 14 14) /\
  ConvBlock.forward (ConvBlock.built 64 3 0) true (mkShape 2 64 14 14)
    = Raise RuntimeError.
Proof.
  split.
  - apply (proj2 (proj1 (ConvBlock_forward_iff 64 3 18 _ true (mkShape 2 64 14 14)
                           (mkShape 2 256 14 14) eq_refl ltac:(lia) ltac:(lia)))).
    cbn [Torch.batch channels height width].
    repeat split; try lia. right; lia.
  - apply (proj2 (ConvBlock_forward_iff 64 3 0 _ true (mkShape 2 64 14 14)
                    (mkShape 2 64 14 14) eq_refl ltac:(lia) ltac:(lia))).
    lia.
Defined.

(** ** [ImagePooling] and [ASPP] *)

Lemma ImagePooling_forward_inv (training : bool) (x y : Shape) :
  ImagePooling.forward ImagePooling.init training x = Ok y ->
  channels x = 64 /\ 1 <= height x /\ 1 <= width x /\
  (training = false \/ Torch.batch x <> 1) /\
  y = mkShape (Torch.batch x) 256 (height x) (width x).
Proof.
  unfold ImagePooling.forward, ImagePooling.interpolate_args, ImagePooling.init,
    ReLU_forward, AdaptiveAvgPool2d_1_forward, interpolate.
  cbn [ImagePooling.conv ImagePooling.bn fst snd].
  intros H; invert_ok H.
  repeat match goal with
  | H : _ && _ = true |- _ => apply andb_prop in H; destruct H
  | H : (0 <? _) = true |- _ => apply Z.ltb_lt in H
  end.
  subst. cbn [Torch.batch channels height width] in *.
  match goal with
  | H : Conv2d_forward _ _ = Ok _ |- _ =>
      apply Conv2d_forward_Ok in H;
      cbn [Torch.batch channels height width in_channels out_channels] in H;
      destruct H as (Hc64 & _ & _ & ->)
  end.
  match goal with
  | H : BatchNorm2d_forward _ _ _ = Ok _ |- _ =>
      apply BatchNorm2d_forward_iff in H;
      cbn [Torch.batch channels height width] in H;
      destruct H as (Hm & _ & ->)
  end.
  cbn [Torch.batch channels height width].
  repeat split; try lia.
  destruct Hm as [Ht|Hb]; [left; exact Ht | right].
  change (conv_out_size (mkConv2d 64 256 1 1 (Pad 0) 1) 1) with 1 in Hb. lia.
Qed.

Lemma ImagePooling_forward_accepts (training : bool) (x : Shape) :
  channels x = 64 -> 1 <= height x -> 1 <= width x ->
  training = false \/ Torch.batch x <> 1 ->
  ImagePooling.forward ImagePooling.init training x
    = Ok (mkShape (Torch.batch x) 256 (height x) (width x)).
Proof.
  unfold ImagePooling.forward, ImagePooling.interpolate_args, ImagePooling.init,
    ReLU_forward, AdaptiveAvgPool2d_1_forward, interpolate.
  cbn [ImagePooling.conv ImagePooling.bn fst snd].
  intros Hc Hh Hw Hm.
  rewrite Hc. rewrite (proj2 (Z.ltb_lt 0 (height x))) by lia.
  rewrite (proj2 (Z.ltb_lt 0 (width x))) by lia.
  cbn [Z.ltb Z.compare andb assert_that Py.bind].
  change (mkConv2d 64 256 1 1 (Pad 0) 1) with (Bottleneck.conv1x1 64 256 1).
  rewrite conv1x1_forward_returns by lia. cbn [Py.bind]. rewrite !down_1.
  rewrite BatchNorm2d_forward_accepts;
    [| cbn [Torch.batch channels height width];
       destruct Hm as [Ht|Hb]; [left; exact Ht | right; lia]
     | reflexivity].
  cbn [Py.bind Torch.batch channels height width Z.ltb Z.compare andb
       assert_that].
  reflexivity.
Qed.

(** X2.  [ImagePooling.forward] returns exactly on non-empty feature maps of
    64 channels, and in training mode only if the batch holds more than one
    image (after global pooling each channel has one value per image); the
    output then has 256 channels and the batch size, height and width of
    the input. *)
Theorem ImagePooling_forward_iff (training : bool) (x y : Shape) :
  ImagePooling.forward ImagePooling.init training x = Ok y <->
  channels x = 64 /\ 1 <= height x /\ 1 <= width x /\
  (training = false \/ Torch.batch x <> 1) /\
  y = mkShape (Torch.batch x) 256 (height x) (width x).
Proof.
  split.
  - apply ImagePooling_forward_inv.
  - intros (Hc & Hh & Hw & Hm & ->).
    apply ImagePooling_forward_accepts; assumption.
Qed.

Lemma ImagePooling_forward_iff_witness :
  ImagePooling.forward ImagePooling.init false (mkShape 1 64 33 17)
    = Ok (mkShape 1 256 33 17).
Proof.
  apply (proj2 (ImagePooling_forward_iff false (mkShape 1 64 33 17)
                  (mkShape 1 256 33 17))).
  cbn [Torch.batch channels height width].
  repeat split; try lia; left; reflexivity.
Defined.

Lemma dilations_supported_inv (r0 r1 r2 : Z) (rest : list Z) :
  dilations_supported (r0 :: r1 :: r2 :: rest) -> 1 <= r0 /\ 1 <= r1 /\ 1 <= r2.
Proof.
  unfold dilations_supported; cbn [firstn]; intros Hr.
  inversion Hr as [|? ? Hr0 Hr']; subst.
  inversion Hr' as [|? ? Hr1 Hr'']; subst.
  inversion Hr'' as [|? ? Hr2 _]; subst.
  auto.
Qed.

Lemma dilations_supported_default : dilations_supported [6; 12; 18].
Proof. unfold dilations_supported; cbn [firstn]; repeat constructor; lia. Qed.

Lemma ASPP_forward_inv (rates : list Z) (aspp : ASPP.t) (training : bool)
    (x y : Shape) :
  ASPP.init rates = Ok aspp ->
  ASPP.forward aspp training x = Ok y ->
  channels x = 64 /\ 1 <= height x /\ 1 <= width x /\
  (training = false \/ Torch.batch x <> 1) /\
  dilations_supported rates /\
  y = mkShape (Torch.batch x) 1280 (height x) (width x).
Proof.
  intros Hi H. pose proof Hi as Hi'.
  apply ASPP_init_Ok in Hi'; destruct Hi' as (r0 & r1 & r2 & rest & Er & E).
  unfold ASPP.forward in H.
  apply bind_Ok_inv in H; destruct H as (xs & Hb & Hcat).
  assert (channels x = 64 /\ 1 <= height x /\ 1 <= width x /\
          (training = false \/ Torch.batch x <> 1) /\
          dilations_supported rates) as (Hc & Hh & Hw & Hm & Hr).
  { pose proof Hb as Hb'. subst aspp. unfold ASPP.branches in Hb'.
    cbn [ASPP.image_pooling ASPP.conv_block1 ASPP.conv_block2 ASPP.conv_block3
         ASPP.conv_block4] in Hb'.
    invert_ok Hb'.
    match goal with
    | H : ImagePooling.forward _ _ _ = Ok _ |- _ =>
        apply ImagePooling_forward_inv in H;
        destruct H as (? & ? & ? & ? & _)
    end.
    repeat match goal with
    | H : ConvBlock.forward _ _ _ = Ok _ |- _ =>
        apply ConvBlock_forward_inv in H; destruct H as ((_ & ?) & _)
    end.
    repeat split; try assumption.
    subst rates; unfold dilations_supported; cbn [firstn].
    repeat constructor; assumption. }
  repeat split; try assumption.
  rewrite (ASPP_branches_Ok _ _ _ _ _ Hi Hb) in Hcat.
  cbn in Hcat. rewrite !Z.eqb_refl in Hcat. cbn in Hcat.
  apply Ok_inj in Hcat; subst y. f_equal.
Qed.

Lemma ASPP_forward_accepts (rates : list Z) (aspp : ASPP.t) (training : bool)
    (x : Shape) :
  ASPP.init rates = Ok aspp ->
  dilations_supported rates ->
  channels x = 64 -> 1 <= height x -> 1 <= width x ->
  training = false \/ Torch.batch x <> 1 ->
  ASPP.forward aspp training x
    = Ok (mkShape (Torch.batch x) 1280 (height x) (width x)).
Proof.
  intros Hi Hr Hc Hh Hw Hm.
  apply ASPP_init_Ok in Hi; destruct Hi as (r0 & r1 & r2 & rest & -> & ->).
  apply dilations_supported_inv in Hr; destruct Hr as (Hr0 & Hr1 & Hr2).
  pose proof (bn_accepts_batch training _ _ _ Hh Hw Hm) as Hbn.
  unfold ASPP.forward, ASPP.branches.
  cbn [ASPP.conv_block1 ASPP.conv_block2 ASPP.conv_block3 ASPP.conv_block4
       ASPP.image_pooling].
  rewrite !ConvBlock_forward_accepts by (assumption || lia).
  rewrite ImagePooling_forward_accepts by assumption.
  cbn [Py.bind cat_dim1 cat_dim1_from Torch.batch channels height width].
  rewrite !Z.eqb_refl. reflexivity.
Qed.

(** X3.  An [ASPP] module returns exactly when its first three dilation
    rates are positive and the input is a non-empty feature map of 64
    channels, in training mode with more than one image in the batch; the
    output then has 1280 channels and the batch size, height and width of
    the input.  A rate that is not positive is accepted by the constructor
    and refused by the forward pass. *)
Theorem ASPP_forward_iff (rates : list Z) (aspp : ASPP.t) (training : bool)
    (x y : Shape) :
  ASPP.init rates = Ok aspp ->
  (ASPP.forward aspp training x = Ok y <->
   dilations_supported rates /\
   channels x = 64 /\ 1 <= height x /\ 1 <= width x /\
   (training = false \/ Torch.batch x <> 1) /\
   y = mkShape (Torch.batch x) 1280 (height x) (width x)).
Proof.
  intros Hi; split.
  - intros H. apply (ASPP_forward_inv rates) in H; [|exact Hi].
    destruct H as (Hc & Hh & Hw & Hm & Hr & Hy). auto 6.
  - intros (Hr & Hc & Hh & Hw & Hm & ->).
    apply (ASPP_forward_accepts rates); assumption.
Qed.

Lemma ASPP_forward_iff_witness :
  ASPP.forward (ASPP.mk [6; 12; 18] (ConvBlock.built 64 1 1)
                  (ConvBlock.built 64 3 6) (ConvBlock.built 64 3 12)
                  (ConvBlock.built 64 3 18) ImagePooling.init)
    false (mkShape 1 64 33 33)
    = Ok (mkShape 1 1280 33 33).
Proof.
  apply (proj2 (ASPP_forward_iff [6; 12; 18] _ false (mkShape 1 64 33 33)
                  (mkShape 1 1280 33 33) eq_refl)).
  cbn [Torch.batch channels height width].
  split; [unfold dilations_supported; cbn [firstn]; repeat constructor; lia|].
  repeat split; try lia; left; reflexivity.
Defined.

(** X4.  In training mode a batch of a single image cannot pass the
    image-pooling branch, and so cannot pass an [ASPP] with positive
    dilation rates: on every non-empty 64-channel feature map with batch
    size 1 both raise [ValueError], the batch norm's refusal of one value
    per channel. *)
Theorem ASPP_training_single_image_raises (rates : list Z) (aspp : ASPP.t)
    (h w : Z) :
  ASPP.init rates = Ok aspp ->
  dilations_supported rates ->
  1 <= h -> 1 <= w ->
  ImagePooling.forward ImagePooling.init true (mkShape 1 64 h w)
    = Raise ValueError /\
  ASPP.forward aspp true (mkShape 1 64 h w) = Raise ValueError.
Proof.
  intros Hi Hr Hh Hw.
  assert (ImagePooling.forward ImagePooling.init true (mkShape 1 64 h w)
          = Raise ValueError) as Hpool.
  { unfold ImagePooling.forward, ImagePooling.interpolate_args,
      ImagePooling.init, AdaptiveAvgPool2d_1_forward.
    cbn [ImagePooling.conv ImagePooling.bn Torch.batch channels height width].
    rewrite (proj2 (Z.ltb_lt 0 h)) by lia. rewrite (proj2 (Z.ltb_lt 0 w)) by lia.
    reflexivity. }
  split; [exact Hpool|].
  apply ASPP_init_Ok in Hi; destruct Hi as (r0 & r1 & r2 & rest & -> & ->).
  apply dilations_supported_inv in Hr; destruct Hr as (Hr0 & Hr1 & Hr2).
  unfold ASPP.forward, ASPP.branches.
  cbn [ASPP.conv_block1 ASPP.conv_block2 ASPP.conv_block3 ASPP.conv_block4
       ASPP.image_pooling].
  destruct (Z.eq_dec (1 * h * w) 1) as [E|E].
  - apply product_one in E; try lia. destruct E as (_ & -> & ->). reflexivity.
  - rewrite !ConvBlock_forward_accepts
      by (cbn [Torch.batch channels height width];
          solve [reflexivity | lia | right; exact E]).
    rewrite Hpool. reflexivity.
Qed.

Lemma ASPP_training_single_image_raises_witness :
  ImagePooling.forward ImagePooling.init true (mkShape 1 64 14 14)
    = Raise ValueError /\
  ASPP.forward (ASPP.mk [6; 12; 18] (ConvBlock.built 64 1 1)
                  (ConvBlock.built 64 3 6) (ConvBlock.built 64 3 12)
                  (ConvBlock.built 64 3 18) ImagePooling.init)
    true (mkShape 1 64 14 14) = Raise ValueError.
Proof.
  apply (ASPP_training_single_image_raises [6; 12; 18] _ 14 14 eq_refl);
    [unfold dilations_supported; cbn [firstn]; repeat constructor; lia
    | lia | lia].
Defined.

(** X5.  [ASPP.__init__] reads exactly the first three dilation rates: with
    fewer than three it raises [IndexError], and with three or more it
    builds the 1x1 block and three 3x3 blocks dilated by the first three
    rates, all on 64 input channels; further rates are not used. *)
Theorem ASPP_init_rates (rates : list Z) :
  ((List.length rates < 3)%nat -> ASPP.init rates = Raise IndexError) /\
  (forall r0 r1 r2 more, rates = r0 :: r1 :: r2 :: more ->
     ASPP.init rates
       = Ok (ASPP.mk rates (ConvBlock.built 64 1 1) (ConvBlock.built 64 3 r0)
               (ConvBlock.built 64 3 r1) (ConvBlock.built 64 3 r2)
               ImagePooling.init) /\
     ASPP.init (r0 :: r1 :: r2 :: nil)
       = Ok (ASPP.mk [r0; r1; r2] (ConvBlock.built 64 1 1) (ConvBlock.built 64 3 r0)
               (ConvBlock.built 64 3 r1) (ConvBlock.built 64 3 r2)
               ImagePooling.init)) /\
  (forall aspp, ASPP.init rates = Ok aspp -> (3 <= List.length rates)%nat).
Proof.
  split; [|split].
  - intros Hl. destruct rates as [|r0 [|r1 [|r2 more]]]; try reflexivity.
    simpl in Hl; lia.
  - intros r0 r1 r2 more ->; split; reflexivity.
  - intros aspp H. destruct rates as [|r0 [|r1 [|r2 more]]];
      try discriminate H. simpl; lia.
Qed.

Lemma ASPP_init_rates_witness :
  ASPP.init [6; 12] = Raise IndexError /\
  ASPP.init [12; 24; 36; 48]
    = Ok (ASPP.mk [12; 24; 36; 48] (ConvBlock.built 64 1 1)
            (ConvBlock.built 64 3 12) (ConvBlock.built 64 3 24)
            (ConvBlock.built 64 3 36) ImagePooling.init).
Proof.
  split.
  - apply (proj1 (ASPP_init_rates [6; 12])). simpl; lia.
  - apply (proj1 (proj1 (proj2 (ASPP_init_rates [12; 24; 36; 48])) 12 24 36 [48] eq_refl)).
Defined.

(** ** The stages of the backbone *)

Lemma Bottleneck_forward_Ok_mode (inplanes planes s : Z)
    (ds : option (Conv2d * Z)) (dil : Z) (training : bool) (x y : Shape) :
  Bottleneck.forward (Bottleneck.init inplanes planes s ds dil) training x = Ok y ->
  bn_accepts training (Torch.batch y) (height y) (width y).
Proof.
  unfold Bottleneck.forward, Bottleneck.init, ReLU_forward.
  cbn [Bottleneck.conv1 Bottleneck.conv2 Bottleneck.conv3 Bottleneck.bn1
       Bottleneck.bn2 Bottleneck.bn3 Bottleneck.downsample].
  intros H.
  apply bind_Ok_inv in H; destruct H as (o1 & _ & H).
  apply bind_Ok_inv in H; destruct H as (o2 & _ & H).
  apply bind_Ok_inv in H; destruct H as (o3 & _ & H).
  apply bind_Ok_inv in H; destruct H as (o4 & _ & H).
  apply bind_Ok_inv in H; destruct H as (o5 & _ & H).
  apply bind_Ok_inv in H; destruct H as (o6 & _ & H).
  apply bind_Ok_inv in H; destruct H as (o7 & _ & H).
  apply bind_Ok_inv in H; destruct H as (o8 & Hbn3 & H).
  apply bind_Ok_inv in H; destruct H as (idn & _ & H).
  apply bind_Ok_inv in H; destruct H as (o9 & Hadd & H).
  apply Ok_inj in H; subst y.
  apply iadd_Ok in Hadd; subst o9.
  apply BatchNorm2d_forward_iff in Hbn3; destruct Hbn3 as (Hm & _ & ->).
  exact Hm.
Qed.

Lemma make_layer_forward_Ok_mode (self : ResNet.builder) (planes : Z)
    (blocks : nat) (stride : Z) (dilate training : bool) (x y : Shape) :
  Layer_forward (fst (ResNet._make_layer self planes blocks stride dilate)) training x
    = Ok y ->
  bn_accepts training (Torch.batch y) (height y) (width y).
Proof.
  unfold ResNet._make_layer; cbn [fst Layer_forward]; intros H.
  apply bind_Ok_inv in H; destruct H as (v & Hfirst & Hrest).
  pose proof (Bottleneck_forward_Ok_mode _ _ _ _ _ _ _ _ Hfirst) as Hm.
  apply Bottleneck_forward_Ok in Hfirst; destruct Hfirst as (_ & _ & _ & Ev).
  unfold Bottleneck.expansion in Hrest.
  apply repeat_forward_Ok in Hrest; [|subst v; reflexivity].
  subst y; exact Hm.
Qed.

Lemma Bottleneck_forward_accepts (inplanes planes s : Z)
    (ds : option (Conv2d * Z)) (dil : Z) (training : bool) (b h w : Z) :
  shortcut_fits inplanes planes s ds ->
  1 <= inplanes -> 1 <= planes -> 1 <= dil ->
  bn_accepts training b (down s h) (down s w) ->
  1 <= s -> 1 <= h -> 1 <= w ->
  Bottleneck.forward (Bottleneck.init inplanes planes s ds dil) training
    (mkShape b inplanes h w)
    = Ok (mkShape b (planes * 4) (down s h) (down s w)).
Proof.
  intros Hds Hi Hp Hd Hm Hs Hh Hw.
  pose proof (down_pos s h ltac:(lia) Hh) as Hh'.
  pose proof (down_pos s w ltac:(lia) Hw) as Hw'.
  pose proof (down_le s h Hs Hh) as Hh''. pose proof (down_le s w Hs Hw) as Hw''.
  assert (bn_accepts training b h w) as Hm0
    by (apply (bn_accepts_larger training b h w (down s h) (down s w)); auto; lia).
  unfold Bottleneck.forward, Bottleneck.init, ReLU_forward, Bottleneck.expansion.
  cbn [Bottleneck.conv1 Bottleneck.conv2 Bottleneck.conv3 Bottleneck.bn1
       Bottleneck.bn2 Bottleneck.bn3 Bottleneck.downsample].
  rewrite conv1x1_forward_returns by (assumption || lia). cbn [Py.bind]. rewrite !down_1.
  rewrite BatchNorm2d_forward_accepts by (exact Hm0 || reflexivity).
  cbn [Py.bind].
  rewrite conv3x3_forward_returns by (assumption || lia). cbn [Py.bind].
  rewrite BatchNorm2d_forward_accepts by (exact Hm || reflexivity).
  cbn [Py.bind].
  rewrite conv1x1_forward_returns by (assumption || lia). cbn [Py.bind]. rewrite !down_1.
  rewrite BatchNorm2d_forward_accepts by (exact Hm || reflexivity).
  cbn [Py.bind].
  destruct Hds as [(-> & -> & ->)| ->].
  - cbn [Py.bind]. rewrite !down_1. rewrite iadd_returns; reflexivity.
  - rewrite conv1x1_forward_returns by (assumption || lia). cbn [Py.bind].
    rewrite BatchNorm2d_forward_accepts by (exact Hm || reflexivity).
    cbn [Py.bind]. rewrite iadd_returns; reflexivity.
Qed.

Lemma repeat_forward_accepts (planes dil : Z) (k : nat) (training : bool)
    (b h w : Z) :
  1 <= planes -> 1 <= dil ->
  bn_accepts training b h w -> 1 <= h -> 1 <= w ->
  Layer_forward (repeat (Bottleneck.init (planes * 4) planes 1 None dil) k)
    training (mkShape b (planes * 4) h w)
    = Ok (mkShape b (planes * 4) h w).
Proof.
  intros Hp Hd Hm Hh Hw; induction k as [|k IH]; simpl; [reflexivity|].
  rewrite Bottleneck_forward_accepts; try assumption; try lia.
  - cbn [Py.bind]; rewrite !down_1; exact IH.
  - left; auto.
  - rewrite !down_1; exact Hm.
Qed.

Lemma make_layer_forward_accepts (self : ResNet.builder) (planes : Z)
    (blocks : nat) (stride : Z) (dilate training : bool) (b h w : Z) :
  1 <= ResNet.inplanes self -> 1 <= planes -> 1 <= ResNet.dilation self ->
  bn_accepts training b (down (if dilate then 1 else stride) h)
    (down (if dilate then 1 else stride) w) ->
  1 <= stride -> 1 <= h -> 1 <= w ->
  Layer_forward (fst (ResNet._make_layer self planes blocks stride dilate))
    training (mkShape b (ResNet.inplanes self) h w)
    = Ok (mkShape b (planes * 4)
            (down (if dilate then 1 else stride) h)
            (down (if dilate then 1 else stride) w)).
Proof.
  intros Hi Hp Hd Hm Hs Hh Hw.
  assert (1 <= (if dilate then 1 else stride)) as Hs' by (destruct dilate; lia).
  assert (1 <= (if dilate then ResNet.dilation self * stride
                else ResNet.dilation self)) as Hd' by (destruct dilate; nia).
  unfold ResNet._make_layer; cbn [fst Layer_forward].
  rewrite Bottleneck_forward_accepts; try assumption.
  - cbn [Py.bind]. unfold Bottleneck.expansion.
    apply repeat_forward_accepts; try assumption; apply down_pos; lia.
  - unfold shortcut_fits, Bottleneck.expansion.
    destruct (Z.eqb_spec (if dilate then 1 else stride) 1) as [E1|E1];
      destruct (Z.eqb_spec (ResNet.inplanes self) (planes * 4)) as [E2|E2];
      cbn [negb orb]; auto.
Qed.

(** The stem: 7x7 convolution of stride 2, batch norm and 3x3 max pooling of
    stride 2. *)
Lemma stem_forward_accepts (training : bool) (b h w : Z) :
  bn_accepts training b (down 2 h) (down 2 w) -> 1 <= h -> 1 <= w ->
  (x <- Conv2d_forward (mkConv2d 3 64 7 2 (Pad 3) 1) (mkShape b 3 h w) ;;
   x <- BatchNorm2d_forward 64 training x ;;
   x <- ReLU_forward x ;;
   MaxPool2d_forward 3 2 1 x)
    = Ok (mkShape b 64 (down 4 h) (down 4 w)).
Proof.
  intros Hm Hh Hw.
  pose proof (down_pos 2 h ltac:(lia) Hh) as Hh1.
  pose proof (down_pos 2 w ltac:(lia) Hw) as Hw1.
  pose proof (down_pos 2 _ ltac:(lia) Hh1) as Hh2.
  pose proof (down_pos 2 _ ltac:(lia) Hw1) as Hw2.
  rewrite Conv2d_forward_returns;
    [| reflexivity
     | reflexivity
     | unfold kernel_extent, total_padding; cbn; lia
     | unfold kernel_extent, total_padding; cbn; lia].
  cbn [Py.bind Torch.batch channels height width out_channels].
  replace (conv_out_size (mkConv2d 3 64 7 2 (Pad 3) 1) h) with (down 2 h)
    by (unfold conv_out_size, kernel_extent, total_padding, down; cbn;
        f_equal; f_equal; lia).
  replace (conv_out_size (mkConv2d 3 64 7 2 (Pad 3) 1) w) with (down 2 w)
    by (unfold conv_out_size, kernel_extent, total_padding, down; cbn;
        f_equal; f_equal; lia).
  rewrite BatchNorm2d_forward_accepts by (exact Hm || reflexivity).
  unfold ReLU_forward, MaxPool2d_forward.
  cbn [Py.bind Torch.batch channels height width].
  replace (down 2 h + 2 * 1 - 3) with (down 2 h - 1) by lia.
  replace (down 2 w + 2 * 1 - 3) with (down 2 w - 1) by lia.
  fold (down 2 (down 2 h)). fold (down 2 (down 2 w)).
  rewrite (proj2 (Z.ltb_lt 0 _)) by lia.
  rewrite (proj2 (Z.ltb_lt 0 _)) by lia.
  cbn [andb assert_that Py.bind].
  rewrite !down_down by lia. reflexivity.
Qed.

(** From the size of the last feature map to the sizes before it. *)
Lemma bn_accepts_stages (training : bool) (b h w : Z) :
  1 <= h -> 1 <= w ->
  bn_accepts training b (down 32 h) (down 32 w) ->
  bn_accepts training b (down 2 h) (down 2 w) /\
  bn_accepts training b (down 4 h) (down 4 w) /\
  bn_accepts training b (down 8 h) (down 8 w) /\
  bn_accepts training b (down 16 h) (down 16 w).
Proof.
  intros Hh Hw Hm.
  assert (forall n, 1 <= n ->
            1 <= down 32 n <= down 16 n /\ down 16 n <= down 8 n /\
            down 8 n <= down 4 n /\ down 4 n <= down 2 n) as Hchain.
  { intros n Hn.
    pose proof (down_pos 2 n ltac:(lia) Hn).
    pose proof (down_pos 4 n ltac:(lia) Hn).
    pose proof (down_pos 8 n ltac:(lia) Hn).
    pose proof (down_pos 16 n ltac:(lia) Hn).
    pose proof (down_pos 32 n ltac:(lia) Hn).
    pose proof (down_le 2 (down 2 n) ltac:(lia) ltac:(lia)) as L1.
    pose proof (down_le 2 (down 4 n) ltac:(lia) ltac:(lia)) as L2.
    pose proof (down_le 2 (down 8 n) ltac:(lia) ltac:(lia)) as L3.
    pose proof (down_le 2 (down 16 n) ltac:(lia) ltac:(lia)) as L4.
    rewrite down_down in L1, L2, L3, L4 by lia.
    change (2 * 2) with 4 in L1. change (4 * 2) with 8 in L2.
    change (8 * 2) with 16 in L3. change (16 * 2) with 32 in L4. lia. }
  destruct (Hchain h Hh) as (? & ? & ? & ?).
  destruct (Hchain w Hw) as (? & ? & ? & ?).
  repeat split;
    apply (bn_accepts_larger training b _ _ (down 32 h) (down 32 w));
    auto; lia.
Qed.

Lemma bind_returns_or_refuses {A B : Type} (r : result A) (a : A)
    (k : A -> result B) (b : B) :
  returns_or_refuses r a -> returns_or_refuses (k a) b ->
  returns_or_refuses (Py.bind r k) b.
Proof.
  intros [->| ->] Hk; [exact Hk | right; reflexivity].
Qed.

Lemma BatchNorm2d_returns_or_refuses (n : Z) (training : bool) (b h w : Z) :
  returns_or_refuses (BatchNorm2d_forward n training (mkShape b n h w))
    (mkShape b n h w).
Proof.
  unfold BatchNorm2d_forward; cbn [Torch.batch channels height width].
  destruct (training && (b * h * w =? 1)); cbn [negb assert_that Py.bind].
  - right; reflexivity.
  - rewrite Z.eqb_refl; left; reflexivity.
Qed.

Lemma Bottleneck_returns_or_refuses (inplanes planes s : Z)
    (ds : option (Conv2d * Z)) (dil : Z) (training : bool) (b h w : Z) :
  shortcut_fits inplanes planes s ds ->
  1 <= inplanes -> 1 <= planes -> 1 <= dil ->
  1 <= s -> 1 <= h -> 1 <= w ->
  returns_or_refuses
    (Bottleneck.forward (Bottleneck.init inplanes planes s ds dil) training
       (mkShape b inplanes h w))
    (mkShape b (planes * 4) (down s h) (down s w)).
Proof.
  intros Hds Hi Hp Hd Hs Hh Hw.
  pose proof (down_pos s h ltac:(lia) Hh) as Hh'.
  pose proof (down_pos s w ltac:(lia) Hw) as Hw'.
  unfold Bottleneck.forward, Bottleneck.init, ReLU_forward, Bottleneck.expansion.
  cbn [Bottleneck.conv1 Bottleneck.conv2 Bottleneck.conv3 Bottleneck.bn1
       Bottleneck.bn2 Bottleneck.bn3 Bottleneck.downsample].
  rewrite conv1x1_forward_returns by (assumption || lia). cbn [Py.bind]. rewrite !down_1.
  eapply bind_returns_or_refuses; [apply BatchNorm2d_returns_or_refuses|].
  cbn [Py.bind].
  rewrite conv3x3_forward_returns by (assumption || lia). cbn [Py.bind].
  eapply bind_returns_or_refuses; [apply BatchNorm2d_returns_or_refuses|].
  cbn [Py.bind].
  rewrite conv1x1_forward_returns by (assumption || lia). cbn [Py.bind]. rewrite !down_1.
  eapply bind_returns_or_refuses; [apply BatchNorm2d_returns_or_refuses|].
  destruct Hds as [(-> & -> & ->)| ->].
  - cbn [Py.bind]. rewrite !down_1. rewrite iadd_returns; left; reflexivity.
  - rewrite conv1x1_forward_returns by (assumption || lia). cbn [Py.bind].
    eapply bind_returns_or_refuses; [apply BatchNorm2d_returns_or_refuses|].
    cbn [Py.bind]. rewrite iadd_returns; left; reflexivity.
Qed.

Lemma repeat_returns_or_refuses (planes dil : Z) (k : nat) (training : bool)
    (b h w : Z) :
  1 <= planes -> 1 <= dil ->
  1 <= h -> 1 <= w ->
  returns_or_refuses
    (Layer_forward (repeat (Bottleneck.init (planes * 4) planes 1 None dil) k)
       training (mkShape b (planes * 4) h w))
    (mkShape b (planes * 4) h w).
Proof.
  intros Hp Hd Hh Hw; induction k as [|k IH]; simpl; [left; reflexivity|].
  eapply bind_returns_or_refuses.
  - apply Bottleneck_returns_or_refuses; try lia. left; auto.
  - rewrite !down_1; exact IH.
Qed.

Lemma make_layer_returns_or_refuses (self : ResNet.builder) (planes : Z)
    (blocks : nat) (stride : Z) (dilate training : bool) (b h w : Z) :
  1 <= ResNet.inplanes self -> 1 <= planes -> 1 <= ResNet.dilation self ->
  1 <= stride -> 1 <= h -> 1 <= w ->
  returns_or_refuses
    (Layer_forward (fst (ResNet._make_layer self planes blocks stride dilate))
       training (mkShape b (ResNet.inplanes self) h w))
    (mkShape b (planes * 4)
       (down (if dilate then 1 else stride) h)
       (down (if dilate then 1 else stride) w)).
Proof.
  intros Hi Hp Hd Hs Hh Hw.
  assert (1 <= (if dilate then 1 else stride)) as Hs' by (destruct dilate; lia).
  assert (1 <= (if dilate then ResNet.dilation self * stride
                else ResNet.dilation self)) as Hd' by (destruct dilate; nia).
  unfold ResNet._make_layer; cbn [fst Layer_forward].
  eapply bind_returns_or_refuses.
  - apply Bottleneck_returns_or_refuses; try assumption.
    unfold shortcut_fits, Bottleneck.expansion.
    destruct (Z.eqb_spec (if dilate then 1 else stride) 1) as [E1|E1];
      destruct (Z.eqb_spec (ResNet.inplanes self) (planes * 4)) as [E2|E2];
      cbn [negb orb]; auto.
  - unfold Bottleneck.expansion.
    apply repeat_returns_or_refuses; try assumption; apply down_pos; lia.
Qed.

Lemma stem_returns_or_refuses (training : bool) (b h w : Z) :
  1 <= h -> 1 <= w ->
  returns_or_refuses
    (x <- Conv2d_forward (mkConv2d 3 64 7 2 (Pad 3) 1) (mkShape b 3 h w) ;;
     x <- BatchNorm2d_forward 64 training x ;;
     x <- ReLU_forward x ;;
     MaxPool2d_forward 3 2 1 x)
    (mkShape b 64 (down 4 h) (down 4 w)).
Proof.
  intros Hh Hw.
  destruct (BatchNorm2d_returns_or_refuses 64 training b (down 2 h) (down 2 w))
    as [E|E].
  - left. apply stem_forward_accepts; try assumption.
    apply BatchNorm2d_forward_iff in E; destruct E as (Hm & _); exact Hm.
  - right.
    rewrite Conv2d_forward_returns;
      [| reflexivity
       | reflexivity
       | unfold kernel_extent, total_padding; cbn; lia
       | unfold kernel_extent, total_padding; cbn; lia].
    cbn [Py.bind Torch.batch channels height width out_channels].
    replace (conv_out_size (mkConv2d 3 64 7 2 (Pad 3) 1) h) with (down 2 h)
      by (unfold conv_out_size, kernel_extent, total_padding, down; cbn;
          f_equal; f_equal; lia).
    replace (conv_out_size (mkConv2d 3 64 7 2 (Pad 3) 1) w) with (down 2 w)
      by (unfold conv_out_size, kernel_extent, total_padding, down; cbn;
          f_equal; f_equal; lia).
    rewrite E; reflexivity.
Qed.

Lemma conv1_pool1_forward_stem (training : bool) (x : Shape) :
  ResNet50Backbone.conv1_pool1_forward ResNet50Backbone.init training x
  = (y <- (x <- Conv2d_forward (mkConv2d 3 64 7 2 (Pad 3) 1) x ;;
           x <- BatchNorm2d_forward 64 training x ;;
           x <- ReLU_forward x ;;
           MaxPool2d_forward 3 2 1 x) ;;
     Layer_forward (fst (ResNet._make_layer (ResNet.mkBuilder 64 1) 64 3 1 false))
       training y).
Proof.
  destruct RESNET50_stages as (E0 & E1 & E2 & E3 & _).
  unfold ResNet50Backbone.conv1_pool1_forward, ResNet50Backbone.init.
  cbn [ResNet50Backbone.conv1_pool1]. rewrite E0, E1, E2, E3.
  destruct (Conv2d_forward (mkConv2d 3 64 7 2 (Pad 3) 1) x) as [v|e];
    cbn [Py.bind]; [|reflexivity].
  destruct (BatchNorm2d_forward 64 training v) as [v'|e];
    cbn [Py.bind]; [|reflexivity].
  unfold ReLU_forward; cbn [Py.bind].
  destruct (MaxPool2d_forward 3 2 1 v'); reflexivity.
Qed.

(** Each stage of the backbone, on the output of the stage before it. *)
Lemma backbone_stages (training : bool) (b h w : Z) :
  1 <= h -> 1 <= w ->
  let self := ResNet50Backbone.init in
  returns_or_refuses
    (ResNet50Backbone.conv1_pool1_forward self training (mkShape b 3 h w))
    (mkShape b 256 (down 4 h) (down 4 w)) /\
  returns_or_refuses
    (Layer_forward (ResNet50Backbone.block1 self) training
       (mkShape b 256 (down 4 h) (down 4 w)))
    (mkShape b 512 (down 8 h) (down 8 w)) /\
  returns_or_refuses
    (Layer_forward (ResNet50Backbone.block2 self) training
       (mkShape b 512 (down 8 h) (down 8 w)))
    (mkShape b 1024 (down 16 h) (down 16 w)) /\
  returns_or_refuses
    (Layer_forward (ResNet50Backbone.block3 self) training
       (mkShape b 1024 (down 16 h) (down 16 w)))
    (mkShape b 2048 (down 32 h) (down 32 w)).
Proof.
  intros Hh Hw self; subst self.
  destruct RESNET50_stages as (_ & _ & _ & _ & E4 & E5 & E6).
  pose proof (down_pos 4 h ltac:(lia) Hh). pose proof (down_pos 4 w ltac:(lia) Hw).
  pose proof (down_pos 8 h ltac:(lia) Hh). pose proof (down_pos 8 w ltac:(lia) Hw).
  pose proof (down_pos 16 h ltac:(lia) Hh).
  pose proof (down_pos 16 w ltac:(lia) Hw).
  unfold ResNet50Backbone.init.
  cbn [ResNet50Backbone.block1 ResNet50Backbone.block2 ResNet50Backbone.block3].
  rewrite E4, E5, E6.
  split; [|split; [|split]].
  - change (ResNet50Backbone.mk _ _ _ _) with ResNet50Backbone.init.
    rewrite conv1_pool1_forward_stem.
    eapply bind_returns_or_refuses; [apply stem_returns_or_refuses; assumption|].
    pose proof (make_layer_returns_or_refuses (ResNet.mkBuilder 64 1) 64 3 1
                  false training b (down 4 h) (down 4 w)) as L.
    cbn [ResNet.inplanes ResNet.dilation] in L. rewrite !down_1 in L. apply L; lia.
  - pose proof (make_layer_returns_or_refuses (ResNet.mkBuilder 256 1) 128 4 2
                  false training b (down 4 h) (down 4 w)) as L.
    cbn [ResNet.inplanes ResNet.dilation] in L. rewrite !down_down in L by lia. apply L; lia.
  - pose proof (make_layer_returns_or_refuses (ResNet.mkBuilder 512 1) 256 6 2
                  false training b (down 8 h) (down 8 w)) as L.
    cbn [ResNet.inplanes ResNet.dilation] in L. rewrite !down_down in L by lia. apply L; lia.
  - pose proof (make_layer_returns_or_refuses (ResNet.mkBuilder 1024 1) 512 3 2
                  false training b (down 16 h) (down 16 w)) as L.
    cbn [ResNet.inplanes ResNet.dilation] in L. rewrite !down_down in L by lia. apply L; lia.
Qed.

(** A stage that returns has passed its batch norms. *)
Lemma returns_or_refuses_Ok {A : Type} (r : result A) (a a' : A) :
  returns_or_refuses r a -> r = Ok a' -> r = Ok a.
Proof.
  intros [E|E] H; [exact E | rewrite E in H; discriminate H].
Qed.

(** The whole backbone on a non-empty 3-channel image: it returns at one
    32nd of the size or a batch norm refuses. *)
Lemma backbone_returns_or_refuses (training : bool) (b h w : Z) :
  1 <= h -> 1 <= w ->
  returns_or_refuses
    (ResNet50Backbone.forward ResNet50Backbone.init training (mkShape b 3 h w))
    (mkShape b 2048 (down 32 h) (down 32 w)).
Proof.
  intros Hh Hw.
  destruct (backbone_stages training b h w Hh Hw) as (S1 & S2 & S3 & S4).
  unfold ResNet50Backbone.forward.
  eapply bind_returns_or_refuses; [exact S1|].
  eapply bind_returns_or_refuses; [exact S2|].
  eapply bind_returns_or_refuses; [exact S3|].
  eapply bind_returns_or_refuses; [exact S4|].
  left; reflexivity.
Qed.

(** The stages on an image that the backbone accepts. *)
Lemma ResNet50Backbone_stage_strides_aux (training : bool) (b h w : Z) :
  1 <= h -> 1 <= w ->
  bn_accepts training b (down 32 h) (down 32 w) ->
  let self := ResNet50Backbone.init in
  ResNet50Backbone.conv1_pool1_forward self training (mkShape b 3 h w)
    = Ok (mkShape b 256 (down 4 h) (down 4 w)) /\
  Layer_forward (ResNet50Backbone.block1 self) training
    (mkShape b 256 (down 4 h) (down 4 w))
    = Ok (mkShape b 512 (down 8 h) (down 8 w)) /\
  Layer_forward (ResNet50Backbone.block2 self) training
    (mkShape b 512 (down 8 h) (down 8 w))
    = Ok (mkShape b 1024 (down 16 h) (down 16 w)) /\
  Layer_forward (ResNet50Backbone.block3 self) training
    (mkShape b 1024 (down 16 h) (down 16 w))
    = Ok (mkShape b 2048 (down 32 h) (down 32 w)).
Proof.
  intros Hh Hw Hm self; subst self.
  destruct (bn_accepts_stages training b h w Hh Hw Hm) as (M2 & M4 & M8 & M16).
  destruct RESNET50_stages as (_ & _ & _ & _ & E4 & E5 & E6).
  pose proof (down_pos 4 h ltac:(lia) Hh). pose proof (down_pos 4 w ltac:(lia) Hw).
  pose proof (down_pos 8 h ltac:(lia) Hh). pose proof (down_pos 8 w ltac:(lia) Hw).
  pose proof (down_pos 16 h ltac:(lia) Hh).
  pose proof (down_pos 16 w ltac:(lia) Hw).
  split; [|split; [|split]].
  - rewrite conv1_pool1_forward_stem.
    rewrite stem_forward_accepts by assumption. cbn [Py.bind].
    pose proof (make_layer_forward_accepts (ResNet.mkBuilder 64 1) 64 3 1
                  false training b (down 4 h) (down 4 w)) as L.
    cbn [ResNet.inplanes ResNet.dilation] in L. rewrite !down_1 in L. apply L; assumption || lia.
  - unfold ResNet50Backbone.init; cbn [ResNet50Backbone.block1]. rewrite E4.
    pose proof (make_layer_forward_accepts (ResNet.mkBuilder 256 1) 128 4 2
                  false training b (down 4 h) (down 4 w)) as L.
    cbn [ResNet.inplanes ResNet.dilation] in L. rewrite !down_down in L by lia.
    apply L; assumption || lia.
  - unfold ResNet50Backbone.init; cbn [ResNet50Backbone.block2]. rewrite E5.
    pose proof (make_layer_forward_accepts (ResNet.mkBuilder 512 1) 256 6 2
                  false training b (down 8 h) (down 8 w)) as L.
    cbn [ResNet.inplanes ResNet.dilation] in L. rewrite !down_down in L by lia.
    apply L; assumption || lia.
  - unfold ResNet50Backbone.init; cbn [ResNet50Backbone.block3]. rewrite E6.
    pose proof (make_layer_forward_accepts (ResNet.mkBuilder 1024 1) 512 3 2
                  false training b (down 16 h) (down 16 w)) as L.
    cbn [ResNet.inplanes ResNet.dilation] in L. rewrite !down_down in L by lia.
    apply L; assumption || lia.
Qed.

(** X6.  On a non-empty 3-channel image, in evaluation mode or with a batch
    of more than one image, the four stages of the backbone return feature
    maps of 256, 512, 1024 and 2048 channels at output strides 4, 8, 16 and
    32, as the comments of [forward] say. *)
Theorem ResNet50Backbone_stage_strides (training : bool) (b h w : Z) :
  1 <= h -> 1 <= w ->
  training = false \/ b <> 1 ->
  let self := ResNet50Backbone.init in
  ResNet50Backbone.conv1_pool1_forward self training (mkShape b 3 h w)
    = Ok (mkShape b 256 (down 4 h) (down 4 w)) /\
  Layer_forward (ResNet50Backbone.block1 self) training
    (mkShape b 256 (down 4 h) (down 4 w))
    = Ok (mkShape b 512 (down 8 h) (down 8 w)) /\
  Layer_forward (ResNet50Backbone.block2 self) training
    (mkShape b 512 (down 8 h) (down 8 w))
    = Ok (mkShape b 1024 (down 16 h) (down 16 w)) /\
  Layer_forward (ResNet50Backbone.block3 self) training
    (mkShape b 1024 (down 16 h) (down 16 w))
    = Ok (mkShape b 2048 (down 32 h) (down 32 w)).
Proof.
  intros Hh Hw Hm.
  pose proof (down_pos 32 h ltac:(lia) Hh) as Hh'.
  pose proof (down_pos 32 w ltac:(lia) Hw) as Hw'.
  apply ResNet50Backbone_stage_strides_aux; try assumption.
  apply bn_accepts_batch; assumption.
Qed.

Lemma ResNet50Backbone_stage_strides_witness :
  ResNet50Backbone.conv1_pool1_forward ResNet50Backbone.init true
    (mkShape 2 3 513 513) = Ok (mkShape 2 256 (down 4 513) (down 4 513)) /\
  Layer_forward (ResNet50Backbone.block1 ResNet50Backbone.init) true
    (mkShape 2 256 (down 4 513) (down 4 513))
    = Ok (mkShape 2 512 (down 8 513) (down 8 513)) /\
  Layer_forward (ResNet50Backbone.block2 ResNet50Backbone.init) true
    (mkShape 2 512 (down 8 513) (down 8 513))
    = Ok (mkShape 2 1024 (down 16 513) (down 16 513)) /\
  Layer_forward (ResNet50Backbone.block3 ResNet50Backbone.init) true
    (mkShape 2 1024 (down 16 513) (down 16 513))
    = Ok (mkShape 2 2048 (down 32 513) (down 32 513)).
Proof.
  apply (ResNet50Backbone_stage_strides true 2 513 513); lia.
Defined.

Lemma ResNet50Backbone_forward_inv (training : bool) (x y : Shape) :
  ResNet50Backbone.forward ResNet50Backbone.init training x = Ok y ->
  channels x = 3 /\ 1 <= height x /\ 1 <= width x /\
  bn_accepts training (Torch.batch x) (down 32 (height x)) (down 32 (width x)) /\
  y = mkShape (Torch.batch x) 2048 (down 32 (height x)) (down 32 (width x)).
Proof.
  destruct x as [b c h w]; cbn [Torch.batch channels height width].
  intros H. pose proof (ResNet50Backbone_forward_Ok _ _ _ H) as Hshape.
  cbn [Torch.batch channels height width] in Hshape.
  destruct Hshape as (-> & Hh & Hw & ->).
  repeat split; try assumption.
  destruct (backbone_stages training b h w Hh Hw) as (S1 & S2 & S3 & S4).
  unfold ResNet50Backbone.forward in H.
  destruct S1 as [S1|S1]; rewrite S1 in H; [|discriminate H].
  destruct S2 as [S2|S2]; cbn [Py.bind] in H; rewrite S2 in H; [|discriminate H].
  destruct S3 as [S3|S3]; cbn [Py.bind] in H; rewrite S3 in H; [|discriminate H].
  destruct S4 as [S4|S4]; cbn [Py.bind] in H; rewrite S4 in H; [|discriminate H].
  destruct RESNET50_stages as (_ & _ & _ & _ & _ & _ & E6).
  unfold ResNet50Backbone.init in S4; cbn [ResNet50Backbone.block3] in S4.
  rewrite E6 in S4. apply make_layer_forward_Ok_mode in S4. exact S4.
Qed.

Lemma ResNet50Backbone_forward_accepts (training : bool) (b h w : Z) :
  1 <= h -> 1 <= w ->
  bn_accepts training b (down 32 h) (down 32 w) ->
  ResNet50Backbone.forward ResNet50Backbone.init training (mkShape b 3 h w)
    = Ok (mkShape b 2048 (down 32 h) (down 32 w)).
Proof.
  intros Hh Hw Hm.
  destruct (ResNet50Backbone_stage_strides_aux training b h w Hh Hw Hm)
    as (S1 & S2 & S3 & S4).
  unfold ResNet50Backbone.forward.
  rewrite S1; cbn [Py.bind]. rewrite S2; cbn [Py.bind].
  rewrite S3; cbn [Py.bind]. rewrite S4; reflexivity.
Qed.

(** X7.  [ResNet50Backbone.forward] returns exactly on the non-empty
    3-channel images whose last feature map has, in training mode, more
    than one value per channel; the result then has 2048 channels and one
    32nd of the height and width, rounded up. *)
Theorem ResNet50Backbone_forward_iff (training : bool) (x y : Shape) :
  ResNet50Backbone.forward ResNet50Backbone.init training x = Ok y <->
  channels x = 3 /\ 1 <= height x /\ 1 <= width x /\
  bn_accepts training (Torch.batch x) (down 32 (height x)) (down 32 (width x)) /\
  y = mkShape (Torch.batch x) 2048 (down 32 (height x)) (down 32 (width x)).
Proof.
  split.
  - apply ResNet50Backbone_forward_inv.
  - destruct x as [b c h w]; cbn [Torch.batch channels height width].
    intros (-> & Hh & Hw & Hm & ->).
    apply ResNet50Backbone_forward_accepts; assumption.
Qed.

Lemma ResNet50Backbone_forward_iff_witness :
  ResNet50Backbone.forward ResNet50Backbone.init true (mkShape 1 3 33 32)
    = Ok (mkShape 1 2048 2 1).
Proof.
  apply (proj2 (ResNet50Backbone_forward_iff true (mkShape 1 3 33 32)
                  (mkShape 1 2048 2 1))).
  cbn [Torch.batch channels height width].
  repeat split; try lia.
  right; vm_compute; discriminate.
Defined.

(** X8.  What the backbone raises: [RuntimeError] on an input whose channel
    count is not 3 and on an empty image, and, in training mode,
    [ValueError] on a single image of at most 32 x 32 pixels, whose last
    feature map is a single value per channel. *)
Theorem ResNet50Backbone_forward_rejects (training : bool) (b c h w : Z) :
  (c <> 3 ->
   ResNet50Backbone.forward ResNet50Backbone.init training (mkShape b c h w)
     = Raise RuntimeError) /\
  (h < 1 \/ w < 1 ->
   ResNet50Backbone.forward ResNet50Backbone.init training (mkShape b 3 h w)
     = Raise RuntimeError) /\
  (1 <= h <= 32 -> 1 <= w <= 32 ->
   ResNet50Backbone.forward ResNet50Backbone.init true (mkShape 1 3 h w)
     = Raise ValueError).
Proof.
  split; [|split].
  - intros Hc. unfold ResNet50Backbone.forward.
    rewrite conv1_pool1_forward_stem. unfold Conv2d_forward.
    cbn [Torch.batch channels height width in_channels].
    rewrite (proj2 (Z.eqb_neq c 3) Hc). reflexivity.
  - intros Hs. unfold ResNet50Backbone.forward.
    rewrite conv1_pool1_forward_stem. unfold Conv2d_forward, kernel_extent,
      total_padding.
    cbn [Torch.batch channels height width in_channels kernel_size padding
         dilation].
    rewrite Z.eqb_refl. cbn [assert_that Py.bind].
    destruct (Z.leb_spec (1 * (7 - 1) + 1) (h + 2 * 3)) as [Hh|Hh];
      cbn [assert_that Py.bind]; [|reflexivity].
    destruct (Z.leb_spec (1 * (7 - 1) + 1) (w + 2 * 3)) as [Hw|Hw];
      cbn [assert_that Py.bind]; [lia | reflexivity].
  - intros Hh Hw.
    destruct (backbone_returns_or_refuses true 1 h w) as [E|E]; try lia;
      [|exact E].
    apply ResNet50Backbone_forward_inv in E.
    cbn [Torch.batch channels height width] in E.
    destruct E as (_ & _ & _ & [Ht|Hn] & _); [discriminate Ht|].
    exfalso; apply Hn. unfold down.
    rewrite !Z.div_small by lia. reflexivity.
Qed.

Lemma ResNet50Backbone_forward_rejects_witness :
  ResNet50Backbone.forward ResNet50Backbone.init false (mkShape 2 1 224 224)
    = Raise RuntimeError /\
  ResNet50Backbone.forward ResNet50Backbone.init false (mkShape 2 3 0 224)
    = Raise RuntimeError /\
  ResNet50Backbone.forward ResNet50Backbone.init true (mkShape 1 3 32 32)
    = Raise ValueError.
Proof.
  split; [|split].
  - apply (proj1 (ResNet50Backbone_forward_rejects false 2 1 224 224)); lia.
  - apply (proj1 (proj2 (ResNet50Backbone_forward_rejects false 2 3 0 224))); lia.
  - apply (proj2 (proj2 (ResNet50Backbone_forward_rejects true 1 3 32 32))); lia.
Defined.

(** ** [DeepLabv3]: how the parts fit *)

Lemma block4_rejects (training : bool) (x : Shape) :
  channels x <> 1024 ->
  Layer_forward (ResNet.layer4 ResNet.deeplabv3_resnet50_backbone) training x
    = Raise RuntimeError.
Proof.
  intros Hc. rewrite deeplabv3_resnet50_layer4.
  unfold ResNet._make_layer; cbn [fst Layer_forward].
  unfold Bottleneck.forward, Bottleneck.init, Bottleneck.conv1x1, Conv2d_forward.
  cbn [Bottleneck.conv1 in_channels ResNet.inplanes].
  rewrite (proj2 (Z.eqb_neq _ _) Hc). reflexivity.
Qed.

(** X9.  The stage [block4] of a constructed model returns exactly on
    non-empty feature maps of 1024 channels (with, in training mode, more
    than one value per channel); it returns 2048 channels and keeps the
    height and width, its stride being replaced by dilation. *)
Theorem DeepLabv3_block4_iff (fetch : result unit) (n_classes : Z) (m : DeepLabv3.t) (training : bool)
    (x y : Shape) :
  DeepLabv3.init fetch 16 n_classes = Ok m ->
  exists l, DeepLabv3.block4 m = Some l /\
    (Layer_forward l training x = Ok y <->
     channels x = 1024 /\ 1 <= height x /\ 1 <= width x /\
     bn_accepts training (Torch.batch x) (height x) (width x) /\
     y = mkShape (Torch.batch x) 2048 (height x) (width x)).
Proof.
  intros Hi; apply DeepLabv3_init_Ok in Hi; destruct Hi as (_ & _ & _ & ->).
  cbn [DeepLabv3.block4]. eexists; split; [reflexivity|].
  rewrite deeplabv3_resnet50_layer4. split.
  - intros H.
    pose proof (make_layer_forward_Ok_mode _ _ _ _ _ _ _ _ H) as Hm.
    apply make_layer_forward_Ok in H; cbv zeta in H.
    cbn [ResNet.inplanes] in H. rewrite !down_1 in H.
    destruct H as (Hc & Hh & Hw & ->).
    cbn [Torch.batch height width] in Hm. auto.
  - intros (Hc & Hh & Hw & Hm & ->).
    destruct x as [b c h w]; cbn [Torch.batch channels height width] in *.
    subst c.
    pose proof (make_layer_forward_accepts (ResNet.mkBuilder 1024 2) 512 3 2
                  true training b h w) as L.
    cbn [ResNet.inplanes ResNet.dilation] in L. rewrite !down_1 in L. apply L; assumption || lia.
Qed.

Lemma DeepLabv3_block4_iff_witness :
  exists l,
    DeepLabv3.block4
      (DeepLabv3.mk (Some 21) (Some [6; 12; 18])
         (Some ResNet50Backbone.init)
         (Some (ResNet.layer4 ResNet.deeplabv3_resnet50_backbone))
         (Some (ASPP.mk [6; 12; 18] (ConvBlock.built 64 1 1)
                  (ConvBlock.built 64 3 6) (ConvBlock.built 64 3 12)
                  (ConvBlock.built 64 3 18) ImagePooling.init))
         (Some (ConvBlock.built 1280 1 1))
         (Some (mkConv2d 256 21 1 1 (Pad 0) 1))) = Some l /\
    (Layer_forward l true (mkShape 2 1024 14 14) = Ok (mkShape 2 2048 14 14) <->
     channels (mkShape 2 1024 14 14) = 1024 /\ 1 <= 14 /\ 1 <= 14 /\
     bn_accepts true 2 14 14 /\
     mkShape 2 2048 14 14 = mkShape 2 2048 14 14).
Proof.
  apply (DeepLabv3_block4_iff (Ok tt) 21 _ true (mkShape 2 1024 14 14)
           (mkShape 2 2048 14 14) eq_refl).
Defined.

(** X10.  The forward pass of a constructed model returns on no input, and
    on every image that the backbone accepts it raises [RuntimeError]: the
    backbone's 2048 channels reach [block4], which takes 1024. *)
Theorem DeepLabv3_forward_raises (fetch : result unit) (n_classes : Z) (m : DeepLabv3.t)
    (training : bool) (b h w : Z) :
  DeepLabv3.init fetch 16 n_classes = Ok m ->
  (forall x y, DeepLabv3.forward m training x <> Ok y) /\
  (1 <= h -> 1 <= w ->
   bn_accepts training b (down 32 h) (down 32 w) ->
   DeepLabv3.forward m training (mkShape b 3 h w) = Raise RuntimeError).
Proof.
  intros Hi. split.
  - intros x0 y H.
    apply (DeepLabv3_forward_never_Ok fetch n_classes training x0 y).
    rewrite Hi; exact H.
  - intros Hh Hw Hm.
    apply DeepLabv3_init_Ok in Hi; destruct Hi as (_ & _ & _ & ->).
    unfold DeepLabv3.forward.
    cbn [DeepLabv3.backbone DeepLabv3.block4 getattr Py.bind].
    rewrite ResNet50Backbone_forward_accepts by assumption.
    cbn [Py.bind].
    rewrite block4_rejects by (cbn [channels]; lia).
    reflexivity.
Qed.

Lemma DeepLabv3_forward_raises_witness :
  exists m, DeepLabv3.init (Ok tt) 16 21 = Ok m /\
    DeepLabv3.forward m false (mkShape 1 3 513 513) = Raise RuntimeError.
Proof.
  eexists; split; [reflexivity|].
  apply (proj2 (DeepLabv3_forward_raises (Ok tt) 21 _ false 1 513 513 eq_refl)); try lia.
  left; reflexivity.
Defined.

(** X11.  From [ASPP] on, a model constructed with at least one class fits
    together and keeps the resolution: on a non-empty 64-channel feature
    map (in evaluation mode, or with more than one image) [aspp],
    [conv_block] and [fin_conv] in turn return logits of [n_classes]
    channels with the height and width of that feature map; nothing
    upsamples them. *)
Theorem DeepLabv3_head_keeps_size (fetch : result unit) (n_classes : Z)
    (m : DeepLabv3.t) (training : bool) (b h w : Z) :
  DeepLabv3.init fetch 16 n_classes = Ok m ->
  1 <= n_classes ->
  1 <= h -> 1 <= w -> training = false \/ b <> 1 ->
  (a <- getattr (DeepLabv3.aspp m) ;;
   v <- ASPP.forward a training (mkShape b 64 h w) ;;
   cb <- getattr (DeepLabv3.conv_block m) ;;
   v <- ConvBlock.forward cb training v ;;
   fc <- getattr (DeepLabv3.fin_conv m) ;;
   Conv2d_forward fc v)
    = Ok (mkShape b n_classes h w).
Proof.
  intros Hi Hn Hh Hw Hm.
  apply DeepLabv3_init_Ok in Hi; destruct Hi as (_ & _ & _ & ->).
  cbn [DeepLabv3.aspp DeepLabv3.conv_block DeepLabv3.fin_conv getattr Py.bind].
  rewrite (ASPP_forward_accepts [6; 12; 18])
    by solve [assumption | reflexivity | apply dilations_supported_default].
  cbn [Py.bind Torch.batch channels height width].
  rewrite ConvBlock_forward_accepts
    by (cbn [Torch.batch channels height width];
        solve [reflexivity | assumption | lia
              | apply bn_accepts_batch; assumption]).
  cbn [Py.bind Torch.batch channels height width].
  change (mkConv2d 256 n_classes 1 1 (Pad 0) 1)
    with (Bottleneck.conv1x1 256 n_classes 1).
  rewrite conv1x1_forward_returns by (assumption || lia).
  rewrite !down_1. reflexivity.
Qed.

Lemma DeepLabv3_head_keeps_size_witness :
  exists m, DeepLabv3.init (Ok tt) 16 21 = Ok m /\
    (a <- getattr (DeepLabv3.aspp m) ;;
     v <- ASPP.forward a true (mkShape 2 64 33 33) ;;
     cb <- getattr (DeepLabv3.conv_block m) ;;
     v <- ConvBlock.forward cb true v ;;
     fc <- getattr (DeepLabv3.fin_conv m) ;;
     Conv2d_forward fc v)
      = Ok (mkShape 2 21 33 33).
Proof.
  eexists; split; [reflexivity|].
  apply (DeepLabv3_head_keeps_size (Ok tt) 21 _ true 2 33 33 eq_refl); lia.
Defined.

Lemma ASPP_rejects_channels (rates : list Z) (aspp : ASPP.t) (training : bool)
    (x : Shape) :
  ASPP.init rates = Ok aspp ->
  channels x <> 64 ->
  ASPP.forward aspp training x = Raise RuntimeError.
Proof.
  intros Hi Hc.
  apply ASPP_init_Ok in Hi; destruct Hi as (r0 & r1 & r2 & rest & _ & ->).
  unfold ASPP.forward, ASPP.branches.
  cbn [ASPP.conv_block1].
  unfold ConvBlock.forward, ConvBlock.built, Conv2d_forward.
  cbn [ConvBlock.conv in_channels].
  change (supported (mkConv2d 64 256 1 1 Same 1)) with true.
  cbn [assert_that Py.bind].
  rewrite (proj2 (Z.eqb_neq _ _) Hc). reflexivity.
Qed.

(** X12.  [ASPP] raises [RuntimeError] on every input whose channel count
    is not 64; in particular [block4] and [aspp] of a constructed model do
    not compose: whatever [block4] returns has 2048 channels, and [aspp]
    raises on it. *)
Theorem DeepLabv3_block4_output_refused (fetch : result unit) (n_classes : Z) (m : DeepLabv3.t)
    (training : bool) (x v : Shape) :
  DeepLabv3.init fetch 16 n_classes = Ok m ->
  (l <- getattr (DeepLabv3.block4 m) ;; Layer_forward l training x) = Ok v ->
  channels v = 2048 /\
  (a <- getattr (DeepLabv3.aspp m) ;; ASPP.forward a training v)
    = Raise RuntimeError.
Proof.
  intros Hi H.
  apply DeepLabv3_init_Ok in Hi; destruct Hi as (_ & _ & _ & ->).
  cbn [DeepLabv3.block4 DeepLabv3.aspp getattr Py.bind] in *.
  apply block4_forward_Ok in H; destruct H as (_ & ->).
  split; [reflexivity|].
  apply (ASPP_rejects_channels [6; 12; 18]); [reflexivity|].
  cbn [channels]; lia.
Qed.

Lemma DeepLabv3_block4_output_refused_witness :
  exists m, DeepLabv3.init (Ok tt) 16 21 = Ok m /\
    (l <- getattr (DeepLabv3.block4 m) ;; Layer_forward l true (mkShape 2 1024 14 14))
      = Ok (mkShape 2 2048 14 14) /\
    channels (mkShape 2 2048 14 14) = 2048 /\
    (a <- getattr (DeepLabv3.aspp m) ;; ASPP.forward a true (mkShape 2 2048 14 14))
      = Raise RuntimeError.
Proof.
  eexists; split; [reflexivity|]. split; [vm_compute; reflexivity|].
  apply (DeepLabv3_block4_output_refused (Ok tt) 21 _ true (mkShape 2 1024 14 14)
           (mkShape 2 2048 14 14) eq_refl).
  vm_compute; reflexivity.
Defined.

(** * Further properties of train.py *)

(** ** The steps of the loop *)

Lemma In_range (a b z : Z) : In z (range a b) <-> a <= z < b.
Proof.
  unfold range. rewrite in_map_iff. split.
  - intros (i & <- & Hi). apply in_seq in Hi. lia.
  - intros Hz. exists (Z.to_nat (z - a)). split; [lia|].
    apply in_seq. lia.
Qed.

Lemma range_length (a b : Z) : List.length (range a b) = Z.to_nat (b - a).
Proof.
  unfold range. rewrite length_map, length_seq. reflexivity.
Qed.

Lemma range_cons (a b : Z) : a < b -> range a b = a :: range (a + 1) b.
Proof.
  intros H. unfold range.
  replace (Z.to_nat (b - a)) with (S (Z.to_nat (b - (a + 1)))) by lia.
  cbn [seq map]. f_equal; [lia|].
  rewrite <- seq_shift, map_map. apply map_ext. intros i; lia.
Qed.

Lemma range_last (a b d : Z) : a < b -> last (range a b) d = b - 1.
Proof.
  intros H. unfold range.
  replace (Z.to_nat (b - a)) with (S (Z.to_nat (b - a - 1))) by lia.
  rewrite seq_S, map_app. cbn [map]. rewrite last_last. lia.
Qed.

(** X15.  The loop [for step in range(1, N_STEPS + 1)] visits exactly the
    steps 1 to [N_STEPS], in increasing order, and the last step of the run
    gets the learning rate 0.0, whatever the C library's [pow]. *)
Theorem training_loop_learning_rates
    (libm_pow : float -> float -> result float)
    (complex_pow : float -> float -> result unit) (N_STEPS : Z) :
  (forall step, In step (range 1 (N_STEPS + 1)) <-> 1 <= step <= N_STEPS) /\
  (1 <= N_STEPS ->
   hd 0 (range 1 (N_STEPS + 1)) = 1 /\
   last (range 1 (N_STEPS + 1)) 0 = N_STEPS /\
   get_lr libm_pow complex_pow N_STEPS N_STEPS default_power
     = Ok (Float Float64.zero)).
Proof.
  split.
  - intros step. rewrite In_range. lia.
  - intros Hn. split; [|split].
    + rewrite range_cons by lia. reflexivity.
    + rewrite range_last by lia. lia.
    + apply get_lr_last; lia.
Qed.

Lemma training_loop_learning_rates_witness :
  In 300000 (range 1 (300000 + 1)) /\
  hd 0 (range 1 (300000 + 1)) = 1 /\
  last (range 1 (300000 + 1)) 0 = 300000 /\
  get_lr (fun _ _ => Raise OverflowError) (fun _ _ => Raise OverflowError)
    300000 300000 default_power = Ok (Float Float64.zero).
Proof.
  split.
  - apply (proj1 (training_loop_learning_rates (fun _ _ => Raise OverflowError)
                    (fun _ _ => Raise OverflowError) 300000)); lia.
  - apply (proj2 (training_loop_learning_rates (fun _ _ => Raise OverflowError)
                    (fun _ _ => Raise OverflowError) 300000)); lia.
Defined.

(** ** The evaluation loop: exceptions *)

Section EvaluateFurther.

Variables Image GT Pred : Type.
Variable model : Image -> result Pred.
Variable metric : Pred -> GT -> result float.

Lemma enumerate_app {A : Type} (xs ys : list A) (start : Z) :
  enumerate (xs ++ ys) start
  = enumerate xs start ++ enumerate ys (start + Z.of_nat (List.length xs)).
Proof.
  revert start; induction xs as [|a xs IH]; intros start; simpl.
  - f_equal; lia.
  - rewrite IH. do 3 f_equal. lia.
Qed.

Lemma evaluate_loop_app (l : eval_locals) (xs ys : list (Z * (Image * GT))) :
  evaluate_loop model metric l (xs ++ ys)
  = (l' <- evaluate_loop model metric l xs ;; evaluate_loop model metric l' ys).
Proof.
  revert l; induction xs as [|a xs IH]; intros l; simpl; [reflexivity|].
  destruct (evaluate_body model metric l a) as [l'|e]; cbn [Py.bind];
    [apply IH | reflexivity].
Qed.

(** X16.  [evaluate] lets the first exception through: when the model or
    the metric raises on a batch and all batches before it returned,
    [evaluate] raises that exception, whatever follows in the loader; no
    partial average is returned. *)
Theorem evaluate_propagates (before after : list (Image * GT)) (image : Image)
    (gt : GT) (ms : list float) (e : exn) :
  batch_mious model metric before = Ok ms ->
  (model image = Raise e \/
   exists pred, model image = Ok pred /\ metric pred gt = Raise e) ->
  evaluate model metric (before ++ (image, gt) :: after) = Raise e.
Proof.
  intros Hms Hraise. unfold evaluate.
  rewrite enumerate_app, evaluate_loop_app.
  rewrite (evaluate_loop_Ok Image GT Pred model metric _ _ _ _ Hms).
  cbn [Py.bind enumerate evaluate_loop]. unfold evaluate_body.
  destruct Hraise as [Hm|(pred & Hm & Hmet)]; rewrite Hm; cbn [Py.bind];
    [reflexivity|].
  rewrite Hmet; reflexivity.
Qed.

End EvaluateFurther.

Lemma evaluate_propagates_witness :
  evaluate (fun image : Z => if image =? 0 then Raise RuntimeError else Ok image)
    (fun (pred : Z) (_ : Z) => Ok (Float64.of_Z pred))
    ([(1, 0); (3, 0)] ++ (0, 0) :: [(5, 0)])
    = Raise RuntimeError.
Proof.
  apply (evaluate_propagates Z Z Z _ _ [(1, 0); (3, 0)] [(5, 0)] 0 0
           [Float64.of_Z 1; Float64.of_Z 3] RuntimeError).
  - reflexivity.
  - left; reflexivity.
Defined.

(** ** The training loop over the data loader *)

Lemma skipn_nth_error {A : Type} (l : list A) (r : nat) (a : A) :
  nth_error l r = Some a -> skipn r l = a :: skipn (S r) l.
Proof.
  revert r; induction l as [|b l IH]; intros [|r] H; simpl in H;
    try discriminate H.
  - injection H as ->; reflexivity.
  - apply IH in H. cbn [skipn] in *. exact H.
Qed.

Section TrainingLoopFurther.

Variables Batch Params : Type.
Variable iter_train_dl : nat -> result (DataIter Batch).
Variable step_rest : Z -> Batch -> Params -> result Params.

Implicit Types (st : loop_state Batch Params) (e : exn) (b : Batch).

(** X18.  With a data loader that yields no batch (as [drop_last] leaves
    it when the dataset is smaller than a batch), the loop does not cycle
    for ever: the [next] of the handler raises [StopIteration] outside the
    [try], and the first step ends the loop with it, after one re-creation
    of the iterator. *)
Theorem training_loop_empty_loader (N_STEPS : Z) st :
  1 <= N_STEPS ->
  train_di st = [] ->
  iter_train_dl (n_iter st) = Ok [] ->
  train_loop iter_train_dl step_rest N_STEPS st
  = (Raise StopIteration,
     mkLoop [] (S (n_iter st)) (calls st ++ [CallNext; CallIter; CallNext])
       (params st)).
Proof.
  intros HN Hdi Hiter. unfold train_loop.
  rewrite range_cons by lia. cbn [train_steps].
  unfold train_step.
  rewrite (draw_exhausted Batch Params iter_train_dl st [] []);
    [reflexivity | rewrite Hdi; reflexivity | exact Hiter].
Qed.

(** The loader of the next three results: its [k]-th iterator yields the
    [n] batches [epochs k] and raises nothing, and the rest of a step
    never raises. *)
Variable epochs : nat -> list Batch.
Variable n : nat.
Hypothesis n_positive : (0 < n)%nat.
Hypothesis epochs_length : forall k, List.length (epochs k) = n.
Hypothesis iter_epochs : forall k, iter_train_dl k = Ok (map Ok (epochs k)).
Hypothesis step_rest_returns : forall s b p, exists p', step_rest s b p = Ok p'.

Lemma draw_at_position (j : nat) st :
  loop_position epochs n j st ->
  exists b st',
    draw iter_train_dl st = (Ok b, st') /\
    nth_error (epochs (j / n)) (j mod n) = Some b /\
    loop_position epochs n (S j) st' /\
    params st' = params st.
Proof.
  intros (q & r & Hj & Hr & Hq & Hdi & Hit).
  destruct (Nat.eq_dec r n) as [E|E].
  - (* the iterator is used up *)
    subst r.
    assert (j / n = S q)%nat as Hdiv
      by (symmetry; apply (Nat.div_unique j n (S q) 0); lia).
    assert (j mod n = 0)%nat as Hmod
      by (symmetry; apply (Nat.mod_unique j n (S q) 0); lia).
    rewrite Hdiv, Hmod.
    destruct (epochs (S q)) as [|b0 rest] eqn:Ee.
    { pose proof (epochs_length (S q)) as L; rewrite Ee in L; simpl in L; lia. }
    exists b0. eexists. split; [|split; [reflexivity|split]].
    + rewrite (draw_exhausted Batch Params iter_train_dl st [] (map Ok (b0 :: rest))).
      * cbn [map next fst snd]. reflexivity.
      * rewrite Hdi, skipn_all2 by (rewrite epochs_length; lia). reflexivity.
      * rewrite Hit, iter_epochs, Ee. reflexivity.
    + exists (S q), 1%nat. cbn [train_di n_iter].
      repeat split; try lia; rewrite ?Ee, ?Hit; reflexivity.
    + reflexivity.
  - (* a batch is left in the iterator *)
    assert (r < n)%nat as Hlt by lia.
    assert (j / n = q)%nat as Hdiv
      by (symmetry; apply (Nat.div_unique j n q r); lia).
    assert (j mod n = r)%nat as Hmod
      by (symmetry; apply (Nat.mod_unique j n q r); lia).
    rewrite Hdiv, Hmod.
    destruct (nth_error (epochs q) r) as [b0|] eqn:En.
    2:{ apply nth_error_None in En. rewrite epochs_length in En. lia. }
    exists b0. eexists. split; [|split; [reflexivity|split]].
    + apply draw_batch. rewrite Hdi, (skipn_nth_error _ _ _ En).
      cbn [map next]. reflexivity.
    + exists q, (S r). cbn [train_di n_iter].
      repeat split; try lia; exact Hit.
    + reflexivity.
Qed.

Lemma train_steps_at_position (steps : list Z) (j : nat) st :
  loop_position epochs n j st ->
  exists st',
    train_steps iter_train_dl step_rest steps st = (Ok tt, st') /\
    loop_position epochs n (j + List.length steps) st'.
Proof.
  revert j st; induction steps as [|s steps IH]; intros j st Hpos.
  - exists st. split; [reflexivity|]. rewrite Nat.add_0_r; exact Hpos.
  - destruct (draw_at_position j st Hpos) as (b & st1 & Hd & _ & Hpos1 & _).
    destruct (step_rest_returns s b (params st1)) as (p' & Hp).
    cbn [train_steps]. unfold train_step. rewrite Hd, Hp.
    destruct (IH (S j) (mkLoop (train_di st1) (n_iter st1) (calls st1) p'))
      as (st' & Hs & Hpos').
    { destruct Hpos1 as (q & r & H1 & H2 & H3 & H4 & H5).
      exists q, r. cbn [train_di n_iter]. auto. }
    exists st'. split; [exact Hs|].
    cbn [List.length]. rewrite Nat.add_succ_r. exact Hpos'.
Qed.

Lemma initial_position st :
  train_di st = map Ok (epochs 0) -> n_iter st = 1%nat ->
  loop_position epochs n 0 st.
Proof.
  intros Hdi Hit. exists 0%nat, 0%nat. cbn [skipn].
  repeat split; try lia; assumption.
Qed.

(** X19.  The loop cycles the data loader: started on the first iterator,
    after any number [j] of steps the next step draws batch [j mod n] of
    the iterator number [j / n], so that every batch of every iterator is
    used once, in order, before the next iterator is made. *)
Theorem training_loop_cycles (steps : list Z) st :
  train_di st = map Ok (epochs 0) -> n_iter st = 1%nat ->
  exists st' b st'',
    train_steps iter_train_dl step_rest steps st = (Ok tt, st') /\
    draw iter_train_dl st' = (Ok b, st'') /\
    nth_error (epochs (List.length steps / n)) (List.length steps mod n) = Some b.
Proof.
  intros Hdi Hit.
  destruct (train_steps_at_position steps 0 st (initial_position st Hdi Hit))
    as (st' & Hs & Hpos).
  cbn [Nat.add] in Hpos.
  destruct (draw_at_position _ st' Hpos) as (b & st'' & Hd & Hb & _).
  exists st', b, st''. auto.
Qed.

(** X20.  With such a loader the loop runs all its [N_STEPS] steps and ends
    without an exception, having called [iter(train_dl)] once at the start
    and once more each time [n] further batches were needed. *)
Theorem training_loop_completes (N_STEPS : Z) st :
  train_di st = map Ok (epochs 0) -> n_iter st = 1%nat ->
  exists st',
    train_loop iter_train_dl step_rest N_STEPS st = (Ok tt, st') /\
    n_iter st' = S ((Z.to_nat N_STEPS - 1) / n).
Proof.
  intros Hdi Hit. unfold train_loop.
  destruct (train_steps_at_position (range 1 (N_STEPS + 1)) 0 st
              (initial_position st Hdi Hit)) as (st' & Hs & Hpos).
  exists st'. split; [exact Hs|].
  rewrite range_length in Hpos. cbn [Nat.add] in Hpos.
  replace (Z.to_nat (N_STEPS + 1 - 1)) with (Z.to_nat N_STEPS) in Hpos by lia.
  destruct Hpos as (q & r & Hj & Hr & Hq & _ & ->). f_equal.
  destruct (Nat.eq_dec r 0) as [->|Hr0].
  - rewrite (Hq eq_refl) in *. rewrite Hj. simpl.
    symmetry; apply Nat.Div0.div_0_l.
  - apply (Nat.div_unique _ n q (r - 1)); lia.
Qed.

End TrainingLoopFurther.

Lemma training_loop_empty_loader_witness :
  train_loop (fun _ : nat => Ok []) (fun (_ : Z) (b : Z) (p : Z) => Ok (p + b))
    300000 (mkLoop [] 1 [CallIter] 0)
  = (Raise StopIteration,
     mkLoop [] 2 ([CallIter] ++ [CallNext; CallIter; CallNext]) 0).
Proof.
  apply (training_loop_empty_loader Z Z (fun _ => Ok [])
           (fun _ b p => Ok (p + b)) 300000 (mkLoop [] 1 [CallIter] 0));
    [lia | reflexivity | reflexivity].
Defined.

Lemma training_loop_cycles_witness :
  exists st' b st'',
    train_steps
      (fun k : nat => Ok (map Ok [10 * Z.of_nat k + 1; 10 * Z.of_nat k + 2]))
      (fun (_ : Z) (b : Z) (p : Z) => Ok (p + b))
      [1; 2; 3] (mkLoop (map Ok [1; 2]) 1 [CallIter] 0) = (Ok tt, st') /\
    draw (fun k : nat => Ok (map Ok [10 * Z.of_nat k + 1; 10 * Z.of_nat k + 2]))
      st' = (Ok b, st'') /\
    nth_error [10 * Z.of_nat (3 / 2) + 1; 10 * Z.of_nat (3 / 2) + 2] (3 mod 2)
      = Some b.
Proof.
  apply (training_loop_cycles Z Z _ (fun _ b p => Ok (p + b))
           (fun k => [10 * Z.of_nat k + 1; 10 * Z.of_nat k + 2]) 2%nat);
    try reflexivity; try lia.
  intros s b p; eexists; reflexivity.
Defined.

Lemma training_loop_completes_witness :
  exists st',
    train_loop
      (fun k : nat => Ok (map Ok [10 * Z.of_nat k + 1; 10 * Z.of_nat k + 2]))
      (fun (_ : Z) (b : Z) (p : Z) => Ok (p + b))
      5 (mkLoop (map Ok [1; 2]) 1 [CallIter] 0) = (Ok tt, st') /\
    n_iter st' = S ((Z.to_nat 5 - 1) / 2).
Proof.
  apply (training_loop_completes Z Z _ (fun _ b p => Ok (p + b))
           (fun k => [10 * Z.of_nat k + 1; 10 * Z.of_nat k + 2]) 2%nat);
    try reflexivity; try lia.
  intros s b p; eexists; reflexivity.
Defined.

(** ** Importing from model.py *)

Section ScriptFurther.

Import Script.

Lemma model_py_run (env : nat -> result unit) :
  (forall l, env l = Ok tt) ->
  exec (model_py env) []
  = ([4; 5; 6; 7; 8; 9; 11; 13; 16; 35; 62; 85; 113; 142; 143; 144]%nat,
     Raise RuntimeError).
Proof.
  intros Henv. unfold model_py. rewrite !Henv. vm_compute. reflexivity.
Qed.

(** X21.  No name can be imported from [model.py], not even one it binds:
    the file's last statement, the trial forward pass, raises, so every
    [from model import ...] raises; when the statements that depend on the
    installation succeed, the exception is the [RuntimeError] of that
    forward pass. *)
Theorem model_py_cannot_be_imported (env : nat -> result unit) (name : string) :
  (exists e, from_import (model_py env) name = Raise e) /\
  ((forall l, env l = Ok tt) ->
   from_import (model_py env) name = Raise RuntimeError /\
   fst (exec (model_py env) [])
     = [4; 5; 6; 7; 8; 9; 11; 13; 16; 35; 62; 85; 113; 142; 143; 144]%nat).
Proof.
  split.
  - destruct (model_py_never_completes env) as [e He].
    unfold from_import. rewrite He. eexists; reflexivity.
  - intros Henv. unfold from_import.
    rewrite (model_py_run env Henv). split; reflexivity.
Qed.

(** X23.  On a working installation the run of [train.py] starts its
    statements up to line 11 and ends there with the [RuntimeError] that
    the trial forward pass of [model.py] raises while the module is
    imported; the name [DeepLabv3ResNet101] is never looked up. *)
Theorem train_py_stops_at_line_11 (env_model env : nat -> result unit) :
  (forall l, env_model l = Ok tt) -> (forall l, env l = Ok tt) ->
  exec (train_py env_model env) []
  = ([1; 2; 3; 4; 5; 6; 7; 8; 10; 11]%nat, Raise RuntimeError).
Proof.
  intros Hm He. unfold train_py, from_import.
  rewrite (model_py_run env_model Hm). rewrite !He.
  cbn [exec run line binds snd Py.bind]. reflexivity.
Qed.

End ScriptFurther.

Lemma train_py_stops_at_line_11_witness :
  Script.exec (Script.train_py (fun _ => Ok tt) (fun _ => Ok tt)) []
  = ([1; 2; 3; 4; 5; 6; 7; 8; 10; 11]%nat, Raise RuntimeError).
Proof.
  apply train_py_stops_at_line_11; intros l; reflexivity.
Defined.

Lemma model_py_cannot_be_imported_witness :
  Script.from_import (Script.model_py (fun _ => Ok tt)) "DeepLabv3"
    = Raise RuntimeError.
Proof.
  apply (proj2 (model_py_cannot_be_imported (fun _ => Ok tt) "DeepLabv3")).
  intros l; reflexivity.
Defined.

(** ** The running loss and its log lines *)

Section LossLog.

Variable N : Z.
Hypothesis N_positive : 0 < N.

Lemma log_losses_app (xs ys : list (Z * float)) (st : loss_log) :
  log_losses N (xs ++ ys) st
  = (st' <- log_losses N xs st ;; log_losses N ys st').
Proof.
  revert st; induction xs as [|[step loss] xs IH]; intros st; simpl;
    [reflexivity|].
  destruct (log_loss N step loss st) as [st'|e]; cbn [Py.bind];
    [apply IH | reflexivity].
Qed.

(** Between two log lines the losses are only added up. *)
Lemma log_losses_silent (k : Z) (losses : list float) (i : Z) (st : loss_log) :
  0 <= i -> i + Z.of_nat (List.length losses) < N ->
  log_losses N (enumerate losses (k * N + i + 1)) st
  = Ok (mkLog (fold_left Float64.add losses (running_loss st)) (printed st)).
Proof.
  revert i st; induction losses as [|l losses IH]; intros i st Hi Hlen.
  - destruct st; reflexivity.
  - cbn [enumerate log_losses List.length] in *.
    unfold log_loss, py_mod.
    destruct (Z.eqb_spec N 0) as [E|_]; [lia|]. cbn [Py.bind].
    assert ((k * N + i + 1) mod N = i + 1) as ->.
    { replace (k * N + i + 1) with (i + 1 + k * N) by lia.
      rewrite Z_mod_plus_full. apply Z.mod_small. lia. }
    destruct (Z.eqb_spec (i + 1) 0) as [E|_]; [lia|]. cbn [Py.bind].
    replace (k * N + i + 1 + 1) with (k * N + (i + 1) + 1) by lia.
    rewrite IH by lia. reflexivity.
Qed.

(** X22.  The log line of a print step shows the losses since the previous
    log line, added one by one from 0 in the order of the steps, each sum
    rounded to a float, and the last sum divided by [N]: from a running loss
    of 0 after step [k * N], the next [N] steps print exactly once, at step
    [(k + 1) * N], and leave the running loss at 0. *)
Theorem log_line_is_block_mean (k : Z) (losses : list float)
    (shown : list (Z * float)) :
  List.length losses = Z.to_nat N ->
  log_losses N (enumerate losses (k * N + 1)) (mkLog Float64.zero shown)
  = (v <- float_div_int (running_sum losses) N ;;
     Ok (mkLog Float64.zero (shown ++ [((k + 1) * N, v)]))).
Proof.
  intros Hlen.
  destruct (exists_last (l := losses)) as (front & l & ->).
  { intros ->; simpl in Hlen; lia. }
  rewrite length_app in Hlen; cbn [List.length] in Hlen.
  rewrite enumerate_app, log_losses_app.
  replace (k * N + 1) with (k * N + 0 + 1) at 1 by lia.
  rewrite log_losses_silent by lia.
  cbn [Py.bind enumerate log_losses running_loss printed].
  unfold log_loss, py_mod.
  destruct (Z.eqb_spec N 0) as [E|_]; [lia|]. cbn [Py.bind running_loss printed].
  assert ((k * N + 1 + Z.of_nat (List.length front)) mod N = 0) as ->.
  { replace (k * N + 1 + Z.of_nat (List.length front)) with (0 + (k + 1) * N)
      by lia.
    rewrite Z_mod_plus_full. apply Z.mod_0_l. lia. }
  cbn [Z.eqb].
  replace (k * N + 1 + Z.of_nat (List.length front)) with ((k + 1) * N) by lia.
  unfold running_sum. rewrite fold_left_app. cbn [fold_left].
  destruct (float_div_int _ N); reflexivity.
Qed.

End LossLog.

Lemma log_line_is_block_mean_witness :
  log_losses 3
    (enumerate (repeat (S754_finite false 7205759403792794 (-56)) 3) (4 * 3 + 1))
    (mkLog Float64.zero [])
  = Ok (mkLog Float64.zero [(15, S754_finite false 7205759403792795 (-56))]).
Proof.
  exact (log_line_is_block_mean 3 ltac:(lia) 4
           (repeat (S754_finite false 7205759403792794 (-56)) 3) [] eq_refl).
Defined.
